(** * Quality-gated repository analysis pipeline

    A shallow embedding of [src/tools.py], [src/agents.py] and
    [src/workflow.py]: the fetch tool, the six LangGraph nodes, the
    sequential workflow and the quality summary.

    Python values are modelled with the types the code gives them:
    [str] as the [string] of its UTF-8 bytes, [int] as [Z], [bool] as
    [bool], a [dict] whose keys may be missing as a record of [option]
    fields, a [Dict[str, str]] of files as an insertion-ordered
    association list.  An exception is
    modelled by its message [str(e)].  The external services (GitHub, the
    LLM chains, the vector store, Cloud Run) are oracles that read and
    change an abstract world, so two calls with the same arguments may
    answer differently. *)

From Stdlib Require Import ZArith List String Ascii Bool Lia DecimalString.
From Equations Require Import Equations.
Import ListNotations.
Open Scope string_scope.

(** ** Python strings *)

Module PyStr.

(** [c.upper()] on one character.  Only the ASCII letters are mapped.
    A code point outside ASCII is a sequence of bytes above 127 in UTF-8;
    the only one whose upper-case form holds a letter of the word
    searched below is U+1E9A, which becomes A followed by U+02BE, and so
    cannot begin an occurrence of that word. *)
Definition upper_ascii (c : ascii) : ascii :=
  let n := nat_of_ascii c in
  if ((97 <=? n) && (n <=? 122))%nat then ascii_of_nat (n - 32) else c.

(** [s.upper()] *)
Fixpoint upper (s : string) : string :=
  match s with
  | EmptyString => EmptyString
  | String c s' => String (upper_ascii c) (upper s')
  end.

(** [s.startswith(p)] *)
Fixpoint startswith (p s : string) : bool :=
  match p, s with
  | EmptyString, _ => true
  | String _ _, EmptyString => false
  | String a p', String b s' => Ascii.eqb a b && startswith p' s'
  end.

(** [needle in hay] *)
Fixpoint contains (needle hay : string) : bool :=
  match hay with
  | EmptyString => startswith needle EmptyString
  | String _ hay' => startswith needle hay || contains needle hay'
  end.

(** [sep.join(parts)] *)
Fixpoint join (sep : string) (parts : list string) : string :=
  match parts with
  | [] => EmptyString
  | [p] => p
  | p :: ps => p ++ sep ++ join sep ps
  end.

(** [str(n)] for an [int] *)
Definition str_of_int (n : Z) : string := NilZero.string_of_int (Z.to_int n).

(** the newline character of the f-strings *)
Definition nl : string := String (ascii_of_nat 10) EmptyString.

(** [bool(s)]: a string is truthy when it is not empty *)
Definition truthy (s : string) : bool :=
  match s with EmptyString => false | String _ _ => true end.

(** White space, as removed by [s.strip()].  A Python string is a
    sequence of code points, held here as its UTF-8 bytes.  The code
    points for which [str.isspace] holds are U+0009 to U+000D, U+001C to
    U+0020, U+0085, U+00A0, U+1680, U+2000 to U+200A, U+2028, U+2029,
    U+202F, U+205F and U+3000: one, two or three bytes each. *)

(** One byte: U+0009 to U+000D and U+001C to U+0020. *)
Definition isspace1 (a : ascii) : bool :=
  let n := nat_of_ascii a in
  (((9 <=? n) && (n <=? 13)) || ((28 <=? n) && (n <=? 32)))%nat.

(** Two bytes: U+0085 is C2 85 and U+00A0 is C2 A0. *)
Definition isspace2 (a b : ascii) : bool :=
  let n := nat_of_ascii a in
  let m := nat_of_ascii b in
  ((n =? 194) && ((m =? 133) || (m =? 160)))%nat.

(** Three bytes: U+1680 is E1 9A 80; U+2000 to U+200A are E2 80 80 to
    E2 80 8A; U+2028, U+2029 and U+202F are E2 80 A8, E2 80 A9 and
    E2 80 AF; U+205F is E2 81 9F; U+3000 is E3 80 80. *)
Definition isspace3 (a b c : ascii) : bool :=
  let n := nat_of_ascii a in
  let m := nat_of_ascii b in
  let k := nat_of_ascii c in
  (((n =? 225) && (m =? 154) && (k =? 128))
   || ((n =? 226) && (m =? 128)
       && (((128 <=? k) && (k <=? 138))
           || (k =? 168) || (k =? 169) || (k =? 175)))
   || ((n =? 226) && (m =? 129) && (k =? 159))
   || ((n =? 227) && (m =? 128) && (k =? 128)))%nat.

(** What follows the first character of [s], when that character is
    white space. *)
Definition after_space (s : string) : option string :=
  match s with
  | EmptyString => None
  | String a s1 =>
      if isspace1 a then Some s1
      else
        match s1 with
        | EmptyString => None
        | String b s2 =>
            if isspace2 a b then Some s2
            else
              match s2 with
              | EmptyString => None
              | String c s3 => if isspace3 a b c then Some s3 else None
              end
        end
  end.

(** [s.lstrip()]: the white-space characters at the start are dropped one
    after the other. *)
Fixpoint lstrip (s : string) : string :=
  match s with
  | EmptyString => EmptyString
  | String a s1 =>
      if isspace1 a then lstrip s1
      else
        match s1 with
        | EmptyString => s
        | String b s2 =>
            if isspace2 a b then lstrip s2
            else
              match s2 with
              | EmptyString => s
              | String c s3 => if isspace3 a b c then lstrip s3 else s
              end
        end
  end.

(** [s.rstrip()]: the string is cut where only white space follows. *)
Fixpoint rstrip (s : string) : string :=
  match s with
  | EmptyString => EmptyString
  | String a s' =>
      match lstrip s with
      | EmptyString => EmptyString
      | String _ _ => String a (rstrip s')
      end
  end.

(** [s.strip()] *)
Definition strip (s : string) : string := rstrip (lstrip s).

(** The string of the given bytes. *)
Definition utf8 (bytes : list nat) : string :=
  fold_right (fun n s => String (ascii_of_nat n) s) EmptyString bytes.

(** The white-space characters, each as its UTF-8 bytes. *)
Definition whitespace : list string :=
  map utf8
    [ [9]; [10]; [11]; [12]; [13]; [28]; [29]; [30]; [31]; [32];
      [194; 133]; [194; 160]; [225; 154; 128];
      [226; 128; 128]; [226; 128; 129]; [226; 128; 130]; [226; 128; 131];
      [226; 128; 132]; [226; 128; 133]; [226; 128; 134]; [226; 128; 135];
      [226; 128; 136]; [226; 128; 137]; [226; 128; 138];
      [226; 128; 168]; [226; 128; 169]; [226; 128; 175];
      [226; 129; 159]; [227; 128; 128] ]%nat.

(** [s.split(sep)] for a one-character separator: the pieces between
    the separators, so the result is never empty. *)
Fixpoint split (sep : ascii) (s : string) : list string :=
  match s with
  | EmptyString => [EmptyString]
  | String c s' =>
      if Ascii.eqb c sep then EmptyString :: split sep s'
      else match split sep s' with
           | [] => [String c EmptyString]
           | p :: ps => String c p :: ps
           end
  end.

End PyStr.

(** ** Exceptions and effects *)

(** The outcome of a Python computation: a value, or an exception of class
    [Exception] carried as its message. *)
Inductive result (A : Type) : Type :=
| Ok (a : A)
| Raise (e : string).
Arguments Ok {A} a.
Arguments Raise {A} e.

(** A computation that may change the world and may raise. *)
Definition M (W A : Type) : Type := W -> result A * W.

Definition ret {W A} (a : A) : M W A := fun w => (Ok a, w).

Definition raise {W A} (e : string) : M W A := fun w => (Raise e, w).

Definition bind {W A B} (m : M W A) (k : A -> M W B) : M W B :=
  fun w =>
    match m w with
    | (Ok a, w') => k a w'
    | (Raise e, w') => (Raise e, w')
    end.

(** [try: body except Exception as e: handler(e)] *)
Definition try_except {W A} (body : M W A) (handler : string -> M W A) : M W A :=
  fun w =>
    match body w with
    | (Ok a, w') => (Ok a, w')
    | (Raise e, w') => handler e w'
    end.

(** lifting a pure outcome *)
Definition lift {W A} (r : result A) : M W A := fun w => (r, w).

Declare Scope py_scope.
Delimit Scope py_scope with py.
Notation "x <- m ;; k" := (bind m (fun x => k))
  (at level 61, m at next level, right associativity) : py_scope.
Notation "m ;;; k" := (bind m (fun _ => k))
  (at level 61, right associativity) : py_scope.
Open Scope py_scope.

(** ** Data model *)

(** [Dict[str, str]]: file path to content, in insertion order. *)
Definition Files := list (string * string).

(** [d[k] = v]: an existing key keeps its place, a new one goes last. *)
Fixpoint dict_set (k v : string) (d : Files) : Files :=
  match d with
  | [] => [(k, v)]
  | (k', v') :: d' =>
      if String.eqb k' k then (k, v) :: d' else (k', v') :: dict_set k v d'
  end.

(** The repository metadata that only the LLM prompt reads. *)
Record RepoMeta : Type := {
  language : option string;
  stars : Z;
  forks : Z;
  url : string;
  created_at : string;
  updated_at : string
}.

(** One element of [repos_data]: a [Dict[str, Any]].  A key that a
    producer leaves out is [None]. *)
Record Snapshot : Type := {
  name : option string;
  description : option string;
  meta : option RepoMeta;
  error : option string;
  files : option Files;
  total_files_processed : option Z
}.

(** A quality review: [{}] at the start, then the three keys. *)
Record Review : Type := {
  review : option string;
  approved : option bool;
  reviewer : option string
}.

Definition empty_review : Review :=
  {| review := None; approved := None; reviewer := None |}.

(** [class AgentState(TypedDict)]: every key is required. *)
Record AgentState : Type := {
  username : string;
  repos : string;
  repos_data : list Snapshot;
  analyses : list string;
  final_report : string;
  data_quality_review : Review;
  analysis_quality_review : Review;
  final_quality_review : Review
}.

Definition set_repos_data (v : list Snapshot) (s : AgentState) : AgentState :=
  {| username := username s; repos := repos s; repos_data := v;
     analyses := analyses s; final_report := final_report s;
     data_quality_review := data_quality_review s;
     analysis_quality_review := analysis_quality_review s;
     final_quality_review := final_quality_review s |}.

Definition set_analyses (v : list string) (s : AgentState) : AgentState :=
  {| username := username s; repos := repos s; repos_data := repos_data s;
     analyses := v; final_report := final_report s;
     data_quality_review := data_quality_review s;
     analysis_quality_review := analysis_quality_review s;
     final_quality_review := final_quality_review s |}.

Definition set_final_report (v : string) (s : AgentState) : AgentState :=
  {| username := username s; repos := repos s; repos_data := repos_data s;
     analyses := analyses s; final_report := v;
     data_quality_review := data_quality_review s;
     analysis_quality_review := analysis_quality_review s;
     final_quality_review := final_quality_review s |}.

Definition set_data_quality_review (v : Review) (s : AgentState) : AgentState :=
  {| username := username s; repos := repos s; repos_data := repos_data s;
     analyses := analyses s; final_report := final_report s;
     data_quality_review := v;
     analysis_quality_review := analysis_quality_review s;
     final_quality_review := final_quality_review s |}.

Definition set_analysis_quality_review (v : Review) (s : AgentState) : AgentState :=
  {| username := username s; repos := repos s; repos_data := repos_data s;
     analyses := analyses s; final_report := final_report s;
     data_quality_review := data_quality_review s;
     analysis_quality_review := v;
     final_quality_review := final_quality_review s |}.

Definition set_final_quality_review (v : Review) (s : AgentState) : AgentState :=
  {| username := username s; repos := repos s; repos_data := repos_data s;
     analyses := analyses s; final_report := final_report s;
     data_quality_review := data_quality_review s;
     analysis_quality_review := analysis_quality_review s;
     final_quality_review := v |}.

(** ** The GitHub fetch tool ([src/tools.py]) *)

(** What PyGithub hands back for one entry of a repository: a directory,
    whose listing may fail, or anything else, whose content may fail to
    decode.  A repository tree is finite. *)
#[warnings="-register-all"]
Inductive ContentFile : Type :=
| File (path : string) (size : Z) (decoded_content : result string)
| Dir (path : string) (listing : result (list ContentFile)).

(** A [Repository] object: its attributes and the outcome of
    [repo.get_contents] on the root path. *)
Record Repository : Type := {
  repo_name : string;
  repo_description : option string;
  repo_meta : RepoMeta;
  root_contents : result (list ContentFile)
}.

(** A [NamedUser] object: [get_repos()] and [get_repo(name)]. *)
Record NamedUser : Type := {
  get_repos : result (list Repository);
  get_repo : string -> result Repository
}.

Definition max_files : Z := 50.

(** number of entries in a listing, sub-directories included *)
Fixpoint tree_size (c : ContentFile) : nat :=
  match c with
  | File _ _ _ => 1
  | Dir _ (Raise _) => 1
  | Dir _ (Ok l) =>
      S ((fix forest (l : list ContentFile) : nat :=
            match l with
            | [] => 0
            | c' :: l' => tree_size c' + forest l'
            end) l)
  end.

Fixpoint forest_size (l : list ContentFile) : nat :=
  match l with
  | [] => 0
  | c :: l' => tree_size c + forest_size l'
  end.

(** The body run for a popped entry that is not a directory
    (lines 45-55): both the [try] and the [except] store a text under
    the path. *)
Definition read_file (path : string) (size : Z) (decoded : result string)
    (files : Files) : Files :=
  if (size >? 100000)%Z then
    dict_set path
      ("[Large file - " ++ PyStr.str_of_int size ++ " bytes - content truncated]")
      files
  else
    match decoded with
    | Ok content => dict_set path content files
    | Raise e => dict_set path ("[Error reading file: " ++ e ++ "]") files
    end.

(** The [while contents and processed_files < max_files] loop
    (lines 36-55).  A directory is replaced by its listing at the end of
    the queue, or dropped when the listing fails; any other entry adds
    one text to [files] and one to the counter. *)
Equations? walk (contents : list ContentFile) (files : Files)
    (processed_files : Z) : Files * Z by wf (forest_size contents) lt :=
  walk [] files processed_files := (files, processed_files);
  walk (file :: contents) files processed_files
    with (processed_files <? max_files)%Z := {
    | false := (files, processed_files);
    | true with file := {
      | Dir _ (Ok sub) := walk (contents ++ sub) files processed_files;
      | Dir _ (Raise _) := walk contents files processed_files;
      | File path size decoded :=
          walk contents (read_file path size decoded files)
            (processed_files + 1)%Z } }.
Proof.
  all: try change (forest_size (contents ++ sub)
                   < S (forest_size sub + forest_size contents)).
  all: try (clear walk; induction contents as [|c contents IH]; simpl in *).
  all: lia.
Qed.

(** [x or empty]: the text, or the empty text for [None] or an empty one *)
Definition or_empty (x : option string) : string :=
  match x with
  | Some s => s
  | None => EmptyString
  end.

(** The body of the [for repo in repos] loop (lines 29-79). *)
Definition fetch_repo (repo : Repository) : Snapshot :=
  match root_contents repo with
  | Ok contents =>
      let '(files, processed_files) := walk contents [] 0 in
      {| name := Some (repo_name repo);
         description := Some (or_empty (repo_description repo));
         meta := Some (repo_meta repo);
         error := None;
         files := Some files;
         total_files_processed := Some processed_files |}
  | Raise e =>
      {| name := Some (repo_name repo);
         description := Some (or_empty (repo_description repo));
         meta := None;
         error := Some ("Could not access repository: " ++ e);
         files := Some [];
         total_files_processed := Some 0%Z |}
  end.

(** [[user.get_repo(name) for name in repo_list]]: the first failure
    ends the comprehension. *)
Fixpoint get_each (user : NamedUser) (repo_list : list string)
    : result (list Repository) :=
  match repo_list with
  | [] => Ok []
  | n :: ns =>
      match get_repo user n with
      | Raise e => Raise e
      | Ok r =>
          match get_each user ns with
          | Raise e => Raise e
          | Ok rs => Ok (r :: rs)
          end
      end
  end.

(** Lines 21-25: the first ten repositories, or the named ones. *)
Definition select_repos (user : NamedUser) (repo_names : string)
    : result (list Repository) :=
  if String.eqb repo_names "all" then
    match get_repos user with
    | Ok l => Ok (firstn 10 l)
    | Raise e => Raise e
    end
  else
    get_each user (map PyStr.strip (PyStr.split "," repo_names)).

Section GithubTool.

Context {World : Type}.

(** [Github(token).get_user(username)] *)
Variable get_user : string -> M World NamedUser.

(** What LangChain's [invoke] does around the function body (input
    validation, callbacks); it may raise. *)
Variable tool_run : M World unit.

(** [fetch_github_repos(username, repo_names)] *)
Definition fetch_github_repos (username repo_names : string)
    : M World (list Snapshot) :=
  try_except
    (user <- get_user username ;;
     repos <- lift (select_repos user repo_names) ;;
     ret (map fetch_repo repos))
    (fun e =>
       ret [ {| name := None; description := None; meta := None;
                error := Some ("Failed to fetch repositories for user "
                               ++ username ++ ": " ++ e);
                files := Some [];
                total_files_processed := Some 0%Z |} ]).

(** [fetch_github_repos.invoke({...})] *)
Definition fetch_github_repos_invoke (username repo_names : string)
    : M World (list Snapshot) :=
  tool_run ;;; fetch_github_repos username repo_names.

End GithubTool.

(** ** The injected capabilities *)

(** The five [LLMChain]s of [src/agents.py], each the pair of an entry
    of [AGENT_LLM_CONFIG] and its prompt template. *)
Inductive Chain : Type :=
| data_reviewer
| analyzer
| analysis_reviewer
| synthesizer
| final_reviewer.

(** The dictionary answered by [call_cloud_run]; [data] is held as the
    text the f-string prints. *)
Record CloudResult : Type := {
  success : option bool;
  data : option string
}.

Record Capabilities (World : Type) : Type := {
  (** [fetch_github_repos.invoke] *)
  fetch_invoke : string -> string -> M World (list Snapshot);
  (** [LLMChain(llm=..., prompt=...).run(...)] on the text substituted
      into the template *)
  chain_run : Chain -> string -> M World string;
  (** whether the FAISS and embeddings imports succeeded *)
  vector_available : bool;
  (** [OpenAIEmbeddings()] then [FAISS.from_documents(docs, embeddings)]
      on the (path, content) pairs *)
  from_documents : list (string * string) -> M World unit;
  (** [os.getenv(key)] as evaluated inside [agents.py]; the module does
      not import [os], so there it raises a [NameError] *)
  os_getenv : string -> M World (option string);
  (** [call_cloud_run.invoke] on an endpoint, a repository name and its
      files *)
  call_cloud_run_invoke : string -> string -> Files -> M World CloudResult;
  (** [str(repo)] of a snapshot dictionary *)
  py_str : Snapshot -> string
}.
Arguments fetch_invoke {World} _ _ _ _.
Arguments chain_run {World} _ _ _ _.
Arguments vector_available {World} _.
Arguments from_documents {World} _ _ _.
Arguments os_getenv {World} _ _ _.
Arguments call_cloud_run_invoke {World} _ _ _ _ _.
Arguments py_str {World} _ _.

(** ** The nodes ([src/agents.py]) *)

(** [d[key]] on a dictionary that may lack the key: a [KeyError], whose
    text is the quoted key. *)
Definition getitem {A} (key : string) (v : option A) : result A :=
  match v with
  | Some a => Ok a
  | None => Raise ("'" ++ key ++ "'")
  end.

(** [bool(x)] for a text that may be [None] *)
Definition truthy_opt (v : option string) : bool :=
  match v with
  | Some s => PyStr.truthy s
  | None => false
  end.

(** [bool(repo.get("files"))]: present and not empty *)
Definition truthy_files (v : option Files) : bool :=
  match v with
  | Some (_ :: _) => true
  | _ => false
  end.

(** [repo.get("files", {})] *)
Definition files_or_empty (v : option Files) : Files :=
  match v with
  | Some f => f
  | None => []
  end.

(** [repo.get('name', 'unknown')] *)
Definition name_or_unknown (repo : Snapshot) : string :=
  match name repo with
  | Some n => n
  | None => "unknown"
  end.

Section Nodes.

Context {World : Type}.
Variable caps : Capabilities World.

(** [str(state["repos_data"])]: the list display of the snapshots *)
Definition str_repos_data (l : list Snapshot) : string :=
  "[" ++ PyStr.join ", " (map (py_str caps) l) ++ "]".

Definition fetcher_node (state : AgentState) : M World AgentState :=
  try_except
    (repos_data <- fetch_invoke caps (username state) (repos state) ;;
     ret (set_repos_data repos_data state))
    (fun e =>
       ret (set_repos_data
              [ {| name := None; description := None; meta := None;
                   error := Some ("Failed to fetch repository data: " ++ e);
                   files := Some [];
                   total_files_processed := Some 0%Z |} ]
              state)).

Definition data_quality_reviewer_node (state : AgentState) : M World AgentState :=
  try_except
    (review <- chain_run caps data_reviewer (str_repos_data (repos_data state)) ;;
     let approved := PyStr.contains "APPROVED" (PyStr.upper review) in
     ret (set_data_quality_review
            (Build_Review (Some review) (Some approved)
               (Some "Data Quality Reviewer"))
            state))
    (fun e =>
       ret (set_data_quality_review
              (Build_Review (Some ("Error during data quality review: " ++ e))
                 (Some false) (Some "Data Quality Reviewer"))
              state)).

(** Lines 235-250: the optional vector analysis of one repository. *)
Definition vector_step (repo : Snapshot) : M World string :=
  if vector_available caps && truthy_files (files repo) then
    try_except
      (let docs :=
         filter (fun '(path, content) => PyStr.truthy content)
                (files_or_empty (files repo)) in
       match docs with
       | [] => ret EmptyString
       | _ :: _ =>
           from_documents caps docs ;;;
           ret (PyStr.nl ++ PyStr.nl ++ "Vector Analysis: Processed "
                ++ PyStr.str_of_int (Z.of_nat (List.length docs))
                ++ " files for semantic analysis.")
       end)
      (fun _ =>
         ret (PyStr.nl ++ PyStr.nl
              ++ "Vector Analysis: Not available for this repository."))
  else ret EmptyString.

(** Lines 257-268: the optional Cloud Run call of one repository. *)
Definition cloud_step (repo : Snapshot) : M World string :=
  try_except
    (cloud_run_url <- os_getenv caps "CLOUD_RUN_URL" ;;
     configured <-
       (if truthy_opt cloud_run_url then
          cloud_run_token <- os_getenv caps "CLOUD_RUN_TOKEN" ;;
          ret (truthy_opt cloud_run_token)
        else ret false) ;;
     if (configured : bool) then
       repository <- lift (getitem "name" (name repo)) ;;
       cloud_result <-
         call_cloud_run_invoke caps "/analyze" repository
           (files_or_empty (files repo)) ;;
       match success cloud_result with
       | Some true =>
           d <- lift (getitem "data" (data cloud_result)) ;;
           ret (PyStr.nl ++ PyStr.nl ++ "Cloud Analysis: " ++ d)
       | _ => ret EmptyString
       end
     else ret EmptyString)
    (fun _ => ret EmptyString).

(** The body of the [for repo in state["repos_data"]] loop
    (lines 233-274): the text appended to [analyses]. *)
Definition analyze_repo (repo : Snapshot) : M World string :=
  try_except
    (vector_insight <- vector_step repo ;;
     analysis <- chain_run caps analyzer (py_str caps repo) ;;
     cloud_insight <- cloud_step repo ;;
     let full_analysis := analysis ++ vector_insight ++ cloud_insight in
     ret full_analysis)
    (fun e =>
       ret ("Error analyzing repository " ++ name_or_unknown repo ++ ": " ++ e)).

(** The loop, with the list built so far. *)
Fixpoint analyze_loop (repos_data : list Snapshot) (analyses : list string)
    : M World (list string) :=
  match repos_data with
  | [] => ret analyses
  | repo :: rest =>
      a <- analyze_repo repo ;;
      analyze_loop rest (analyses ++ [a])
  end.

Definition analyzer_node (state : AgentState) : M World AgentState :=
  analyses <- analyze_loop (repos_data state) [] ;;
  ret (set_analyses analyses state).

Definition analysis_quality_reviewer_node (state : AgentState)
    : M World AgentState :=
  try_except
    (let all_analyses := PyStr.join " " (analyses state) in
     review <- chain_run caps analysis_reviewer all_analyses ;;
     let approved := PyStr.contains "APPROVED" (PyStr.upper review) in
     ret (set_analysis_quality_review
            (Build_Review (Some review) (Some approved)
               (Some "Analysis Quality Reviewer"))
            state))
    (fun e =>
       ret (set_analysis_quality_review
              (Build_Review (Some ("Error during analysis quality review: " ++ e))
                 (Some false) (Some "Analysis Quality Reviewer"))
              state)).

Definition synthesizer_node (state : AgentState) : M World AgentState :=
  try_except
    (final_report <-
       chain_run caps synthesizer
         (PyStr.join (PyStr.nl ++ PyStr.nl) (analyses state)) ;;
     ret (set_final_report final_report state))
    (fun e => ret (set_final_report ("Error during synthesis: " ++ e) state)).

Definition final_quality_reviewer_node (state : AgentState)
    : M World AgentState :=
  try_except
    (review <- chain_run caps final_reviewer (final_report state) ;;
     let approved := PyStr.contains "APPROVED" (PyStr.upper review) in
     ret (set_final_quality_review
            (Build_Review (Some review) (Some approved)
               (Some "Final Quality Reviewer"))
            state))
    (fun e =>
       ret (set_final_quality_review
              (Build_Review (Some ("Error during final quality review: " ++ e))
                 (Some false) (Some "Final Quality Reviewer"))
              state)).

(** ** The workflow ([src/workflow.py]) *)

(** [workflow.invoke]: the graph is the chain of edges
    fetcher, data_quality_reviewer, analyzer, analysis_quality_reviewer,
    synthesizer, final_quality_reviewer, END. *)
Definition workflow_invoke (initial_state : AgentState) : M World AgentState :=
  s1 <- fetcher_node initial_state ;;
  s2 <- data_quality_reviewer_node s1 ;;
  s3 <- analyzer_node s2 ;;
  s4 <- analysis_quality_reviewer_node s3 ;;
  s5 <- synthesizer_node s4 ;;
  final_quality_reviewer_node s5.

Definition run_analysis (username repos : string) : M World AgentState :=
  let initial_state :=
    {| username := username;
       repos := repos;
       repos_data := [];
       analyses := [];
       final_report := EmptyString;
       data_quality_review := empty_review;
       analysis_quality_review := empty_review;
       final_quality_review := empty_review |} in
  workflow_invoke initial_state.

End Nodes.

(** The [result: dict] read by [get_quality_summary]: a plain [dict], so
    any key may be missing. *)
Record ResultDict : Type := {
  key_username : option string;
  key_repos : option string;
  key_repos_data : option (list Snapshot);
  key_analyses : option (list string);
  key_final_report : option string;
  key_data_quality_review : option Review;
  key_analysis_quality_review : option Review;
  key_final_quality_review : option Review
}.

(** The dictionary that [run_analysis] returns holds every key. *)
Definition as_dict (s : AgentState) : ResultDict :=
  {| key_username := Some (username s);
     key_repos := Some (repos s);
     key_repos_data := Some (repos_data s);
     key_analyses := Some (analyses s);
     key_final_report := Some (final_report s);
     key_data_quality_review := Some (data_quality_review s);
     key_analysis_quality_review := Some (analysis_quality_review s);
     key_final_quality_review := Some (final_quality_review s) |}.

(** [d.get(key, default)] *)
Definition get {A} (v : option A) (default : A) : A :=
  match v with
  | Some a => a
  | None => default
  end.

(** [sum(...)] of integers *)
Definition sum (l : list Z) : Z := fold_left Z.add l 0%Z.

Module Summary.

(** The dictionary returned by [get_quality_summary]. *)
Record t : Type := {
  overall_approved : bool;
  repositories_analyzed : Z;
  total_files_processed : Z;
  data_quality : Review;
  analysis_quality : Review;
  final_quality : Review
}.

End Summary.

Definition get_quality_summary (result : ResultDict) : Summary.t :=
  let data_quality := get (key_data_quality_review result) empty_review in
  let analysis_quality := get (key_analysis_quality_review result) empty_review in
  let final_quality := get (key_final_quality_review result) empty_review in
  let repos_data := get (key_repos_data result) [] in
  let repositories_analyzed :=
    Z.of_nat (List.length
                (filter (fun r => negb (truthy_opt (error r))) repos_data)) in
  let total_files_processed :=
    sum (map (fun r => get (total_files_processed r) 0%Z) repos_data) in
  let all_approved :=
    get (approved data_quality) false
    && get (approved analysis_quality) false
    && get (approved final_quality) false in
  {| Summary.overall_approved := all_approved;
     Summary.repositories_analyzed := repositories_analyzed;
     Summary.total_files_processed := total_files_processed;
     Summary.data_quality := data_quality;
     Summary.analysis_quality := analysis_quality;
     Summary.final_quality := final_quality |}.

(** ** Vocabulary of the specification *)

(** [u] is an upper-case ASCII letter and [l] the same letter in lower
    case. *)
Definition letter_pair (u l : ascii) : Prop :=
  exists i, i < 26 /\ u = ascii_of_nat (65 + i) /\ l = ascii_of_nat (97 + i).

Definition same_letter (c d : ascii) : Prop :=
  c = d \/ letter_pair c d \/ letter_pair d c.

(** Two texts that differ at most in the case of their letters. *)
Inductive equal_ignoring_case : string -> string -> Prop :=
| eic_nil : equal_ignoring_case EmptyString EmptyString
| eic_cons (c d : ascii) (s t : string) :
    same_letter c d -> equal_ignoring_case s t ->
    equal_ignoring_case (String c s) (String d t).

(** [word] occurs somewhere in [text], in any mix of cases. *)
Definition occurs_ignoring_case (word text : string) : Prop :=
  exists before middle after,
    text = before ++ middle ++ after /\ equal_ignoring_case middle word.

(** The six stages, in pipeline order. *)
Inductive Stage : Type :=
| Fetch
| DataQualityReview
| Analyze
| AnalysisQualityReview
| Synthesize
| FinalQualityReview.

(** The keys of the state. *)
Inductive Field : Type :=
| f_username
| f_repos
| f_repos_data
| f_analyses
| f_final_report
| f_data_quality_review
| f_analysis_quality_review
| f_final_quality_review.

(** The key a stage assigns. *)
Definition owns (st : Stage) : Field :=
  match st with
  | Fetch => f_repos_data
  | DataQualityReview => f_data_quality_review
  | Analyze => f_analyses
  | AnalysisQualityReview => f_analysis_quality_review
  | Synthesize => f_final_report
  | FinalQualityReview => f_final_quality_review
  end.

(** Two states hold the same value under a key. *)
Definition agree (f : Field) (s s' : AgentState) : Prop :=
  match f with
  | f_username => username s = username s'
  | f_repos => repos s = repos s'
  | f_repos_data => repos_data s = repos_data s'
  | f_analyses => analyses s = analyses s'
  | f_final_report => final_report s = final_report s'
  | f_data_quality_review => data_quality_review s = data_quality_review s'
  | f_analysis_quality_review =>
      analysis_quality_review s = analysis_quality_review s'
  | f_final_quality_review => final_quality_review s = final_quality_review s'
  end.

(** The three review stages. *)
Inductive Gate : Type :=
| DataQuality
| AnalysisQuality
| FinalQuality.

Definition gate_record (g : Gate) (s : AgentState) : Review :=
  match g with
  | DataQuality => data_quality_review s
  | AnalysisQuality => analysis_quality_review s
  | FinalQuality => final_quality_review s
  end.

Definition gate_chain (g : Gate) : Chain :=
  match g with
  | DataQuality => data_reviewer
  | AnalysisQuality => analysis_reviewer
  | FinalQuality => final_reviewer
  end.

Definition gate_error_prefix (g : Gate) : string :=
  match g with
  | DataQuality => "Error during data quality review: "
  | AnalysisQuality => "Error during analysis quality review: "
  | FinalQuality => "Error during final quality review: "
  end.

Definition gate_label (g : Gate) : string :=
  match g with
  | DataQuality => "Data Quality Reviewer"
  | AnalysisQuality => "Analysis Quality Reviewer"
  | FinalQuality => "Final Quality Reviewer"
  end.

Definition set_gate_record (g : Gate) : Review -> AgentState -> AgentState :=
  match g with
  | DataQuality => set_data_quality_review
  | AnalysisQuality => set_analysis_quality_review
  | FinalQuality => set_final_quality_review
  end.

Definition snapshot_errored (r : Snapshot) : bool :=
  match error r with
  | Some _ => true
  | None => false
  end.

Section StageTable.

Context {World : Type}.
Variable caps : Capabilities World.

Definition run_stage (st : Stage) : AgentState -> M World AgentState :=
  match st with
  | Fetch => fetcher_node caps
  | DataQualityReview => data_quality_reviewer_node caps
  | Analyze => analyzer_node caps
  | AnalysisQualityReview => analysis_quality_reviewer_node caps
  | Synthesize => synthesizer_node caps
  | FinalQualityReview => final_quality_reviewer_node caps
  end.

Definition gate_node (g : Gate) : AgentState -> M World AgentState :=
  match g with
  | DataQuality => data_quality_reviewer_node caps
  | AnalysisQuality => analysis_quality_reviewer_node caps
  | FinalQuality => final_quality_reviewer_node caps
  end.

(** The text a review stage gives to its chain. *)
Definition gate_input (g : Gate) (s : AgentState) : string :=
  match g with
  | DataQuality => str_repos_data caps (repos_data s)
  | AnalysisQuality => PyStr.join " " (analyses s)
  | FinalQuality => final_report s
  end.

(** The workflow up to and including the synthesizer. *)
Definition upto_synthesizer (initial_state : AgentState) : M World AgentState :=
  s1 <- fetcher_node caps initial_state ;;
  s2 <- data_quality_reviewer_node caps s1 ;;
  s3 <- analyzer_node caps s2 ;;
  s4 <- analysis_quality_reviewer_node caps s3 ;;
  synthesizer_node caps s4.

(** The text stored for a repository whose analysis raised [e]. *)
Definition analysis_error (repo : Snapshot) (e : string) : string :=
  "Error analyzing repository " ++ name_or_unknown repo ++ ": " ++ e.

End StageTable.

(** The capabilities of the program as deployed: the fetch capability is
    the tool of [src/tools.py] over a GitHub session. *)
Definition with_github_tool {World : Type}
    (get_user : string -> M World NamedUser) (tool_run : M World unit)
    (caps : Capabilities World) : Capabilities World :=
  {| fetch_invoke := fetch_github_repos_invoke get_user tool_run;
     chain_run := chain_run caps;
     vector_available := vector_available caps;
     from_documents := from_documents caps;
     os_getenv := os_getenv caps;
     call_cloud_run_invoke := call_cloud_run_invoke caps;
     py_str := py_str caps |}.

(** The state handed to the first node by [run_analysis]. *)
Definition initial_state (username repos : string) : AgentState :=
  {| username := username;
     repos := repos;
     repos_data := [];
     analyses := [];
     final_report := EmptyString;
     data_quality_review := empty_review;
     analysis_quality_review := empty_review;
     final_quality_review := empty_review |}.

(** The mathematical sum of a list of counts. *)
Definition total (l : list Z) : Z := fold_right Z.add 0%Z l.

(** A gate that [get_quality_summary] finds missing, or without an
    [approved] entry. *)
Definition gate_missing (v : option Review) : Prop :=
  v = None \/ exists rv, v = Some rv /\ approved rv = None.

(** What the fetch tool guarantees of a snapshot: an error text is never
    empty and comes with a count of zero; every snapshot has a count,
    and it is not negative. *)
Definition snapshot_wf (r : Snapshot) : Prop :=
  (exists n, total_files_processed r = Some n /\ (0 <= n)%Z) /\
  (forall e, error r = Some e ->
     PyStr.truthy e = true /\ total_files_processed r = Some 0%Z).

(** ** Scripted capabilities for concrete runs *)

(** Capabilities over a trivial world: the fetch and every chain answer
    as scripted, the optional enrichments are off, and [os] is unbound as
    in [agents.py]. *)
Definition scripted (fetch : result (list Snapshot))
    (answer : Chain -> result string) : Capabilities unit :=
  {| fetch_invoke := fun _ _ => lift fetch;
     chain_run := fun c _ => lift (answer c);
     vector_available := false;
     from_documents := fun _ => ret tt;
     os_getenv := fun _ => raise "name 'os' is not defined";
     call_cloud_run_invoke := fun _ _ _ => raise "not configured";
     py_str := name_or_unknown |}.

(** A snapshot as the tool builds it for a readable repository. *)
Definition clean_snapshot (n : string) (count : Z) : Snapshot :=
  {| name := Some n; description := Some EmptyString; meta := None; error := None;
     files := Some []; total_files_processed := Some count |}.

(** A snapshot as the tool builds it for an unreadable repository. *)
Definition denied_snapshot (n e : string) : Snapshot :=
  {| name := Some n; description := Some EmptyString; meta := None; error := Some e;
     files := Some []; total_files_processed := Some 0%Z |}.

(** A state ready for the final review. *)
Definition drafted_state : AgentState :=
  {| username := "octocat"; repos := "all";
     repos_data := [clean_snapshot "hello" 12];
     analyses := ["a small greeting service"];
     final_report := "Portfolio report";
     data_quality_review := empty_review;
     analysis_quality_review := empty_review;
     final_quality_review := empty_review |}.

(** A GitHub session in which the account does not exist. *)
Definition no_such_user : string -> M unit NamedUser :=
  fun _ => raise "404 Not Found".

(** Capabilities over a call counter: the [n]-th call of a chain is
    answered by [answer n], so one chain can fail once and then work. *)
Definition counted (fetch : result (list Snapshot))
    (answer : nat -> Chain -> result string) : Capabilities nat :=
  {| fetch_invoke := fun _ _ => lift fetch;
     chain_run := fun c _ n => (answer n c, S n);
     vector_available := true;
     from_documents := fun _ => raise "no embedding key";
     os_getenv := fun _ => raise "name 'os' is not defined";
     call_cloud_run_invoke := fun _ _ _ => raise "not configured";
     py_str := name_or_unknown |}.

(** A GitHub account with a readable repository (two files, one of them
    in a directory, and a directory that cannot be listed) and one that
    cannot be read. *)
Definition demo_meta : RepoMeta :=
  {| language := Some "Python"; stars := 3; forks := 0;
     url := "https://github.com/octocat/hello";
     created_at := "2024-01-01"; updated_at := "2024-02-01" |}.

Definition demo_user : NamedUser :=
  let hello :=
    {| repo_name := "hello"; repo_description := None; repo_meta := demo_meta;
       root_contents :=
         Ok [Dir "src" (Ok [File "src/main.py" 20 (Ok "print(1)")]);
             File "README.md" 200000 (Ok "big");
             Dir "vendor" (Raise "403")] |} in
  let secret :=
    {| repo_name := "secret"; repo_description := Some "private";
       repo_meta := demo_meta; root_contents := Raise "access denied" |} in
  {| get_repos := Ok [hello; secret];
     get_repo := fun n =>
       if String.eqb n "hello" then Ok hello
       else if String.eqb n "secret" then Ok secret
       else Raise "404 Not Found" |}.

(** ** Vocabulary for the remaining code *)

(** The entries of a tree that are not directories and sit under
    directories that can be listed: how many, and their paths. *)
Fixpoint file_count (c : ContentFile) : Z :=
  match c with
  | File _ _ _ => 1%Z
  | Dir _ (Raise _) => 0%Z
  | Dir _ (Ok l) =>
      (fix forest (l : list ContentFile) : Z :=
         match l with
         | [] => 0%Z
         | c' :: l' => (file_count c' + forest l')%Z
         end) l
  end.

Fixpoint forest_files (l : list ContentFile) : Z :=
  match l with
  | [] => 0%Z
  | c :: l' => (file_count c + forest_files l')%Z
  end.

Fixpoint file_paths (c : ContentFile) : list string :=
  match c with
  | File p _ _ => [p]
  | Dir _ (Raise _) => []
  | Dir _ (Ok l) =>
      (fix forest (l : list ContentFile) : list string :=
         match l with
         | [] => []
         | c' :: l' => (file_paths c' ++ forest l')%list
         end) l
  end.

Fixpoint forest_paths (l : list ContentFile) : list string :=
  match l with
  | [] => []
  | c :: l' => (file_paths c ++ forest_paths l')%list
  end.

(** The keys of a dictionary of files. *)
Definition keys (d : Files) : list string := map fst d.

(** What every snapshot of the fetch tool satisfies: it has a [files]
    and a count entry, the count is between 0 and 50, and a snapshot with
    an [error] has a non-empty error text, no file and a count of 0. *)
Definition snapshot_capped (r : Snapshot) : Prop :=
  exists fs n,
    files r = Some fs /\
    total_files_processed r = Some n /\
    (0 <= n <= 50)%Z /\
    (forall e, error r = Some e ->
       PyStr.truthy e = true /\ fs = [] /\ n = 0%Z /\ meta r = None).

(** The repository names of a selector that is not the word all. *)
Definition repo_list (repo_names : string) : list string :=
  map PyStr.strip (PyStr.split "," repo_names).

(** ** [call_cloud_run] ([src/tools.py]) *)

(** The classes of exception that the [except] clauses of
    [call_cloud_run] tell apart, in the order of the clauses:
    [requests.exceptions.Timeout], any other
    [requests.exceptions.RequestException], any other [Exception]. *)
Inductive ExcClass : Type :=
| TimeoutError
| RequestError
| OtherError.

(** The outcome of a computation that may raise one of them. *)
Inductive outcome (A : Type) : Type :=
| Returned (a : A)
| Raised (c : ExcClass) (msg : string).
Arguments Returned {A} a.
Arguments Raised {A} c msg.

(** What the code reads of a [requests.Response]: the status code, the
    text of the [HTTPError] that [raise_for_status] builds for it, and
    the outcome of [json()], the data held as the text it prints as. *)
Record Response : Type := {
  response_status_code : Z;
  http_error_text : string;
  response_json : outcome string
}.

(** [response.raise_for_status()]: an [HTTPError], which is a
    [RequestException], for a status from 400 to 599. *)
Definition raise_for_status (r : Response) : outcome unit :=
  if ((400 <=? response_status_code r) && (response_status_code r <? 600))%Z
  then Raised RequestError (http_error_text r)
  else Returned tt.

(** [s.rstrip(c)] for a one-character set *)
Fixpoint rstrip_char (c : ascii) (s : string) : string :=
  match s with
  | EmptyString => EmptyString
  | String a s' =>
      match rstrip_char c s' with
      | EmptyString => if Ascii.eqb a c then EmptyString else String a EmptyString
      | r => String a r
      end
  end.

Module CloudRun.

(** The dictionary that [call_cloud_run] returns. *)
Record t : Type := {
  data : option string;
  success : option bool;
  status_code : option Z;
  error : option string
}.

(** [{"error": msg, "success": False}] *)
Definition failure (msg : string) : t :=
  {| data := None; success := Some false; status_code := None;
     error := Some msg |}.

End CloudRun.

Section CallCloudRun.

Context {World Payload : Type}.

(** [os.getenv], on the environment of the process. *)
Variable getenv : string -> option string.

(** [requests.post(url, headers=..., json=..., timeout=...)] *)
Variable requests_post :
  string -> list (string * string) -> Payload -> Z ->
  World -> outcome Response * World.

(** The [try] block (lines 99-126). *)
Definition call_cloud_run_body (endpoint : string) (payload : Payload)
    : World -> outcome CloudRun.t * World :=
  fun w =>
    let base_url := getenv "CLOUD_RUN_URL" in
    let token := getenv "CLOUD_RUN_TOKEN" in
    if negb (truthy_opt base_url) || negb (truthy_opt token) then
      (Returned
         (CloudRun.failure
            "Cloud Run not configured. Set CLOUD_RUN_URL and CLOUD_RUN_TOKEN in .env"),
       w)
    else
      let url := rstrip_char "/" (get base_url EmptyString) ++ endpoint in
      let headers :=
        [("Authorization", "Bearer " ++ get token EmptyString);
         ("Content-Type", "application/json")] in
      match requests_post url headers payload 30 w with
      | (Raised c msg, w') => (Raised c msg, w')
      | (Returned response, w') =>
          match raise_for_status response with
          | Raised c msg => (Raised c msg, w')
          | Returned _ =>
              match response_json response with
              | Raised c msg => (Raised c msg, w')
              | Returned d =>
                  (Returned
                     {| CloudRun.data := Some d;
                        CloudRun.success := Some true;
                        CloudRun.status_code :=
                          Some (response_status_code response);
                        CloudRun.error := None |}, w')
              end
          end
      end.

(** The three [except] clauses (lines 128-142). *)
Definition call_cloud_run_handler (c : ExcClass) (msg : string) : CloudRun.t :=
  match c with
  | TimeoutError =>
      CloudRun.failure "Cloud Run request timed out after 30 seconds"
  | RequestError => CloudRun.failure ("Cloud Run request failed: " ++ msg)
  | OtherError =>
      CloudRun.failure ("Unexpected error calling Cloud Run: " ++ msg)
  end.

Definition call_cloud_run (endpoint : string) (payload : Payload)
    : World -> outcome CloudRun.t * World :=
  fun w =>
    match call_cloud_run_body endpoint payload w with
    | (Returned d, w') => (Returned d, w')
    | (Raised c msg, w') => (Returned (call_cloud_run_handler c msg), w')
    end.

End CallCloudRun.

(** ** The reports ([src/report.py]) *)

(** [s.split(sep)] for a separator of several characters: the pieces
    between the occurrences of [sep] found from the left, none of them
    overlapping. [skip] counts the characters of an occurrence that are
    still to be dropped. *)
Fixpoint split_on (sep : string) (skip : nat) (s : string) : list string :=
  match s with
  | EmptyString => [EmptyString]
  | String c s' =>
      match skip with
      | S k => split_on sep k s'
      | O =>
          if PyStr.startswith sep s then
            EmptyString :: split_on sep (String.length sep - 1) s'
          else
            match split_on sep 0 s' with
            | [] => [String c EmptyString]
            | p :: ps => String c p :: ps
            end
      end
  end.

(** [os.path.dirname(p)] of [posixpath]: the part up to the last slash,
    without the slashes at its end unless it is made of slashes only. *)
Fixpoint upto_last_slash (p : string) : string :=
  match p with
  | EmptyString => EmptyString
  | String c p' =>
      match upto_last_slash p' with
      | EmptyString =>
          if Ascii.eqb c "/" then String c EmptyString else EmptyString
      | h => String c h
      end
  end.

Definition dirname (p : string) : string :=
  let head := upto_last_slash p in
  match rstrip_char "/" head with
  | EmptyString => head
  | r => r
  end.

(** [os.path.dirname(path) if os.path.dirname(path) else "."] *)
Definition output_dir (path : string) : string :=
  if PyStr.truthy (dirname path) then dirname path else ".".

Module Report.

(** The paragraph styles of [EnhancedReportGenerator]. *)
Inductive Style : Type :=
| title_style
| heading_style
| body_style
| subtitle_style.

(** The flowables put in the story, each held by the arguments it is
    built from.  The column widths and the [TableStyle] of the one table
    are constants and are left out. *)
Inductive Flowable : Type :=
| Paragraph (text : string) (style : Style)
| Spacer (width height : Z)
| PageBreak
| Table (data : list (list string)).

Section Generator.

(** reportlab reads the text of a [Paragraph] as markup when the
    paragraph is built, and raises on text it cannot parse: [None] when
    the text is accepted, the message otherwise. *)
Variable markup_error : string -> option string.

(** [datetime.now().strftime('%Y-%m-%d %H:%M:%S')] *)
Variable now : string.

(** [Paragraph(text, style)] *)
Definition new_paragraph (text : string) (style : Style) : result Flowable :=
  match markup_error text with
  | None => Ok (Paragraph text style)
  | Some e => Raise e
  end.

(** [self.story.append(Paragraph(text, style))] *)
Definition append_paragraph (text : string) (style : Style)
    (story : list Flowable) : result (list Flowable) :=
  match new_paragraph text style with
  | Ok p => Ok (story ++ [p])%list
  | Raise e => Raise e
  end.

Definition add_title (title subtitle : string) (story : list Flowable)
    : result (list Flowable) :=
  match append_paragraph title title_style story with
  | Raise e => Raise e
  | Ok story1 =>
      match (if PyStr.truthy subtitle
             then append_paragraph subtitle subtitle_style story1
             else Ok story1) with
      | Raise e => Raise e
      | Ok story2 => Ok (story2 ++ [Spacer 1 20])%list
      end
  end.

(** ['Approved' if d.get('approved') else other] *)
Definition verdict (flag : option bool) (other : string) : string :=
  if get flag false then "Approved" else other.

(** [yes if d.get('approved') else no] *)
Definition mark (flag : option bool) (yes no : string) : string :=
  if get flag false then yes else no.

(** The [data] of the table (lines 73-85). *)
Definition metrics_rows (quality_summary : Summary.t) : list (list string) :=
  [ ["Metric"; "Value"; "Status"];
    ["Overall Quality";
     verdict (Some (Summary.overall_approved quality_summary)) "Issues Found";
     mark (Some (Summary.overall_approved quality_summary)) "✅" "⚠️"];
    ["Repositories Analyzed";
     PyStr.str_of_int (Summary.repositories_analyzed quality_summary); "📊"];
    ["Files Processed";
     PyStr.str_of_int (Summary.total_files_processed quality_summary); "📁"];
    ["Data Quality";
     verdict (approved (Summary.data_quality quality_summary)) "Issues";
     mark (approved (Summary.data_quality quality_summary)) "✅" "❌"];
    ["Analysis Quality";
     verdict (approved (Summary.analysis_quality quality_summary)) "Issues";
     mark (approved (Summary.analysis_quality quality_summary)) "✅" "❌"];
    ["Final Quality";
     verdict (approved (Summary.final_quality quality_summary)) "Issues";
     mark (approved (Summary.final_quality quality_summary)) "✅" "❌"] ].

Definition add_quality_metrics_table (quality_summary : Summary.t)
    (story : list Flowable) : result (list Flowable) :=
  match append_paragraph "Quality Assurance Summary" heading_style story with
  | Raise e => Raise e
  | Ok story1 =>
      Ok (story1 ++ [Table (metrics_rows quality_summary); Spacer 1 20])%list
  end.

(** The loop of [add_section] over the pieces of the content. *)
Fixpoint add_paragraphs (paragraphs : list string) (story : list Flowable)
    : result (list Flowable) :=
  match paragraphs with
  | [] => Ok story
  | para :: rest =>
      if PyStr.truthy (PyStr.strip para) then
        match append_paragraph (PyStr.strip para) body_style story with
        | Raise e => Raise e
        | Ok story1 => add_paragraphs rest story1
        end
      else add_paragraphs rest story
  end.

Definition add_section (title content : string) (story : list Flowable)
    : result (list Flowable) :=
  match append_paragraph title heading_style story with
  | Raise e => Raise e
  | Ok story1 =>
      let paragraphs := split_on (PyStr.nl ++ PyStr.nl) 0 content in
      match add_paragraphs paragraphs story1 with
      | Raise e => Raise e
      | Ok story2 => Ok (story2 ++ [Spacer 1 15])%list
      end
  end.

(** [bool(d)] for a review dictionary: it has a key. *)
Definition truthy_review (r : Review) : bool :=
  match review r, approved r, reviewer r with
  | None, None, None => false
  | _, _, _ => true
  end.

(** One of the three blocks of [add_quality_appendix]. *)
Definition add_review_section (title : string) (r : Review)
    (story : list Flowable) : result (list Flowable) :=
  if truthy_review r then
    add_section title (get (review r) "No review available") story
  else Ok story.

Definition add_quality_appendix (quality_summary : Summary.t)
    (story : list Flowable) : result (list Flowable) :=
  match append_paragraph "Quality Review Appendix" title_style
          (story ++ [PageBreak])%list with
  | Raise e => Raise e
  | Ok story1 =>
      match add_review_section "Data Quality Review"
              (Summary.data_quality quality_summary) story1 with
      | Raise e => Raise e
      | Ok story2 =>
          match add_review_section "Analysis Quality Review"
                  (Summary.analysis_quality quality_summary) story2 with
          | Raise e => Raise e
          | Ok story3 =>
              add_review_section "Final Quality Review"
                (Summary.final_quality quality_summary) story3
          end
      end
  end.

Definition add_metadata (username : string) (story : list Flowable)
    : result (list Flowable) :=
  match append_paragraph "Report Metadata" heading_style
          (story ++ [PageBreak])%list with
  | Raise e => Raise e
  | Ok story1 =>
      let metadata_content :=
        PyStr.nl ++ "Generated: " ++ now ++ PyStr.nl
        ++ "Target: GitHub user '" ++ username ++ "'" ++ PyStr.nl
        ++ "System: Multi-Agent GitHub Analysis System v2.0" ++ PyStr.nl
        ++ "Quality Gates: Data Quality → Analysis Quality → Final Quality"
        ++ PyStr.nl
        ++ "Generated by: LostMind AI (www.LostMindAI.com)" ++ PyStr.nl
        ++ "        " in
      append_paragraph metadata_content body_style story1
  end.

(** The story that [generate_enhanced_report] hands to [doc.build],
    when no paragraph is refused. *)
Definition generate_enhanced_report (result_dict : ResultDict)
    : result (list Flowable) :=
  match add_title "Multi-Repository Analysis Report"
          "Generated by Multi-Agent GitHub Analysis System v2.0" [] with
  | Raise e => Raise e
  | Ok story1 =>
      let quality_summary := get_quality_summary result_dict in
      match add_quality_metrics_table quality_summary story1 with
      | Raise e => Raise e
      | Ok story2 =>
          match add_section "Executive Summary"
                  (get (key_final_report result_dict) "No report generated")
                  story2 with
          | Raise e => Raise e
          | Ok story3 =>
              match add_quality_appendix quality_summary story3 with
              | Raise e => Raise e
              | Ok story4 =>
                  add_metadata (get (key_username result_dict) "Unknown") story4
              end
          end
      end
  end.

End Generator.

(** The texts of the headings of a story, in order. *)
Definition headings (story : list Flowable) : list string :=
  flat_map (fun f => match f with
                     | Paragraph t heading_style => [t]
                     | _ => []
                     end) story.

(** The texts of the body paragraphs of a story, in order. *)
Definition bodies (story : list Flowable) : list string :=
  flat_map (fun f => match f with
                     | Paragraph t body_style => [t]
                     | _ => []
                     end) story.

End Report.

Module Pdf.

(** The calls that [build_pdf] makes, in order, when none of them
    raises.  Coordinates are in points; reportlab holds them as floats,
    and every value used here is a whole number. *)
Inductive CanvasOp : Type :=
| MakeDirs (path : string)
| NewCanvas (outfile : string)
| SetFont (font : string) (size : Z)
| DrawString (x y : Z) (text : string)
| ShowPage
| Save.

(** [width, height = letter] *)
Definition height : Z := 792.

Section BuildPdf.

(** [report.splitlines()] *)
Variable splitlines : string -> list string.

(** [textwrap.wrap(line, width=100)] *)
Variable wrap : string -> list string.

(** [datetime.now().strftime('%Y-%m-%d %H:%M:%S')] *)
Variable now : string.

(** [if y < 50: c.showPage(); c.setFont("Helvetica", 10); y = height - 50] *)
Definition new_page_if_low (y : Z) : list CanvasOp * Z :=
  if (y <? 50)%Z then ([ShowPage; SetFont "Helvetica" 10], (height - 50)%Z)
  else ([], y).

(** The loop over the wrapped lines of one line (lines 242-248). *)
Fixpoint draw_wrapped (wrapped_lines : list string) (y : Z)
    : list CanvasOp * Z :=
  match wrapped_lines with
  | [] => ([], y)
  | wrapped_line :: rest =>
      let '(page, y1) := new_page_if_low y in
      let '(ops, y2) := draw_wrapped rest (y1 - 12)%Z in
      ((page ++ DrawString 50 y1 wrapped_line :: ops)%list, y2)
  end.

(** The loop over the lines of the report (lines 231-248). *)
Fixpoint draw_report (lines : list string) (y : Z) : list CanvasOp * Z :=
  match lines with
  | [] => ([], y)
  | line :: rest =>
      let '(page, y1) := new_page_if_low y in
      let wrapped_lines :=
        match wrap line with
        | [] => [EmptyString]
        | w => w
        end in
      let '(ops, y2) := draw_wrapped wrapped_lines y1 in
      let '(ops', y3) := draw_report rest y2 in
      ((page ++ ops ++ ops')%list, y3)
  end.

(** The calls before the loop (lines 199-228). *)
Definition header (username : string) (quality_summary : Summary.t)
    (outfile : string) : list CanvasOp :=
  [ MakeDirs (output_dir outfile);
    NewCanvas outfile;
    SetFont "Helvetica-Bold" 18;
    DrawString 50 (height - 50) ("GitHub Analysis Report - " ++ username);
    SetFont "Helvetica-Bold" 14;
    DrawString 50 (height - 100) "Quality Summary:";
    SetFont "Helvetica" 12;
    DrawString 50 (height - 120)
      ("Overall: " ++ (if Summary.overall_approved quality_summary
                       then "Approved" else "Issues Found"));
    DrawString 50 (height - 140)
      ("Repositories: "
       ++ PyStr.str_of_int (Summary.repositories_analyzed quality_summary));
    DrawString 50 (height - 160)
      ("Files: "
       ++ PyStr.str_of_int (Summary.total_files_processed quality_summary));
    SetFont "Helvetica-Bold" 14;
    DrawString 50 (height - 200) "Analysis Report:";
    SetFont "Helvetica" 10 ].

(** The calls after the loop (lines 250-254). *)
Definition footer : list CanvasOp :=
  [ SetFont "Helvetica" 8;
    DrawString 50 30 ("Generated: " ++ now ++ " | LostMind AI");
    Save ].

Definition build_pdf (report username : string) (quality_summary : Summary.t)
    (outfile : string) : list CanvasOp :=
  (header username quality_summary outfile
   ++ fst (draw_report (splitlines report) (height - 230))
   ++ footer)%list.

End BuildPdf.

(** The texts drawn, in order. *)
Definition drawn (ops : list CanvasOp) : list string :=
  flat_map (fun op => match op with
                      | DrawString _ _ t => [t]
                      | _ => []
                      end) ops.

(** Every text is drawn at the left margin, not below the bottom margin,
    and either 12 points under the text before it or, after a page
    break, at the top margin; and a page break is followed by the font
    of the body.  [next] is the place under the last text. *)
Fixpoint laid_out (next : Z) (ops : list CanvasOp) : bool :=
  match ops with
  | [] => true
  | DrawString x y _ :: rest =>
      (x =? 50)%Z && (y =? next)%Z && (50 <=? y)%Z && (y <=? height - 50)%Z
      && laid_out (y - 12) rest
  | ShowPage :: SetFont font size :: rest =>
      String.eqb font "Helvetica" && (size =? 10)%Z
      && laid_out (height - 50) rest
  | _ => false
  end.

End Pdf.

(** ** The configuration ([src/config.py]) *)

(** [d[k] = v] and [d.get(k)] on a dictionary with text keys. *)
Fixpoint assoc_set {A} (k : string) (v : A) (d : list (string * A))
    : list (string * A) :=
  match d with
  | [] => [(k, v)]
  | (k', v') :: d' =>
      if String.eqb k' k then (k, v) :: d' else (k', v') :: assoc_set k v d'
  end.

Fixpoint assoc_get {A} (k : string) (d : list (string * A)) : option A :=
  match d with
  | [] => None
  | (k', v') :: d' => if String.eqb k' k then Some v' else assoc_get k d'
  end.

Module Config.

(** A call of one of the chat model constructors, with its arguments. *)
Inductive LLMSpec : Type :=
| ChatOpenAI (api_key : option string) (model : string)
| ChatGoogleGenerativeAI (google_api_key : option string) (model : string)
| ChatAnthropic (api_key : option string) (model : string)
| ChatGrok (api_key : option string) (model : string).

Section Loading.

(** The client objects. *)
Variable LLM : Type.

(** Running a constructor: it gives a client, or raises. *)
Variable construct : LLMSpec -> result LLM.

(** [os.getenv], after [load_dotenv()]. *)
Variable getenv : string -> option string.

(** whether [langchain_xai] could be imported *)
Variable grok_available : bool.

Definition get_grok_llm : result LLM :=
  if grok_available then
    construct (ChatGrok (getenv "GROK_API_KEY") "grok-beta")
  else
    construct (ChatOpenAI (getenv "OPENAI_API_KEY") "gpt-4o").

(** One optional entry of [get_available_llms]. *)
Definition add_if_key (var key : string) (spec : LLMSpec)
    (llms : list (string * LLM)) : result (list (string * LLM)) :=
  if truthy_opt (getenv var) then
    match construct spec with
    | Ok llm => Ok (assoc_set key llm llms)
    | Raise e => Raise e
    end
  else Ok llms.

Definition get_available_llms : result (list (string * LLM)) :=
  match add_if_key "OPENAI_API_KEY" "gpt4o"
          (ChatOpenAI (getenv "OPENAI_API_KEY") "gpt-4o") [] with
  | Raise e => Raise e
  | Ok llms1 =>
      match add_if_key "GOOGLE_API_KEY" "gemini2.5"
              (ChatGoogleGenerativeAI (getenv "GOOGLE_API_KEY") "gemini-1.5-pro")
              llms1 with
      | Raise e => Raise e
      | Ok llms2 =>
          match add_if_key "ANTHROPIC_API_KEY" "claude3.5"
                  (ChatAnthropic (getenv "ANTHROPIC_API_KEY")
                     "claude-3-5-sonnet-20240620")
                  llms2 with
          | Raise e => Raise e
          | Ok llms3 =>
              match get_grok_llm with
              | Raise e => Raise e
              | Ok grok => Ok (assoc_set "grok4" grok llms3)
              end
          end
      end
  end.

(** [get_default_llm()], on the value of [LLM_CONFIG]. *)
Definition get_default_llm (LLM_CONFIG : list (string * LLM)) : result LLM :=
  match assoc_get "gpt4o" LLM_CONFIG with
  | Some llm => Ok llm
  | None =>
      match assoc_get "claude3.5" LLM_CONFIG with
      | Some llm => Ok llm
      | None =>
          match assoc_get "gemini2.5" LLM_CONFIG with
          | Some llm => Ok llm
          | None =>
              match assoc_get "grok4" LLM_CONFIG with
              | Some llm => Ok llm
              | None =>
                  Raise "No LLM providers available. Please configure at least one API key."
              end
          end
      end
  end.

(** [get_agent_llm_config()], on the value of [LLM_CONFIG]. *)
Definition get_agent_llm_config (LLM_CONFIG : list (string * LLM))
    : result (list (string * LLM)) :=
  match get_default_llm LLM_CONFIG with
  | Raise e => Raise e
  | Ok default =>
      Ok [ ("fetcher", get (assoc_get "gpt4o" LLM_CONFIG) default);
           ("data_reviewer", get (assoc_get "claude3.5" LLM_CONFIG) default);
           ("analyzer", get (assoc_get "gpt4o" LLM_CONFIG) default);
           ("analysis_reviewer", get (assoc_get "claude3.5" LLM_CONFIG) default);
           ("synthesizer", get (assoc_get "gemini2.5" LLM_CONFIG) default);
           ("final_reviewer", get (assoc_get "claude3.5" LLM_CONFIG) default) ]
  end.

(** The module body: [LLM_CONFIG], [DEFAULT_LLM] and
    [AGENT_LLM_CONFIG], or the exception that ends the import. *)
Definition import_config
    : result (list (string * LLM) * LLM * list (string * LLM)) :=
  match get_available_llms with
  | Raise e => Raise e
  | Ok LLM_CONFIG =>
      match get_default_llm LLM_CONFIG with
      | Raise e => Raise e
      | Ok DEFAULT_LLM =>
          match get_agent_llm_config LLM_CONFIG with
          | Raise e => Raise e
          | Ok AGENT_LLM_CONFIG => Ok (LLM_CONFIG, DEFAULT_LLM, AGENT_LLM_CONFIG)
          end
      end
  end.

End Loading.

(** The key of [AGENT_LLM_CONFIG] that each chain of [agents.py] reads. *)
Definition chain_key (c : Chain) : string :=
  match c with
  | data_reviewer => "data_reviewer"
  | analyzer => "analyzer"
  | analysis_reviewer => "analysis_reviewer"
  | synthesizer => "synthesizer"
  | final_reviewer => "final_reviewer"
  end.

End Config.

(** ** The environment check ([main.py]) *)

Module Main.

Section SetupEnvironment.

(** [os.path.exists] *)
Variable path_exists : string -> bool.

(** [os.getenv] *)
Variable getenv : string -> option string.

Definition required_vars : list string := ["GITHUB_TOKEN"].

Definition llm_vars : list string :=
  ["OPENAI_API_KEY"; "GOOGLE_API_KEY"; "ANTHROPIC_API_KEY"; "GROK_API_KEY"].

(** [setup_environment()]: the lines printed and the value returned. *)
Definition setup_environment : list string * bool :=
  let warned :=
    if negb (path_exists ".env") then
      ["⚠️  Warning: .env file not found!";
       "   Please copy .env.example to .env and configure your API keys.";
       "   The system may not work properly without proper configuration.";
       EmptyString]
    else [] in
  let missing_vars :=
    filter (fun var => negb (truthy_opt (getenv var))) required_vars in
  match missing_vars with
  | _ :: _ =>
      ((warned
        ++ [("❌ Missing required environment variables: " ++ PyStr.join ", " missing_vars)%string;
            "   Please configure these in your .env file."])%list,
       false)
  | [] =>
      let has_llm := existsb (fun var => truthy_opt (getenv var)) llm_vars in
      if negb has_llm then
        ((warned
          ++ ["⚠️  Warning: No LLM provider API keys found!";
              "   Please configure at least one of: OPENAI_API_KEY, GOOGLE_API_KEY, ANTHROPIC_API_KEY, GROK_API_KEY";
              "   The system requires LLM access for analysis."])%list,
         false)
      else (warned, true)
  end.

End SetupEnvironment.

End Main.

(** ** The choice of the interpreter ([setup.py]) *)

Module Setup.

(** What [subprocess.run([cmd, "--version"], capture_output=True,
    text=True)] does: the command is not there, or the call raises
    something else, or it completes with a return code and an output. *)
Inductive RunOutcome : Type :=
| FileNotFound
| Failed (msg : string)
| Completed (returncode : Z) (stdout : string).

Section GetPythonCommand.

Context {World : Type}.

Variable run_version : string -> World -> RunOutcome * World.

(** The loop [for cmd in ...] of [get_python_command]. *)
Fixpoint probe (cmds : list string) : M World string :=
  match cmds with
  | [] => raise "Python 3.8+ is required but not found"
  | cmd :: rest =>
      fun w =>
        match run_version cmd w with
        | (FileNotFound, w') => probe rest w'
        | (Failed msg, w') => (Raise msg, w')
        | (Completed returncode stdout, w') =>
            if (returncode =? 0)%Z && PyStr.contains "Python 3." stdout
            then (Ok cmd, w')
            else probe rest w'
        end
  end.

Definition get_python_command : M World string :=
  probe ["python3"; "python"].

End GetPythonCommand.

(** A command whose version output is accepted. *)
Definition accepted (o : RunOutcome) : bool :=
  match o with
  | Completed returncode stdout =>
      (returncode =? 0)%Z && PyStr.contains "Python 3." stdout
  | _ => false
  end.

End Setup.

(** ** Python strings: substring search *)

Lemma startswith_spec (p s : string) :
  PyStr.startswith p s = true <-> exists post, s = p ++ post.
Proof.
  revert s. induction p as [|a p IH]; intros s; simpl.
  - split; [intros _; now exists s | reflexivity].
  - destruct s as [|b s].
    + split; [discriminate | intros [post H]; discriminate].
    + rewrite andb_true_iff, Ascii.eqb_eq, IH. split.
      * intros [-> [post ->]]. now exists post.
      * intros [post H]. injection H as -> ->. split; [reflexivity | now exists post].
Qed.

Lemma contains_spec (needle hay : string) :
  PyStr.contains needle hay = true <->
  exists pre post, hay = pre ++ needle ++ post.
Proof.
  induction hay as [|c hay IH]; simpl.
  - rewrite startswith_spec. split.
    + intros [post H]. now exists EmptyString, post.
    + intros [[|c pre] [post H]]; [now exists post | discriminate].
  - rewrite orb_true_iff, IH, startswith_spec. split.
    + intros [[post H] | [pre [post H]]].
      * now exists EmptyString, post.
      * exists (String c pre), post. simpl. now rewrite H.
    + intros [[|c' pre] [post H]].
      * left. now exists post.
      * right. simpl in H. injection H as _ H. now exists pre, post.
Qed.

Lemma upper_app (a b : string) :
  PyStr.upper (a ++ b) = PyStr.upper a ++ PyStr.upper b.
Proof.
  induction a as [|c a IH]; simpl; [reflexivity | now rewrite IH].
Qed.

Lemma upper_split (t a b : string) :
  PyStr.upper t = a ++ b ->
  exists t1 t2, t = t1 ++ t2 /\ PyStr.upper t1 = a /\ PyStr.upper t2 = b.
Proof.
  revert t. induction a as [|c a IH]; intros t H; simpl in H.
  - now exists EmptyString, t.
  - destruct t as [|d t]; [discriminate |]. simpl in H. injection H as Hc H.
    destruct (IH t H) as [t1 [t2 [-> [H1 H2]]]].
    exists (String d t1), t2. simpl. now rewrite Hc, H1.
Qed.

Lemma nat_of_ascii_lt (c : ascii) : nat_of_ascii c < 256.
Proof. apply nat_ascii_bounded. Qed.

Lemma lower_range_true (n : nat) :
  ((97 <=? n) && (n <=? 122))%nat = true <-> 97 <= n <= 122.
Proof. rewrite andb_true_iff, !Nat.leb_le. tauto. Qed.

Lemma lower_range_false (n : nat) :
  ((97 <=? n) && (n <=? 122))%nat = false <-> n < 97 \/ 122 < n.
Proof. rewrite andb_false_iff, !Nat.leb_gt. tauto. Qed.

Lemma upper_ascii_pair (i : nat) :
  i < 26 ->
  PyStr.upper_ascii (ascii_of_nat (65 + i)) = ascii_of_nat (65 + i) /\
  PyStr.upper_ascii (ascii_of_nat (97 + i)) = ascii_of_nat (65 + i).
Proof.
  intros Hi. unfold PyStr.upper_ascii.
  rewrite !nat_ascii_embedding by lia. split.
  - assert (E : ((97 <=? 65 + i) && (65 + i <=? 122))%nat = false)
      by (apply lower_range_false; lia).
    now rewrite E.
  - assert (E : ((97 <=? 97 + i) && (97 + i <=? 122))%nat = true)
      by (apply lower_range_true; lia).
    rewrite E. f_equal; lia.
Qed.

Lemma same_letter_upper (c d : ascii) :
  same_letter c d <-> PyStr.upper_ascii c = PyStr.upper_ascii d.
Proof.
  split.
  - intros [-> | [[i [Hi [-> ->]]] | [i [Hi [-> ->]]]]]; [reflexivity | |].
    all: destruct (upper_ascii_pair i Hi) as [Hu Hl]; congruence.
  - unfold PyStr.upper_ascii.
    pose proof (nat_of_ascii_lt c) as Hc. pose proof (nat_of_ascii_lt d) as Hd.
    destruct ((97 <=? nat_of_ascii c) && (nat_of_ascii c <=? 122))%nat eqn:Ec;
    destruct ((97 <=? nat_of_ascii d) && (nat_of_ascii d <=? 122))%nat eqn:Ed;
    intros H.
    all: try apply lower_range_true in Ec; try apply lower_range_true in Ed.
    all: try apply lower_range_false in Ec; try apply lower_range_false in Ed.
    + left. apply (f_equal nat_of_ascii) in H.
      rewrite !nat_ascii_embedding in H by lia.
      rewrite <- (ascii_nat_embedding c), <- (ascii_nat_embedding d).
      f_equal. lia.
    + right. right. exists (nat_of_ascii c - 97). split; [lia |]. split.
      * rewrite <- H. f_equal. lia.
      * rewrite <- (ascii_nat_embedding c) at 1. f_equal. lia.
    + right. left. exists (nat_of_ascii d - 97). split; [lia |]. split.
      * rewrite H. f_equal. lia.
      * rewrite <- (ascii_nat_embedding d) at 1. f_equal. lia.
    + now left.
Qed.

Lemma equal_ignoring_case_upper (s t : string) :
  equal_ignoring_case s t <-> PyStr.upper s = PyStr.upper t.
Proof.
  split.
  - induction 1 as [|c d s t Hcd _ IH]; simpl; [reflexivity |].
    apply same_letter_upper in Hcd. now rewrite Hcd, IH.
  - revert t. induction s as [|c s IH]; intros [|d t] H; simpl in H;
      try discriminate; [constructor |].
    injection H as Hc H. constructor; [now apply same_letter_upper | now apply IH].
Qed.

(** [word in text.upper()], for a word in capitals, finds the word in
    any mix of cases. *)
Lemma contains_upper_spec (word text : string) :
  PyStr.upper word = word ->
  (PyStr.contains word (PyStr.upper text) = true <->
   occurs_ignoring_case word text).
Proof.
  intros Hw. rewrite contains_spec. split.
  - intros [pre [post H]].
    destruct (upper_split _ _ _ H) as [t1 [t23 [-> [H1 H23]]]].
    destruct (upper_split _ _ _ H23) as [t2 [t3 [-> [H2 H3]]]].
    exists t1, t2, t3. split; [reflexivity |].
    apply equal_ignoring_case_upper. congruence.
  - intros [before [middle [after [-> H]]]].
    apply equal_ignoring_case_upper in H.
    exists (PyStr.upper before), (PyStr.upper after).
    rewrite !upper_app. congruence.
Qed.

(** ** The nodes, case by case *)

Section NodeFacts.

Context {World : Type}.
Variable caps : Capabilities World.

Lemma gate_node_cases (g : Gate) (s : AgentState) (w : World) :
  (exists t w',
      chain_run caps (gate_chain g) (gate_input caps g s) w = (Ok t, w') /\
      gate_node caps g s w =
        (Ok (set_gate_record g
               (Build_Review (Some t)
                  (Some (PyStr.contains "APPROVED" (PyStr.upper t)))
                  (Some (gate_label g))) s), w')) \/
  (exists e w',
      chain_run caps (gate_chain g) (gate_input caps g s) w = (Raise e, w') /\
      gate_node caps g s w =
        (Ok (set_gate_record g
               (Build_Review (Some (gate_error_prefix g ++ e)) (Some false)
                  (Some (gate_label g))) s), w')).
Proof.
  destruct g; simpl;
    unfold data_quality_reviewer_node, analysis_quality_reviewer_node,
      final_quality_reviewer_node, try_except, bind, ret;
    match goal with
    | |- context [chain_run caps ?c ?x w] =>
        destruct (chain_run caps c x w) as [[t | e] w'] eqn:E
    end; [left | right | left | right | left | right]; eauto.
Qed.

Lemma fetcher_node_cases (s : AgentState) (w : World) :
  (exists l w',
      fetch_invoke caps (username s) (repos s) w = (Ok l, w') /\
      fetcher_node caps s w = (Ok (set_repos_data l s), w')) \/
  (exists e w',
      fetch_invoke caps (username s) (repos s) w = (Raise e, w') /\
      fetcher_node caps s w =
        (Ok (set_repos_data
               [ {| name := None; description := None; meta := None;
                    error := Some ("Failed to fetch repository data: " ++ e);
                    files := Some [];
                    total_files_processed := Some 0%Z |} ] s), w')).
Proof.
  unfold fetcher_node, try_except, bind, ret.
  destruct (fetch_invoke caps (username s) (repos s) w) as [[l | e] w'] eqn:E;
    [left | right]; eauto.
Qed.

Lemma synthesizer_node_cases (s : AgentState) (w : World) :
  (exists t w',
      chain_run caps synthesizer
        (PyStr.join (PyStr.nl ++ PyStr.nl) (analyses s)) w = (Ok t, w') /\
      synthesizer_node caps s w = (Ok (set_final_report t s), w')) \/
  (exists e w',
      chain_run caps synthesizer
        (PyStr.join (PyStr.nl ++ PyStr.nl) (analyses s)) w = (Raise e, w') /\
      synthesizer_node caps s w =
        (Ok (set_final_report ("Error during synthesis: " ++ e) s), w')).
Proof.
  unfold synthesizer_node, try_except, bind, ret.
  match goal with
  | |- context [chain_run caps ?c ?x w] =>
      destruct (chain_run caps c x w) as [[t | e] w'] eqn:E
  end; [left | right]; eauto.
Qed.

(** The optional steps never raise. *)
Lemma vector_step_returns (repo : Snapshot) (w : World) :
  exists v w', vector_step caps repo w = (Ok v, w').
Proof.
  unfold vector_step.
  destruct (vector_available caps && truthy_files (files repo));
    [| unfold ret; eauto].
  unfold try_except.
  match goal with
  | |- context [match ?b w with _ => _ end] => destruct (b w) as [[v | e] w']
  end; unfold ret; eauto.
Qed.

Lemma cloud_step_returns (repo : Snapshot) (w : World) :
  exists v w', cloud_step caps repo w = (Ok v, w').
Proof.
  unfold cloud_step, try_except.
  match goal with
  | |- context [match ?b w with _ => _ end] => destruct (b w) as [[v | e] w']
  end; unfold ret; eauto.
Qed.

Lemma analyze_repo_returns (repo : Snapshot) (w : World) :
  exists a w', analyze_repo caps repo w = (Ok a, w').
Proof.
  unfold analyze_repo, try_except.
  match goal with
  | |- context [match ?b w with _ => _ end] => destruct (b w) as [[v | e] w']
  end; unfold ret; eauto.
Qed.

(** When the analysis chain raises, the slot holds the error text. *)
Lemma analyze_repo_failing (repo : Snapshot) (w : World) :
  (forall x w0, exists e w1, chain_run caps analyzer x w0 = (Raise e, w1)) ->
  exists e w', analyze_repo caps repo w = (Ok (analysis_error repo e), w').
Proof.
  intros Hfail. unfold analyze_repo, try_except, bind at 1.
  destruct (vector_step_returns repo w) as [v [w1 Hv]]. rewrite Hv.
  unfold bind at 1.
  destruct (Hfail (py_str caps repo) w1) as [e [w2 He]]. rewrite He.
  unfold ret, analysis_error. eauto.
Qed.

Lemma analyze_loop_spec (l : list Snapshot) (acc : list string) (w : World) :
  exists out w',
    analyze_loop caps l acc w = (Ok (acc ++ out)%list, w') /\
    Forall2 (fun repo a => exists w0 w1, analyze_repo caps repo w0 = (Ok a, w1))
      l out.
Proof.
  revert acc w. induction l as [|repo l IH]; intros acc w; simpl.
  - exists [], w. rewrite app_nil_r. split; [reflexivity | constructor].
  - unfold bind. destruct (analyze_repo_returns repo w) as [a [w1 Ha]].
    rewrite Ha. destruct (IH (acc ++ [a])%list w1) as [out [w' [Hl HF]]].
    exists (a :: out), w'. rewrite Hl, <- app_assoc. split; [reflexivity |].
    constructor; eauto.
Qed.

Lemma analyzer_node_spec (s : AgentState) (w : World) :
  exists out w',
    analyzer_node caps s w = (Ok (set_analyses out s), w') /\
    Forall2 (fun repo a => exists w0 w1, analyze_repo caps repo w0 = (Ok a, w1))
      (repos_data s) out.
Proof.
  unfold analyzer_node, bind.
  destruct (analyze_loop_spec (repos_data s) [] w) as [out [w' [Hl HF]]].
  rewrite Hl. simpl. unfold ret. eauto.
Qed.

(** The analysis of one item, case by case. *)
Lemma analyze_repo_chain_raises (repo : Snapshot) (w w1 w2 : World)
    (v e : string) :
  vector_step caps repo w = (Ok v, w1) ->
  chain_run caps analyzer (py_str caps repo) w1 = (Raise e, w2) ->
  analyze_repo caps repo w =
    (Ok ("Error analyzing repository " ++ name_or_unknown repo ++ ": " ++ e), w2).
Proof.
  intros Hv He. unfold analyze_repo, try_except, bind at 1. rewrite Hv.
  unfold bind at 1. rewrite He. reflexivity.
Qed.

Lemma analyze_repo_chain_returns (repo : Snapshot) (w w1 w2 w3 : World)
    (v a c : string) :
  vector_step caps repo w = (Ok v, w1) ->
  chain_run caps analyzer (py_str caps repo) w1 = (Ok a, w2) ->
  cloud_step caps repo w2 = (Ok c, w3) ->
  analyze_repo caps repo w = (Ok (a ++ v ++ c), w3).
Proof.
  intros Hv Ha Hc. unfold analyze_repo, try_except, bind at 1. rewrite Hv.
  unfold bind at 1. rewrite Ha. unfold bind. rewrite Hc. reflexivity.
Qed.

Lemma vector_step_absorbs (repo : Snapshot) (w w1 : World) (fs : Files)
    (d : string * string) (ds : Files) (e : string) :
  vector_available caps = true ->
  files repo = Some fs ->
  filter (fun '(path, content) => PyStr.truthy content) fs = d :: ds ->
  from_documents caps (d :: ds) w = (Raise e, w1) ->
  vector_step caps repo w =
    (Ok (PyStr.nl ++ PyStr.nl
         ++ "Vector Analysis: Not available for this repository."), w1).
Proof.
  intros Hv Hf Hd He. unfold vector_step. rewrite Hv, Hf.
  destruct fs as [|f fs']; [discriminate |].
  cbn [andb truthy_files files_or_empty]. rewrite Hd.
  unfold try_except, bind. rewrite He. reflexivity.
Qed.

Lemma cloud_step_absorbs (repo : Snapshot) (w w1 : World) (e : string) :
  os_getenv caps "CLOUD_RUN_URL" w = (Raise e, w1) ->
  cloud_step caps repo w = (Ok EmptyString, w1).
Proof.
  intros He. unfold cloud_step, try_except, bind at 1. rewrite He.
  reflexivity.
Qed.

(** The loop with a list built so far, from the loop with none. *)
Lemma analyze_loop_acc (l : list Snapshot) (acc : list string) (w : World) :
  analyze_loop caps l acc w =
  match analyze_loop caps l [] w with
  | (Ok out, w') => (Ok (acc ++ out)%list, w')
  | (Raise e, w') => (Raise e, w')
  end.
Proof.
  revert acc w. induction l as [|repo l IH]; intros acc w; simpl.
  - unfold ret. now rewrite app_nil_r.
  - unfold bind. destruct (analyze_repo caps repo w) as [[a | e] w1];
      [| reflexivity].
    rewrite (IH (acc ++ [a])%list), (IH ([] ++ [a])%list).
    destruct (analyze_loop caps l [] w1) as [[out | e] w'];
      [| reflexivity].
    now rewrite <- app_assoc.
Qed.

Lemma analyzer_node_nil (s : AgentState) (w : World) :
  repos_data s = [] ->
  analyzer_node caps s w = (Ok (set_analyses [] s), w).
Proof. intros H. unfold analyzer_node, bind. rewrite H. reflexivity. Qed.

Lemma analyzer_node_cons (s s' : AgentState) (repo : Snapshot)
    (rest : list Snapshot) (a : string) (w w1 w' : World) :
  repos_data s = repo :: rest ->
  analyze_repo caps repo w = (Ok a, w1) ->
  analyzer_node caps (set_repos_data rest s) w1 = (Ok s', w') ->
  analyzer_node caps s w = (Ok (set_analyses (a :: analyses s') s), w').
Proof.
  intros Hs Ha Hrest. unfold analyzer_node, bind in *. rewrite Hs.
  simpl in *. unfold bind. rewrite Ha. rewrite analyze_loop_acc.
  destruct (analyze_loop caps rest [] w1) as [[out | e] w2];
    [| discriminate].
  unfold ret in *. injection Hrest as <- <-. reflexivity.
Qed.

(** An analysis chain that fails with [e] at every call. *)
Lemma analyze_loop_all_fail (e : string) (l : list Snapshot) (w : World) :
  (forall x w0, exists w1, chain_run caps analyzer x w0 = (Raise e, w1)) ->
  exists w',
    analyze_loop caps l [] w =
      (Ok (map (fun repo =>
                  "Error analyzing repository " ++ name_or_unknown repo
                  ++ ": " ++ e) l), w').
Proof.
  intros Hfail. revert w. induction l as [|repo l IH]; intros w; simpl.
  - exists w. reflexivity.
  - unfold bind. destruct (vector_step_returns repo w) as [v [w1 Hv]].
    destruct (Hfail (py_str caps repo) w1) as [w2 He].
    rewrite (analyze_repo_chain_raises repo w w1 w2 v e Hv He).
    rewrite analyze_loop_acc. destruct (IH w2) as [w' ->].
    exists w'. reflexivity.
Qed.

Lemma analyzer_node_all_fail (e : string) (s : AgentState) (w : World) :
  (forall x w0, exists w1, chain_run caps analyzer x w0 = (Raise e, w1)) ->
  exists w',
    analyzer_node caps s w =
      (Ok (set_analyses
             (map (fun repo =>
                     "Error analyzing repository " ++ name_or_unknown repo
                     ++ ": " ++ e) (repos_data s)) s), w').
Proof.
  intros Hfail. unfold analyzer_node, bind.
  destruct (analyze_loop_all_fail e (repos_data s) w Hfail) as [w' ->].
  exists w'. reflexivity.
Qed.

End NodeFacts.

(** ** Stages: normal return and frame *)

Section StageFacts.

Context {World : Type}.
Variable caps : Capabilities World.

Lemma gate_record_set (g : Gate) (r : Review) (s : AgentState) :
  gate_record g (set_gate_record g r s) = r.
Proof. destruct g; reflexivity. Qed.

(** Every stage returns a state, and only the key it owns can differ. *)
Lemma run_stage_frame (st : Stage) (s : AgentState) (w : World) :
  exists s' w',
    run_stage caps st s w = (Ok s', w') /\
    forall f, f <> owns st -> agree f s s'.
Proof.
  destruct st; simpl.
  - destruct (fetcher_node_cases caps s w) as [[l [w' [_ H]]] | [e [w' [_ H]]]];
      rewrite H; do 2 eexists; (split; [reflexivity |]);
      intros [] Hf; simpl; try reflexivity; now elim Hf.
  - destruct (gate_node_cases caps DataQuality s w)
      as [[t [w' [_ H]]] | [e [w' [_ H]]]];
      simpl in H; rewrite H; do 2 eexists; (split; [reflexivity |]);
      intros [] Hf; simpl; try reflexivity; now elim Hf.
  - destruct (analyzer_node_spec caps s w) as [out [w' [H _]]].
    rewrite H; do 2 eexists; (split; [reflexivity |]);
      intros [] Hf; simpl; try reflexivity; now elim Hf.
  - destruct (gate_node_cases caps AnalysisQuality s w)
      as [[t [w' [_ H]]] | [e [w' [_ H]]]];
      simpl in H; rewrite H; do 2 eexists; (split; [reflexivity |]);
      intros [] Hf; simpl; try reflexivity; now elim Hf.
  - destruct (synthesizer_node_cases caps s w)
      as [[t [w' [_ H]]] | [e [w' [_ H]]]];
      rewrite H; do 2 eexists; (split; [reflexivity |]);
      intros [] Hf; simpl; try reflexivity; now elim Hf.
  - destruct (gate_node_cases caps FinalQuality s w)
      as [[t [w' [_ H]]] | [e [w' [_ H]]]];
      simpl in H; rewrite H; do 2 eexists; (split; [reflexivity |]);
      intros [] Hf; simpl; try reflexivity; now elim Hf.
Qed.

(** A review stage leaves a record with a verdict. *)
Lemma gate_node_verdict (g : Gate) (s : AgentState) (w : World) :
  exists s' w' b,
    gate_node caps g s w = (Ok s', w') /\
    approved (gate_record g s') = Some b.
Proof.
  destruct (gate_node_cases caps g s w) as [[t [w' [_ H]]] | [e [w' [_ H]]]];
    rewrite H; do 3 eexists; (split; [reflexivity |]);
    rewrite gate_record_set; reflexivity.
Qed.

(** The run of the workflow, node by node. *)
Lemma workflow_invoke_trace (i : AgentState) (w : World) :
  exists s1 w1 s2 w2 s3 w3 s4 w4 s5 w5 s6 w6,
    fetcher_node caps i w = (Ok s1, w1) /\
    data_quality_reviewer_node caps s1 w1 = (Ok s2, w2) /\
    analyzer_node caps s2 w2 = (Ok s3, w3) /\
    analysis_quality_reviewer_node caps s3 w3 = (Ok s4, w4) /\
    synthesizer_node caps s4 w4 = (Ok s5, w5) /\
    final_quality_reviewer_node caps s5 w5 = (Ok s6, w6) /\
    upto_synthesizer caps i w = (Ok s5, w5) /\
    workflow_invoke caps i w = (Ok s6, w6).
Proof.
  destruct (run_stage_frame Fetch i w) as [s1 [w1 [H1 _]]].
  destruct (run_stage_frame DataQualityReview s1 w1) as [s2 [w2 [H2 _]]].
  destruct (run_stage_frame Analyze s2 w2) as [s3 [w3 [H3 _]]].
  destruct (run_stage_frame AnalysisQualityReview s3 w3) as [s4 [w4 [H4 _]]].
  destruct (run_stage_frame Synthesize s4 w4) as [s5 [w5 [H5 _]]].
  destruct (run_stage_frame FinalQualityReview s5 w5) as [s6 [w6 [H6 _]]].
  simpl in *.
  exists s1, w1, s2, w2, s3, w3, s4, w4, s5, w5, s6, w6.
  repeat (split; [assumption |]).
  unfold upto_synthesizer, workflow_invoke, bind.
  rewrite H1, H2, H3, H4, H5. split; [reflexivity | assumption].
Qed.

(** A stage keeps every key it does not own. *)
Lemma later_stage_keeps (f : Field) (st : Stage) (s s' : AgentState)
    (w w' : World) :
  f <> owns st ->
  run_stage caps st s w = (Ok s', w') -> agree f s s'.
Proof.
  intros Hf H. destruct (run_stage_frame st s w) as [s2 [w2 [H2 Hfr]]].
  rewrite H in H2. injection H2 as -> ->. now apply Hfr.
Qed.

End StageFacts.

(** ** The fetch tool: what its snapshots look like *)

Lemma walk_counts_up (contents : list ContentFile) (files : Files) (n : Z) :
  (n <= snd (walk contents files n))%Z.
Proof.
  funelim (walk contents files n); simp walk; simpl; try lia.
  all: try (rewrite Heq; simpl).
  all: try lia.
  all: try (etransitivity; [| eassumption]; lia).
Qed.

Lemma fetch_repo_wf (repo : Repository) : snapshot_wf (fetch_repo repo).
Proof.
  unfold fetch_repo, snapshot_wf.
  destruct (root_contents repo) as [contents | e].
  - pose proof (walk_counts_up contents [] 0) as Hn.
    destruct (walk contents [] 0) as [fs n]. simpl in *. split.
    + exists n. split; [reflexivity | assumption].
    + intros e He. discriminate.
  - simpl. split.
    + exists 0%Z. split; [reflexivity | lia].
    + intros e' He. injection He as <-. split; reflexivity.
Qed.

Section ToolFacts.

Context {World : Type}.
Variable get_user : string -> M World NamedUser.
Variable tool_run : M World unit.

(** The function body catches everything. *)
Lemma fetch_github_repos_returns (username repo_names : string) (w : World) :
  exists l w',
    fetch_github_repos get_user username repo_names w = (Ok l, w') /\
    Forall snapshot_wf l.
Proof.
  unfold fetch_github_repos, try_except, bind, lift, ret.
  destruct (get_user username w) as [[user | e] w1].
  - destruct (select_repos user repo_names) as [rs | e].
    + do 2 eexists. split; [reflexivity |].
      apply Forall_forall. intros r Hr. apply in_map_iff in Hr.
      destruct Hr as [repo [<- _]]. apply fetch_repo_wf.
    + do 2 eexists. split; [reflexivity |].
      constructor; [| constructor]. split; simpl.
      * exists 0%Z. split; [reflexivity | lia].
      * intros e' He. injection He as <-. split; reflexivity.
  - do 2 eexists. split; [reflexivity |].
    constructor; [| constructor]. split; simpl.
    + exists 0%Z. split; [reflexivity | lia].
    + intros e' He. injection He as <-. split; reflexivity.
Qed.

Lemma fetch_github_repos_invoke_wf (username repo_names : string) (w w' : World)
    (l : list Snapshot) :
  fetch_github_repos_invoke get_user tool_run username repo_names w = (Ok l, w') ->
  Forall snapshot_wf l.
Proof.
  unfold fetch_github_repos_invoke, bind.
  destruct (tool_run w) as [[[] | e] w1]; [| discriminate].
  destruct (fetch_github_repos_returns username repo_names w1)
    as [l' [w2 [H HF]]].
  rewrite H. intros E. injection E as <- _. assumption.
Qed.

Variable caps : Capabilities World.

(** With the tool as fetch capability, the fetch stage stores well-formed
    snapshots. *)
Lemma fetcher_node_wf (s : AgentState) (w : World) :
  exists s' w',
    fetcher_node (with_github_tool get_user tool_run caps) s w = (Ok s', w') /\
    Forall snapshot_wf (repos_data s').
Proof.
  destruct (fetcher_node_cases (with_github_tool get_user tool_run caps) s w)
    as [[l [w' [Hl H]]] | [e [w' [_ H]]]]; rewrite H; do 2 eexists;
    (split; [reflexivity |]); simpl.
  - simpl in Hl. eapply fetch_github_repos_invoke_wf; eassumption.
  - constructor; [| constructor]. split; simpl.
    + exists 0%Z. split; [reflexivity | lia].
    + intros e' He. injection He as <-. split; reflexivity.
Qed.

(** The snapshots of a terminal state are those stored by the fetch
    stage, and they are well formed. *)
Lemma run_analysis_snapshots (username repos : string) (w : World) :
  exists st w',
    run_analysis (with_github_tool get_user tool_run caps) username repos w
      = (Ok st, w') /\
    Forall snapshot_wf (repos_data st).
Proof.
  set (c := with_github_tool get_user tool_run caps).
  destruct (workflow_invoke_trace c (initial_state username repos) w)
    as (s1 & w1 & s2 & w2 & s3 & w3 & s4 & w4 & s5 & w5 & s6 & w6
        & H1 & H2 & H3 & H4 & H5 & H6 & _ & H).
  exists s6, w6. split; [exact H |].
  destruct (fetcher_node_wf (initial_state username repos) w)
    as [s1' [w1' [H1' Hwf]]].
  fold c in H1'. rewrite H1 in H1'. injection H1' as <- <-.
  assert (E2 : agree f_repos_data s1 s2)
    by (eapply (later_stage_keeps c f_repos_data DataQualityReview); [discriminate | exact H2]).
  assert (E3 : agree f_repos_data s2 s3)
    by (eapply (later_stage_keeps c f_repos_data Analyze); [discriminate | exact H3]).
  assert (E4 : agree f_repos_data s3 s4)
    by (eapply (later_stage_keeps c f_repos_data AnalysisQualityReview); [discriminate | exact H4]).
  assert (E5 : agree f_repos_data s4 s5)
    by (eapply (later_stage_keeps c f_repos_data Synthesize); [discriminate | exact H5]).
  assert (E6 : agree f_repos_data s5 s6)
    by (eapply (later_stage_keeps c f_repos_data FinalQualityReview); [discriminate | exact H6]).
  simpl in *. congruence.
Qed.

End ToolFacts.

(** ** The summary *)

Lemma fold_left_add (l : list Z) (a : Z) :
  fold_left Z.add l a = (a + total l)%Z.
Proof.
  revert a. induction l as [|x l IH]; intros a; simpl.
  - lia.
  - rewrite IH. unfold total. simpl. lia.
Qed.

Lemma sum_total (l : list Z) : sum l = total l.
Proof. unfold sum. rewrite fold_left_add. lia. Qed.

(** For an arbitrary dictionary the count is that of the snapshots whose
    error text is missing or empty, and a missing count adds 0. *)
Lemma summary_counts (result : ResultDict) :
  Summary.repositories_analyzed (get_quality_summary result) =
    Z.of_nat
      (List.length
         (filter (fun r => match error r with
                           | None | Some EmptyString => true
                           | Some (String _ _) => false
                           end)
            (get (key_repos_data result) []))) /\
  Summary.total_files_processed (get_quality_summary result) =
    total (map (fun r => get (total_files_processed r) 0%Z)
             (get (key_repos_data result) [])).
Proof.
  unfold get_quality_summary. simpl. rewrite sum_total. split; [| reflexivity].
  do 2 f_equal. apply filter_ext. intros r.
  unfold truthy_opt. now destruct (error r) as [[|c e] |].
Qed.

(** On well-formed snapshots the truth value of the error text is the
    presence of the key. *)
Lemma wf_error_truthy (r : Snapshot) :
  snapshot_wf r -> truthy_opt (error r) = snapshot_errored r.
Proof.
  intros [_ H]. unfold snapshot_errored, truthy_opt.
  destruct (error r) as [e |]; [| reflexivity].
  now destruct (H e eq_refl).
Qed.

Lemma filter_not_errored (l : list Snapshot) :
  Forall snapshot_wf l ->
  filter (fun r => negb (truthy_opt (error r))) l =
  filter (fun r => negb (snapshot_errored r)) l.
Proof.
  induction 1 as [|r l Hr _ IH]; simpl; [reflexivity |].
  now rewrite (wf_error_truthy r Hr), IH.
Qed.

Lemma filter_all_errored (l : list Snapshot) :
  forallb snapshot_errored l = true ->
  filter (fun r => negb (snapshot_errored r)) l = [].
Proof.
  induction l as [|r l IH]; simpl; [reflexivity |].
  rewrite andb_true_iff. intros [Hr Hl]. rewrite Hr. simpl. now apply IH.
Qed.

(** Every well-formed snapshot has a count, so the default of [get] is
    never used. *)
Lemma wf_counts (l : list Snapshot) :
  Forall snapshot_wf l ->
  exists counts,
    Forall2 (fun r n => total_files_processed r = Some n) l counts /\
    map (fun r => get (total_files_processed r) 0%Z) l = counts.
Proof.
  induction 1 as [|r l [[n [Hn _]] _] _ [counts [HF Hm]]].
  - exists []. split; constructor.
  - exists (n :: counts). split.
    + now constructor.
    + simpl. now rewrite Hn, Hm.
Qed.

Lemma wf_errored_zero (l : list Snapshot) :
  Forall snapshot_wf l ->
  Forall (fun r => snapshot_errored r = true ->
                   total_files_processed r = Some 0%Z) l.
Proof.
  intros H. eapply Forall_impl; [| exact H].
  intros r [_ Hr] He. unfold snapshot_errored in He.
  destruct (error r) as [e |]; [| discriminate]. now destruct (Hr e eq_refl).
Qed.

Lemma all_errored_total_zero (l : list Snapshot) :
  Forall snapshot_wf l ->
  forallb snapshot_errored l = true ->
  total (map (fun r => get (total_files_processed r) 0%Z) l) = 0%Z.
Proof.
  induction 1 as [|r l [_ Hr] _ IH]; simpl; [reflexivity |].
  rewrite andb_true_iff. intros [He Hl]. unfold snapshot_errored in He.
  destruct (error r) as [e |]; [| discriminate].
  destruct (Hr e eq_refl) as [_ ->]. simpl. now rewrite (IH Hl).
Qed.

(** ** The claims *)

Lemma run_analysis_verdicts {World : Type} (caps : Capabilities World)
    (username repos : string) (w : World) :
  exists st w' a b c,
    run_analysis caps username repos w = (Ok st, w') /\
    approved (data_quality_review st) = Some a /\
    approved (analysis_quality_review st) = Some b /\
    approved (final_quality_review st) = Some c.
Proof.
  destruct (workflow_invoke_trace caps (initial_state username repos) w)
    as (s1 & w1 & s2 & w2 & s3 & w3 & s4 & w4 & s5 & w5 & s6 & w6
        & H1 & H2 & H3 & H4 & H5 & H6 & _ & H).
  destruct (gate_node_verdict caps DataQuality s1 w1) as (x2 & y2 & a & G2 & Ha).
  destruct (gate_node_verdict caps AnalysisQuality s3 w3) as (x4 & y4 & b & G4 & Hb).
  destruct (gate_node_verdict caps FinalQuality s5 w5) as (x6 & y6 & c & G6 & Hc).
  simpl in G2, G4, G6, Ha, Hb, Hc.
  rewrite H2 in G2. rewrite H4 in G4. rewrite H6 in G6.
  injection G2 as <- <-. injection G4 as <- <-. injection G6 as <- <-.
  exists s6, w6, a, b, c. split; [exact H |].
  assert (D3 : agree f_data_quality_review s2 s3)
    by (eapply (later_stage_keeps caps _ Analyze); [discriminate | exact H3]).
  assert (D4 : agree f_data_quality_review s3 s4)
    by (eapply (later_stage_keeps caps _ AnalysisQualityReview); [discriminate | exact H4]).
  assert (D5 : agree f_data_quality_review s4 s5)
    by (eapply (later_stage_keeps caps _ Synthesize); [discriminate | exact H5]).
  assert (D6 : agree f_data_quality_review s5 s6)
    by (eapply (later_stage_keeps caps _ FinalQualityReview); [discriminate | exact H6]).
  assert (A5 : agree f_analysis_quality_review s4 s5)
    by (eapply (later_stage_keeps caps _ Synthesize); [discriminate | exact H5]).
  assert (A6 : agree f_analysis_quality_review s5 s6)
    by (eapply (later_stage_keeps caps _ FinalQualityReview); [discriminate | exact H6]).
  simpl in *. repeat split; congruence.
Qed.

(** C1. For every result dictionary, and so for every terminal state of
    the workflow, [overall_approved] is the conjunction of the [approved]
    flags of the three reviews; in a terminal state the three flags are
    present, the summary carries the three reviews unchanged, and
    [overall_approved] holds exactly when all three flags do. *)
Theorem overall_approved_is_conjunction :
  (forall result : ResultDict,
      Summary.overall_approved (get_quality_summary result) =
      get (approved (get (key_data_quality_review result) empty_review)) false
      && get (approved (get (key_analysis_quality_review result) empty_review)) false
      && get (approved (get (key_final_quality_review result) empty_review)) false) /\
  (forall (World : Type) (caps : Capabilities World) (username repos : string)
          (w : World),
      exists st w' a b c,
        run_analysis caps username repos w = (Ok st, w') /\
        Summary.data_quality (get_quality_summary (as_dict st))
          = data_quality_review st /\
        Summary.analysis_quality (get_quality_summary (as_dict st))
          = analysis_quality_review st /\
        Summary.final_quality (get_quality_summary (as_dict st))
          = final_quality_review st /\
        approved (data_quality_review st) = Some a /\
        approved (analysis_quality_review st) = Some b /\
        approved (final_quality_review st) = Some c /\
        Summary.overall_approved (get_quality_summary (as_dict st)) = a && b && c /\
        (Summary.overall_approved (get_quality_summary (as_dict st)) = true <->
         a = true /\ b = true /\ c = true)).
Proof.
  split; [reflexivity |].
  intros World caps username repos w.
  destruct (run_analysis_verdicts caps username repos w)
    as (st & w' & a & b & c & H & Ha & Hb & Hc).
  exists st, w', a, b, c.
  assert (E : Summary.overall_approved (get_quality_summary (as_dict st))
              = a && b && c).
  { unfold get_quality_summary. simpl. now rewrite Ha, Hb, Hc. }
  repeat (split; [first [assumption | reflexivity] |]).
  rewrite E, !andb_true_iff. tauto.
Qed.

(** C2. Whenever the chain of a review stage answers a text [t], the
    stage returns, stores [t] as the review, and stores the flag
    [approved], which is true exactly when APPROVED occurs in [t] in any
    mix of upper and lower case. *)
Theorem approved_iff_keyword_occurs :
  forall (World : Type) (caps : Capabilities World) (g : Gate)
         (state : AgentState) (w w' : World) (t : string),
    chain_run caps (gate_chain g) (gate_input caps g state) w = (Ok t, w') ->
    exists state' b,
      gate_node caps g state w = (Ok state', w') /\
      review (gate_record g state') = Some t /\
      approved (gate_record g state') = Some b /\
      (b = true <-> occurs_ignoring_case "APPROVED" t).
Proof.
  intros World caps g state w w' t Hrun.
  destruct (gate_node_cases caps g state w)
    as [[t' [w1 [Hc H]]] | [e [w1 [Hc _]]]]; rewrite Hc in Hrun;
    [| discriminate].
  injection Hrun as -> ->.
  exists (set_gate_record g
            (Build_Review (Some t)
               (Some (PyStr.contains "APPROVED" (PyStr.upper t)))
               (Some (gate_label g))) state),
         (PyStr.contains "APPROVED" (PyStr.upper t)).
  rewrite gate_record_set. simpl.
  repeat (split; [first [assumption | reflexivity] |]).
  apply contains_upper_spec. reflexivity.
Qed.

(** The false positive recorded in the specification: a review that says
    it is not approved is approved. *)
Lemma approved_iff_keyword_occurs_witness :
  exists state' b,
    gate_node
      (scripted (Ok []) (fun _ => Ok "this report is not APPROVED yet"))
      FinalQuality drafted_state tt = (Ok state', tt) /\
    review (gate_record FinalQuality state')
      = Some "this report is not APPROVED yet" /\
    approved (gate_record FinalQuality state') = Some b /\
    (b = true <-> occurs_ignoring_case "APPROVED" "this report is not APPROVED yet").
Proof.
  apply (approved_iff_keyword_occurs unit
           (scripted (Ok []) (fun _ => Ok "this report is not APPROVED yet"))
           FinalQuality drafted_state tt tt "this report is not APPROVED yet").
  reflexivity.
Defined.

(** C8. Whenever the chain of a review stage raises, the stage returns
    and stores a review whose text is the error description, whose flag
    [approved] is [False], and which is therefore never approved,
    whatever the error text says. *)
Theorem review_failure_fails_closed :
  forall (World : Type) (caps : Capabilities World) (g : Gate)
         (state : AgentState) (w w' : World) (e : string),
    chain_run caps (gate_chain g) (gate_input caps g state) w = (Raise e, w') ->
    exists state',
      gate_node caps g state w = (Ok state', w') /\
      review (gate_record g state') = Some (gate_error_prefix g ++ e) /\
      approved (gate_record g state') = Some false /\
      reviewer (gate_record g state') = Some (gate_label g) /\
      approved (gate_record g state') <> Some true.
Proof.
  intros World caps g state w w' e Hrun.
  destruct (gate_node_cases caps g state w)
    as [[t [w1 [Hc _]]] | [e' [w1 [Hc H]]]]; rewrite Hc in Hrun;
    [discriminate |].
  injection Hrun as -> ->.
  eexists. split; [exact H |]. rewrite gate_record_set. simpl.
  repeat split; discriminate.
Qed.

Lemma review_failure_fails_closed_witness :
  exists state',
    gate_node (scripted (Ok []) (fun _ => Raise "APPROVED quota exceeded"))
      DataQuality drafted_state tt = (Ok state', tt) /\
    review (gate_record DataQuality state')
      = Some ("Error during data quality review: " ++ "APPROVED quota exceeded") /\
    approved (gate_record DataQuality state') = Some false /\
    reviewer (gate_record DataQuality state') = Some "Data Quality Reviewer" /\
    approved (gate_record DataQuality state') <> Some true.
Proof.
  apply (review_failure_fails_closed unit
           (scripted (Ok []) (fun _ => Raise "APPROVED quota exceeded"))
           DataQuality drafted_state tt tt "APPROVED quota exceeded").
  reflexivity.
Defined.

(** C3. In every terminal state of the workflow run with the fetch tool,
    [repositories_analyzed] is the number of snapshots that have no
    [error] key; when every snapshot has one, it is 0, and so is
    [total_files_processed]. *)
Theorem repositories_analyzed_counts_unerrored :
  forall (World : Type) (get_user : string -> M World NamedUser)
         (tool_run : M World unit) (caps : Capabilities World)
         (username repos : string) (w : World),
    exists st w',
      run_analysis (with_github_tool get_user tool_run caps) username repos w
        = (Ok st, w') /\
      Summary.repositories_analyzed (get_quality_summary (as_dict st)) =
        Z.of_nat
          (List.length (filter (fun r => negb (snapshot_errored r)) (repos_data st))) /\
      (forallb snapshot_errored (repos_data st) = true ->
       Summary.repositories_analyzed (get_quality_summary (as_dict st)) = 0%Z /\
       Summary.total_files_processed (get_quality_summary (as_dict st)) = 0%Z).
Proof.
  intros World get_user tool_run caps username repos w.
  destruct (run_analysis_snapshots get_user tool_run caps username repos w)
    as [st [w' [H Hwf]]].
  exists st, w'. split; [exact H |].
  unfold get_quality_summary. simpl.
  rewrite (filter_not_errored _ Hwf). split; [reflexivity |].
  intros Hall. rewrite (filter_all_errored _ Hall), sum_total.
  split; [reflexivity | now apply all_errored_total_zero].
Qed.

(** A run against an account that does not exist: the only snapshot is
    the tool's error record. *)
Lemma repositories_analyzed_counts_unerrored_witness :
  exists st,
    run_analysis
      (with_github_tool no_such_user (ret tt)
         (scripted (Ok []) (fun _ => Ok "APPROVED")))
      "ghost" "one,two,three" tt = (Ok st, tt) /\
    forallb snapshot_errored (repos_data st) = true /\
    Summary.repositories_analyzed (get_quality_summary (as_dict st)) = 0%Z /\
    Summary.total_files_processed (get_quality_summary (as_dict st)) = 0%Z.
Proof.
  destruct (repositories_analyzed_counts_unerrored unit no_such_user (ret tt)
              (scripted (Ok []) (fun _ => Ok "APPROVED"))
              "ghost" "one,two,three" tt)
    as [st [[] [Hrun [_ Hall]]]].
  exists st. split; [exact Hrun |].
  assert (E : forallb snapshot_errored (repos_data st) = true).
  { vm_compute in Hrun. injection Hrun as <-. reflexivity. }
  split; [exact E | exact (Hall E)].
Defined.

(** C4. In every terminal state of the workflow run with the fetch tool,
    every snapshot carries a count, [total_files_processed] is the sum of
    the counts of all the snapshots, none left out, and the count of a
    snapshot with an [error] key is 0. *)
Theorem total_files_processed_sums_all :
  forall (World : Type) (get_user : string -> M World NamedUser)
         (tool_run : M World unit) (caps : Capabilities World)
         (username repos : string) (w : World),
    exists st w' counts,
      run_analysis (with_github_tool get_user tool_run caps) username repos w
        = (Ok st, w') /\
      Forall2 (fun r n => total_files_processed r = Some n)
        (repos_data st) counts /\
      Summary.total_files_processed (get_quality_summary (as_dict st))
        = total counts /\
      Forall (fun r => snapshot_errored r = true ->
                       total_files_processed r = Some 0%Z)
        (repos_data st).
Proof.
  intros World get_user tool_run caps username repos w.
  destruct (run_analysis_snapshots get_user tool_run caps username repos w)
    as [st [w' [H Hwf]]].
  destruct (wf_counts _ Hwf) as [counts [HF Hm]].
  exists st, w', counts. split; [exact H |]. split; [exact HF |].
  split; [| now apply wf_errored_zero].
  unfold get_quality_summary. simpl. now rewrite sum_total, Hm.
Qed.

(** C5. Whenever the fetch capability raises, the fetch stage returns a
    state whose [repos_data] is a list of exactly one snapshot, with an
    [error] text, no files and a count of 0; the summary of that state
    counts no repository and no file. *)
Theorem fetch_failure_gives_one_error_snapshot :
  forall (World : Type) (caps : Capabilities World) (state : AgentState)
         (w w' : World) (e : string),
    fetch_invoke caps (username state) (repos state) w = (Raise e, w') ->
    exists state' r,
      fetcher_node caps state w = (Ok state', w') /\
      repos_data state' = [r] /\
      error r = Some ("Failed to fetch repository data: " ++ e) /\
      files r = Some [] /\
      total_files_processed r = Some 0%Z /\
      Summary.repositories_analyzed (get_quality_summary (as_dict state')) = 0%Z /\
      Summary.total_files_processed (get_quality_summary (as_dict state')) = 0%Z.
Proof.
  intros World caps state w w' e Hrun.
  destruct (fetcher_node_cases caps state w)
    as [[l [w1 [Hc _]]] | [e' [w1 [Hc H]]]]; rewrite Hc in Hrun;
    [discriminate |].
  injection Hrun as -> ->.
  do 2 eexists. split; [exact H |]. simpl. repeat split; reflexivity.
Qed.

Lemma fetch_failure_gives_one_error_snapshot_witness :
  exists state' r,
    fetcher_node (scripted (Raise "connection refused") (fun _ => Ok "APPROVED"))
      drafted_state tt = (Ok state', tt) /\
    repos_data state' = [r] /\
    error r = Some ("Failed to fetch repository data: " ++ "connection refused") /\
    files r = Some [] /\
    total_files_processed r = Some 0%Z /\
    Summary.repositories_analyzed (get_quality_summary (as_dict state')) = 0%Z /\
    Summary.total_files_processed (get_quality_summary (as_dict state')) = 0%Z.
Proof.
  apply (fetch_failure_gives_one_error_snapshot unit
           (scripted (Raise "connection refused") (fun _ => Ok "APPROVED"))
           drafted_state tt tt "connection refused").
  reflexivity.
Defined.



(** C7. Whatever the input state and whatever the capabilities do, each
    of the six stages returns a state and raises nothing, and so does the
    whole workflow, which therefore runs every stage.  A capability that
    raises is absorbed by the stage that called it: the fetch stage
    stores one error snapshot, a review stage a review that is not
    approved and holds the error text, the synthesizer an error text as
    the report.  The analyze stage stores under [analyses], and nowhere
    else, one text per snapshot, made in order, each from the world the
    one before left.  The text of a snapshot is the answer of the
    analysis chain followed by what the vector step and the Cloud Run
    step add; when the chain raises [e] it is the text Error analyzing
    repository, the name of the snapshot or unknown, a colon and [e].
    The two optional steps raise nothing either: a vector store that
    raises gives the text Vector Analysis: Not available for this
    repository, and an environment lookup that raises gives no Cloud Run
    text.  So an analysis chain that raises [e] at every call leaves one
    such error text for each snapshot. *)
Theorem stages_never_raise :
  forall (World : Type) (caps : Capabilities World),
    (forall (st : Stage) (state : AgentState) (w : World),
        exists state' w', run_stage caps st state w = (Ok state', w')) /\
    (forall (username repos : string) (w : World),
        exists state' w', run_analysis caps username repos w = (Ok state', w')) /\
    (forall (state : AgentState) (w w' : World) (e : string),
        fetch_invoke caps (username state) (repos state) w = (Raise e, w') ->
        exists r,
          fetcher_node caps state w = (Ok (set_repos_data [r] state), w') /\
          error r = Some ("Failed to fetch repository data: " ++ e)) /\
    (forall (g : Gate) (state : AgentState) (w w' : World) (e : string),
        chain_run caps (gate_chain g) (gate_input caps g state) w = (Raise e, w') ->
        gate_node caps g state w =
          (Ok (set_gate_record g
                 (Build_Review (Some (gate_error_prefix g ++ e)) (Some false)
                    (Some (gate_label g))) state), w')) /\
    (forall (state : AgentState) (w w' : World) (e : string),
        chain_run caps synthesizer
          (PyStr.join (PyStr.nl ++ PyStr.nl) (analyses state)) w = (Raise e, w') ->
        synthesizer_node caps state w =
          (Ok (set_final_report ("Error during synthesis: " ++ e) state), w')) /\
    (forall (repo : Snapshot) (w : World),
        exists a w', analyze_repo caps repo w = (Ok a, w')) /\
    (forall (repo : Snapshot) (w : World),
        (exists v w', vector_step caps repo w = (Ok v, w')) /\
        (exists c w', cloud_step caps repo w = (Ok c, w'))) /\
    (forall (repo : Snapshot) (w w1 w2 : World) (v e : string),
        vector_step caps repo w = (Ok v, w1) ->
        chain_run caps analyzer (py_str caps repo) w1 = (Raise e, w2) ->
        analyze_repo caps repo w =
          (Ok ("Error analyzing repository " ++ name_or_unknown repo
               ++ ": " ++ e), w2)) /\
    (forall (repo : Snapshot) (w w1 w2 w3 : World) (v a c : string),
        vector_step caps repo w = (Ok v, w1) ->
        chain_run caps analyzer (py_str caps repo) w1 = (Ok a, w2) ->
        cloud_step caps repo w2 = (Ok c, w3) ->
        analyze_repo caps repo w = (Ok (a ++ v ++ c), w3)) /\
    (forall (repo : Snapshot) (w w1 : World) (fs : Files)
            (d : string * string) (ds : Files) (e : string),
        vector_available caps = true ->
        files repo = Some fs ->
        filter (fun '(path, content) => PyStr.truthy content) fs = d :: ds ->
        from_documents caps (d :: ds) w = (Raise e, w1) ->
        vector_step caps repo w =
          (Ok (PyStr.nl ++ PyStr.nl
               ++ "Vector Analysis: Not available for this repository."), w1)) /\
    (forall (repo : Snapshot) (w w1 : World) (e : string),
        os_getenv caps "CLOUD_RUN_URL" w = (Raise e, w1) ->
        cloud_step caps repo w = (Ok EmptyString, w1)) /\
    (forall (state : AgentState) (w : World),
        repos_data state = [] ->
        analyzer_node caps state w = (Ok (set_analyses [] state), w)) /\
    (forall (state state' : AgentState) (repo : Snapshot)
            (rest : list Snapshot) (a : string) (w w1 w' : World),
        repos_data state = repo :: rest ->
        analyze_repo caps repo w = (Ok a, w1) ->
        analyzer_node caps (set_repos_data rest state) w1 = (Ok state', w') ->
        analyzer_node caps state w =
          (Ok (set_analyses (a :: analyses state') state), w')) /\
    (forall (e : string) (state : AgentState) (w : World),
        (forall x w0, exists w1,
            chain_run caps analyzer x w0 = (Raise e, w1)) ->
        exists w',
          analyzer_node caps state w =
            (Ok (set_analyses
                   (map (fun repo =>
                           "Error analyzing repository "
                           ++ name_or_unknown repo ++ ": " ++ e)
                      (repos_data state)) state), w')).
Proof.
  intros World caps. repeat apply conj.
  - intros st state w.
    destruct (run_stage_frame caps st state w) as [s' [w' [H _]]]. eauto.
  - intros username repos w.
    destruct (workflow_invoke_trace caps (initial_state username repos) w)
      as (s1 & w1 & s2 & w2 & s3 & w3 & s4 & w4 & s5 & w5 & s6 & w6
          & _ & _ & _ & _ & _ & _ & _ & H).
    exists s6, w6. exact H.
  - intros state w w' e Hrun.
    destruct (fetcher_node_cases caps state w)
      as [[l [w1 [Hc _]]] | [e' [w1 [Hc H]]]]; rewrite Hc in Hrun;
      [discriminate |].
    injection Hrun as -> ->. eexists. split; [exact H | reflexivity].
  - intros g state w w' e Hrun.
    destruct (gate_node_cases caps g state w)
      as [[t [w1 [Hc _]]] | [e' [w1 [Hc H]]]]; rewrite Hc in Hrun;
      [discriminate |].
    injection Hrun as -> ->. exact H.
  - intros state w w' e Hrun.
    destruct (synthesizer_node_cases caps state w)
      as [[t [w1 [Hc _]]] | [e' [w1 [Hc H]]]]; rewrite Hc in Hrun;
      [discriminate |].
    injection Hrun as -> ->. exact H.
  - intros repo w. apply analyze_repo_returns.
  - intros repo w. split; [apply vector_step_returns | apply cloud_step_returns].
  - intros repo w w1 w2 v e. apply analyze_repo_chain_raises.
  - intros repo w w1 w2 w3 v a c. apply analyze_repo_chain_returns.
  - intros repo w w1 fs d ds e. apply vector_step_absorbs.
  - intros repo w w1 e. apply cloud_step_absorbs.
  - intros state w. apply analyzer_node_nil.
  - intros state state' repo rest a w w1 w'. apply analyzer_node_cons.
  - intros e state w. apply analyzer_node_all_fail.
Qed.

(** Chains that are out of quota: the synthesizer stores the error as the
    report; the analysis of one snapshot is the error text for it; and
    the analyze stage, run on a state that already holds an analysis,
    replaces it by one error text per snapshot, both by running the loop
    item by item and by the rule for a chain that always fails. *)
Lemma stages_never_raise_witness :
  synthesizer_node
    (scripted (Ok []) (fun _ => Raise "quota exceeded")) drafted_state tt =
  (Ok (set_final_report ("Error during synthesis: " ++ "quota exceeded")
         drafted_state), tt) /\
  analyze_repo
    (scripted (Ok []) (fun _ => Raise "quota exceeded"))
    (clean_snapshot "hello" 12) tt =
  (Ok "Error analyzing repository hello: quota exceeded", tt) /\
  analyzer_node
    (scripted (Ok []) (fun _ => Raise "quota exceeded")) drafted_state tt =
  (Ok (set_analyses ["Error analyzing repository hello: quota exceeded"]
         drafted_state), tt) /\
  analyzer_node
    (scripted (Ok []) (fun _ => Raise "quota exceeded"))
    (set_repos_data
       [clean_snapshot "hello" 12;
        denied_snapshot "secret" "Could not access repository: 403"]
       drafted_state) tt =
  (Ok (set_analyses
         ["Error analyzing repository hello: quota exceeded";
          "Error analyzing repository secret: quota exceeded"]
         (set_repos_data
            [clean_snapshot "hello" 12;
             denied_snapshot "secret" "Could not access repository: 403"]
            drafted_state)), tt).
Proof.
  destruct (stages_never_raise unit
              (scripted (Ok []) (fun _ => Raise "quota exceeded")))
    as [_ [_ [_ [_ [Hsyn [_ [_ [Hraise [_ [_ [_ [Hnil [Hcons Hall]]]]]]]]]]]]].
  split; [apply Hsyn; reflexivity |].
  assert (Hone :
            analyze_repo
              (scripted (Ok []) (fun _ => Raise "quota exceeded"))
              (clean_snapshot "hello" 12) tt =
            (Ok "Error analyzing repository hello: quota exceeded", tt))
    by (apply (Hraise (clean_snapshot "hello" 12) tt tt tt EmptyString
                 "quota exceeded"); reflexivity).
  split; [exact Hone |].
  split.
  - apply (Hcons drafted_state (set_analyses [] (set_repos_data [] drafted_state))
             (clean_snapshot "hello" 12) [] _ tt tt tt eq_refl Hone).
    apply Hnil. reflexivity.
  - destruct (Hall "quota exceeded"
                (set_repos_data
                   [clean_snapshot "hello" 12;
                    denied_snapshot "secret" "Could not access repository: 403"]
                   drafted_state) tt) as [[] H].
    + intros x w0. exists w0. reflexivity.
    + exact H.
Defined.

(** C9. Every stage returns a state that differs from its input at most
    under the key the stage owns; hence no stage changes a key owned by
    another stage; and when the chain of the final review raises on the
    report that the first five nodes produced, the workflow ends with
    that same report, a final review that is not approved and carries the
    error text, and a summary that is not approved. *)
Theorem stages_write_only_their_field :
  forall (World : Type) (caps : Capabilities World),
    (forall (st : Stage) (state : AgentState) (w : World),
        exists state' w',
          run_stage caps st state w = (Ok state', w') /\
          forall f, f <> owns st -> agree f state state') /\
    (forall (st1 st2 : Stage) (state state' : AgentState) (w w' : World),
        st1 <> st2 ->
        run_stage caps st2 state w = (Ok state', w') ->
        agree (owns st1) state state') /\
    (forall (username repos : string) (w w5 w6 : World) (s5 : AgentState)
            (e : string),
        upto_synthesizer caps (initial_state username repos) w = (Ok s5, w5) ->
        chain_run caps final_reviewer (final_report s5) w5 = (Raise e, w6) ->
        exists st,
          run_analysis caps username repos w = (Ok st, w6) /\
          final_report st = final_report s5 /\
          approved (final_quality_review st) = Some false /\
          review (final_quality_review st)
            = Some ("Error during final quality review: " ++ e) /\
          Summary.overall_approved (get_quality_summary (as_dict st)) = false).
Proof.
  intros World caps. split; [| split].
  - intros st state w. apply run_stage_frame.
  - intros st1 st2 state state' w w' Hne Hrun.
    eapply later_stage_keeps; [| exact Hrun].
    intros E. apply Hne. destruct st1, st2; simpl in E; congruence.
  - intros username repos w w5 w6 s5 e Hpre Hfail.
    destruct (workflow_invoke_trace caps (initial_state username repos) w)
      as (s1 & w1 & s2 & w2 & s3 & w3 & s4 & w4 & s5' & w5' & s6 & w6'
          & _ & _ & _ & _ & _ & H6 & Hpre' & H).
    rewrite Hpre in Hpre'. injection Hpre' as <- <-.
    destruct (gate_node_cases caps FinalQuality s5 w5)
      as [[t [w7 [Hc _]]] | [e' [w7 [Hc Hn]]]]; simpl in Hc;
      rewrite Hc in Hfail; [discriminate |].
    injection Hfail as -> ->. simpl in Hn. rewrite Hn in H6.
    injection H6 as <- <-.
    eexists. split; [exact H |]. simpl. repeat split.
    unfold get_quality_summary. simpl. now rewrite !andb_false_r.
Qed.

Lemma stages_write_only_their_field_witness :
  agree (owns Synthesize)
    drafted_state
    (set_final_quality_review
       (Build_Review (Some "Error during final quality review: 503")
          (Some false) (Some "Final Quality Reviewer"))
       drafted_state) /\
  exists st,
    run_analysis
      (scripted (Ok [clean_snapshot "hello" 12])
         (fun c => match c with
                   | final_reviewer => Raise "503"
                   | synthesizer => Ok "Portfolio report"
                   | _ => Ok "APPROVED"
                   end))
      "octocat" "all" tt = (Ok st, tt) /\
    final_report st = "Portfolio report" /\
    approved (final_quality_review st) = Some false /\
    review (final_quality_review st)
      = Some ("Error during final quality review: " ++ "503") /\
    Summary.overall_approved (get_quality_summary (as_dict st)) = false.
Proof.
  pose (caps := scripted (Ok [clean_snapshot "hello" 12])
         (fun c => match c with
                   | final_reviewer => Raise "503"
                   | synthesizer => Ok "Portfolio report"
                   | _ => Ok "APPROVED"
                   end)).
  destruct (stages_write_only_their_field unit caps) as [_ [Hother Hscen]].
  split.
  - apply (Hother Synthesize FinalQualityReview drafted_state _ tt tt).
    + discriminate.
    + reflexivity.
  - apply (Hscen "octocat" "all" tt tt tt
             (set_final_report "Portfolio report"
                (set_analysis_quality_review
                   (Build_Review (Some "APPROVED") (Some true)
                      (Some "Analysis Quality Reviewer"))
                   (set_analyses ["APPROVED"]
                      (set_data_quality_review
                         (Build_Review (Some "APPROVED") (Some true)
                            (Some "Data Quality Reviewer"))
                         (set_repos_data [clean_snapshot "hello" 12]
                            (initial_state "octocat" "all"))))))
             "503").
    + reflexivity.
    + reflexivity.
Defined.

(** C10. [get_quality_summary] is defined on every result dictionary.
    When a review is missing, or has no [approved] entry, it counts as
    not approved and [overall_approved] is [False]; when [repos_data] is
    missing, both counts are 0. *)
Theorem summary_defaults_on_missing_keys :
  forall result : ResultDict,
    (gate_missing (key_data_quality_review result) \/
     gate_missing (key_analysis_quality_review result) \/
     gate_missing (key_final_quality_review result) ->
     Summary.overall_approved (get_quality_summary result) = false) /\
    (gate_missing (key_data_quality_review result) ->
     get (approved (Summary.data_quality (get_quality_summary result))) false
       = false) /\
    (gate_missing (key_analysis_quality_review result) ->
     get (approved (Summary.analysis_quality (get_quality_summary result))) false
       = false) /\
    (gate_missing (key_final_quality_review result) ->
     get (approved (Summary.final_quality (get_quality_summary result))) false
       = false) /\
    (key_repos_data result = None ->
     Summary.repositories_analyzed (get_quality_summary result) = 0%Z /\
     Summary.total_files_processed (get_quality_summary result) = 0%Z).
Proof.
  intros result.
  assert (Hm : forall v, gate_missing v ->
                 get (approved (get v empty_review)) false = false).
  { intros v [-> | [rv [-> Hrv]]]; simpl; [reflexivity | now rewrite Hrv]. }
  unfold get_quality_summary. simpl.
  split; [| split; [| split; [| split]]]; try (intros H; now apply Hm).
  - intros [H | [H | H]]; rewrite (Hm _ H);
      rewrite ?andb_false_r; reflexivity.
  - intros ->. split; reflexivity.
Qed.

(** The dictionary with no key at all, and one whose final review is
    [{}]. *)
Lemma summary_defaults_on_missing_keys_witness :
  Summary.overall_approved
    (get_quality_summary
       {| key_username := None; key_repos := None; key_repos_data := None;
          key_analyses := None; key_final_report := None;
          key_data_quality_review :=
            Some (Build_Review (Some "APPROVED") (Some true) None);
          key_analysis_quality_review :=
            Some (Build_Review (Some "APPROVED") (Some true) None);
          key_final_quality_review := Some empty_review |}) = false /\
  Summary.repositories_analyzed
    (get_quality_summary
       {| key_username := None; key_repos := None; key_repos_data := None;
          key_analyses := None; key_final_report := None;
          key_data_quality_review := None;
          key_analysis_quality_review := None;
          key_final_quality_review := None |}) = 0%Z.
Proof.
  split.
  - match goal with
    | |- Summary.overall_approved (get_quality_summary ?d) = false =>
        destruct (summary_defaults_on_missing_keys d) as [H _]
    end.
    apply H. right. right. right. exists empty_review. split; reflexivity.
  - match goal with
    | |- Summary.repositories_analyzed (get_quality_summary ?d) = 0%Z =>
        destruct (summary_defaults_on_missing_keys d) as [_ [_ [_ [_ H]]]]
    end.
    apply H. reflexivity.
Defined.

(** ** Concrete runs *)

Example approved_plain :
  PyStr.contains "APPROVED" (PyStr.upper "Overall assessment: APPROVED, looks solid")
  = true.
Proof. reflexivity. Qed.

Example approved_lower_case :
  PyStr.contains "APPROVED" (PyStr.upper "needs_improvement: not approved") = true.
Proof. reflexivity. Qed.

Example approved_absent :
  PyStr.contains "APPROVED" (PyStr.upper "NEEDS_IMPROVEMENT: data is missing") = false.
Proof. reflexivity. Qed.

Example repo_list_of_names :
  map PyStr.strip (PyStr.split "," "hello, secret ,x") = ["hello"; "secret"; "x"].
Proof. reflexivity. Qed.

Example tool_on_demo_user :
  fetch_github_repos_invoke (fun _ => ret demo_user) (ret tt) "octocat" "all" tt =
  (Ok [ {| name := Some "hello"; description := Some EmptyString;
           meta := Some demo_meta; error := None;
           files := Some [("README.md",
                           "[Large file - 200000 bytes - content truncated]");
                          ("src/main.py", "print(1)")];
           total_files_processed := Some 2%Z |};
        {| name := Some "secret"; description := Some "private"; meta := None;
           error := Some "Could not access repository: access denied";
           files := Some []; total_files_processed := Some 0%Z |} ], tt).
Proof. reflexivity. Qed.

Example tool_on_unknown_repository :
  fetch_github_repos_invoke (fun _ => ret demo_user) (ret tt)
    "octocat" "hello,nope" tt =
  (Ok [ {| name := None; description := None; meta := None;
           error := Some "Failed to fetch repositories for user octocat: 404 Not Found";
           files := Some []; total_files_processed := Some 0%Z |} ], tt).
Proof. reflexivity. Qed.

(** One clean snapshot with 12 files, one denied, three approving
    reviews. *)
Example run_two_snapshots :
  exists st,
    run_analysis
      (scripted (Ok [clean_snapshot "hello" 12;
                     denied_snapshot "secret" "access denied"])
         (fun _ => Ok "Overall assessment: APPROVED"))
      "octocat" "all" tt = (Ok st, tt) /\
    Summary.repositories_analyzed (get_quality_summary (as_dict st)) = 1%Z /\
    Summary.total_files_processed (get_quality_summary (as_dict st)) = 12%Z /\
    Summary.overall_approved (get_quality_summary (as_dict st)) = true.
Proof. eexists. split; [reflexivity |]. repeat split. Qed.

(** The first analysis call fails, the second answers; the vector store
    is unavailable for the repository that has files. *)
Example one_bad_repository :
  analyzer_node
    (counted (Ok [])
       (fun n _ => match n with 0 => Raise "rate limit" | _ => Ok "fine" end))
    (set_repos_data
       [clean_snapshot "hello" 12;
        {| name := Some "tool"; description := Some EmptyString; meta := None;
           error := None; files := Some [("a.py", "x = 1")];
           total_files_processed := Some 1%Z |}]
       drafted_state) 0 =
  (Ok (set_analyses
         ["Error analyzing repository hello: rate limit";
          "fine" ++ PyStr.nl ++ PyStr.nl
          ++ "Vector Analysis: Not available for this repository."]
         (set_repos_data
            [clean_snapshot "hello" 12;
             {| name := Some "tool"; description := Some EmptyString; meta := None;
                error := None; files := Some [("a.py", "x = 1")];
                total_files_processed := Some 1%Z |}]
            drafted_state)), 2).
Proof. reflexivity. Qed.

(** ** The fetch tool: the walk over a repository *)

Lemma forest_files_app (l1 l2 : list ContentFile) :
  forest_files (l1 ++ l2) = (forest_files l1 + forest_files l2)%Z.
Proof.
  induction l1 as [|c l1 IH]; simpl; [reflexivity | rewrite IH; lia].
Qed.

Lemma file_count_dir (p : string) (sub : list ContentFile) :
  file_count (Dir p (Ok sub)) = forest_files sub.
Proof. reflexivity. Qed.

Lemma forest_files_nonneg (l : list ContentFile) : (0 <= forest_files l)%Z.
Proof.
  remember (forest_size l) as n eqn:Hn.
  revert l Hn. induction n as [n IH] using lt_wf_ind. intros l Hn.
  destruct l as [|c l]; [simpl; lia |].
  change (0 <= file_count c + forest_files l)%Z.
  assert (Hl : (0 <= forest_files l)%Z).
  { apply (IH (forest_size l)); [| reflexivity]. subst n.
    change (forest_size l < tree_size c + forest_size l).
    destruct c as [p sz d | p [sub | e]]; simpl; lia. }
  destruct c as [p sz d | p [sub | e]].
  - change (0 <= 1 + forest_files l)%Z. lia.
  - rewrite file_count_dir.
    assert (Hs : (0 <= forest_files sub)%Z).
    { apply (IH (forest_size sub)); [| reflexivity]. subst n.
      change (forest_size sub < S (forest_size sub) + forest_size l). lia. }
    lia.
  - change (0 <= 0 + forest_files l)%Z. lia.
Qed.

Lemma walk_count (contents : list ContentFile) (files : Files) (n : Z) :
  snd (walk contents files n) =
  if (n <? max_files)%Z then Z.min max_files (n + forest_files contents) else n.
Proof.
  funelim (walk contents files n); clear Heqcall.
  - simpl. unfold max_files. destruct (processed_files <? 50)%Z eqn:E; lia.
  - rewrite Heq. reflexivity.
  - rewrite H, Heq. clear H.
    pose proof (forest_files_nonneg contents).
    unfold max_files in *.
    change (forest_files (File path size decoded :: contents))
      with (1 + forest_files contents)%Z.
    destruct (processed_files + 1 <? 50)%Z eqn:E; lia.
  - rewrite H, Heq, forest_files_app.
    change (forest_files (Dir path0 (Ok sub) :: contents))
      with (forest_files sub + forest_files contents)%Z.
    f_equal. lia.
  - rewrite H, Heq. reflexivity.
Qed.

Lemma keys_dict_set (k v : string) (d : Files) (k' : string) :
  In k' (keys (dict_set k v d)) <-> k' = k \/ In k' (keys d).
Proof.
  unfold keys. induction d as [|[k0 v0] d IH]; simpl.
  - intuition congruence.
  - destruct (String.eqb k0 k) eqn:E; simpl.
    + apply String.eqb_eq in E. subst k0. intuition congruence.
    + rewrite IH. intuition congruence.
Qed.

Lemma nodup_dict_set (k v : string) (d : Files) :
  NoDup (keys d) -> NoDup (keys (dict_set k v d)).
Proof.
  unfold keys. induction d as [|[k0 v0] d IH]; simpl; intros H.
  - constructor; [intros [] | constructor].
  - inversion H as [|? ? Hin Hd]; subst.
    destruct (String.eqb k0 k) eqn:E; simpl.
    + apply String.eqb_eq in E. subst k0. now constructor.
    + constructor; [| now apply IH].
      intros Hk. apply (keys_dict_set k v d k0) in Hk.
      destruct Hk as [-> | Hk]; [| contradiction].
      now rewrite String.eqb_refl in E.
Qed.

Lemma length_dict_set (k v : string) (d : Files) :
  List.length (dict_set k v d) <= S (List.length d).
Proof.
  induction d as [|[k0 v0] d IH]; simpl; [lia |].
  destruct (String.eqb k0 k); simpl; lia.
Qed.

Lemma keys_read_file (p : string) (sz : Z) (dec : result string) (d : Files)
    (k' : string) :
  In k' (keys (read_file p sz dec d)) <-> k' = p \/ In k' (keys d).
Proof.
  unfold read_file. destruct (sz >? 100000)%Z; [| destruct dec];
    apply keys_dict_set.
Qed.

Lemma nodup_read_file (p : string) (sz : Z) (dec : result string) (d : Files) :
  NoDup (keys d) -> NoDup (keys (read_file p sz dec d)).
Proof.
  unfold read_file. destruct (sz >? 100000)%Z; [| destruct dec];
    apply nodup_dict_set.
Qed.

Lemma length_read_file (p : string) (sz : Z) (dec : result string) (d : Files) :
  List.length (read_file p sz dec d) <= S (List.length d).
Proof.
  unfold read_file. destruct (sz >? 100000)%Z; [| destruct dec];
    apply length_dict_set.
Qed.

Lemma forest_paths_app (l1 l2 : list ContentFile) :
  forest_paths (l1 ++ l2) = (forest_paths l1 ++ forest_paths l2)%list.
Proof.
  induction l1 as [|c l1 IH]; simpl; [reflexivity |].
  now rewrite IH, app_assoc.
Qed.

(** What the loop keeps of the dictionary it fills. *)
Lemma walk_files (contents : list ContentFile) (files : Files) (n : Z) :
  (NoDup (keys files) -> NoDup (keys (fst (walk contents files n)))) /\
  (forall k, In k (keys (fst (walk contents files n))) ->
             In k (keys files) \/ In k (forest_paths contents)) /\
  (Z.of_nat (List.length (fst (walk contents files n)))
   <= Z.of_nat (List.length files) + (snd (walk contents files n) - n))%Z.
Proof.
  funelim (walk contents files n); clear Heqcall.
  - simpl. repeat split; [tauto | tauto | lia].
  - simpl. repeat split; [tauto | tauto | lia].
  - destruct H as [Hn [Hk Hl]]. repeat split.
    + intros Hd. apply Hn. now apply nodup_read_file.
    + intros k Hin. destruct (Hk k Hin) as [Hin' | Hin'].
      * apply keys_read_file in Hin'. destruct Hin' as [-> | Hin'];
          [right; simpl; now left | now left].
      * right. simpl. now right.
    + pose proof (length_read_file path size decoded files0). lia.
  - destruct H as [Hn [Hk Hl]]. repeat split; [assumption | | assumption].
    intros k Hin. destruct (Hk k Hin) as [Hin' | Hin']; [now left | right].
    rewrite forest_paths_app in Hin'.
    change (forest_paths (Dir path0 (Ok sub) :: contents))
      with (forest_paths sub ++ forest_paths contents)%list.
    apply in_app_iff in Hin'. apply in_app_iff. tauto.
  - destruct H as [Hn [Hk Hl]]. repeat split; assumption.
Qed.

(** X1. For a repository whose root can be listed, the snapshot has no
    error and its [total_files_processed] is the number of entries that
    are not directories, counted through the directories that can be
    listed, but never more than 50. *)
Theorem fetch_repo_counts_files_up_to_50 :
  forall (repo : Repository) (contents : list ContentFile),
    root_contents repo = Ok contents ->
    error (fetch_repo repo) = None /\
    name (fetch_repo repo) = Some (repo_name repo) /\
    total_files_processed (fetch_repo repo)
      = Some (Z.min 50 (forest_files contents)).
Proof.
  intros repo contents H. unfold fetch_repo. rewrite H.
  pose proof (walk_count contents [] 0) as Hc.
  destruct (walk contents [] 0) as [fs n]. simpl in *.
  repeat split. now rewrite Hc.
Qed.

Lemma fetch_repo_counts_files_up_to_50_witness :
  total_files_processed
    (fetch_repo
       {| repo_name := "hello"; repo_description := None; repo_meta := demo_meta;
          root_contents :=
            Ok [Dir "src" (Ok [File "src/main.py" 20 (Ok "print(1)")]);
                File "README.md" 200000 (Ok "big");
                Dir "vendor" (Raise "403")] |})
  = Some 2%Z.
Proof.
  apply (fetch_repo_counts_files_up_to_50
           {| repo_name := "hello"; repo_description := None;
              repo_meta := demo_meta;
              root_contents :=
                Ok [Dir "src" (Ok [File "src/main.py" 20 (Ok "print(1)")]);
                    File "README.md" 200000 (Ok "big");
                    Dir "vendor" (Raise "403")] |}
           [Dir "src" (Ok [File "src/main.py" 20 (Ok "print(1)")]);
            File "README.md" 200000 (Ok "big");
            Dir "vendor" (Raise "403")]).
  reflexivity.
Defined.

(** X2. For a repository whose root can be listed, the [files]
    dictionary of the snapshot has no repeated key, every key is the path
    of an entry of the tree that is not a directory, and it has at most
    [total_files_processed] entries. *)
Theorem fetch_repo_files_are_tree_paths :
  forall (repo : Repository) (contents : list ContentFile),
    root_contents repo = Ok contents ->
    exists fs n,
      files (fetch_repo repo) = Some fs /\
      total_files_processed (fetch_repo repo) = Some n /\
      NoDup (keys fs) /\
      (forall k, In k (keys fs) -> In k (forest_paths contents)) /\
      (Z.of_nat (List.length fs) <= n)%Z.
Proof.
  intros repo contents H. unfold fetch_repo. rewrite H.
  destruct (walk_files contents [] 0) as [Hn [Hk Hl]].
  destruct (walk contents [] 0) as [fs n]. simpl in *.
  exists fs, n. repeat split.
  - apply Hn. constructor.
  - intros k Hin. destruct (Hk k Hin) as [[] | Hin']. exact Hin'.
  - lia.
Qed.

Lemma fetch_repo_files_are_tree_paths_witness :
  exists fs n,
    files (fetch_repo
             {| repo_name := "dup"; repo_description := None;
                repo_meta := demo_meta;
                root_contents :=
                  Ok [File "a" 1 (Ok "one"); File "a" 1 (Raise "bad utf-8")] |})
      = Some fs /\
    total_files_processed
      (fetch_repo
         {| repo_name := "dup"; repo_description := None;
            repo_meta := demo_meta;
            root_contents :=
              Ok [File "a" 1 (Ok "one"); File "a" 1 (Raise "bad utf-8")] |})
      = Some n /\
    NoDup (keys fs) /\
    (forall k, In k (keys fs) ->
               In k (forest_paths
                       [File "a" 1 (Ok "one"); File "a" 1 (Raise "bad utf-8")])) /\
    (Z.of_nat (List.length fs) <= n)%Z.
Proof.
  apply (fetch_repo_files_are_tree_paths
           {| repo_name := "dup"; repo_description := None;
              repo_meta := demo_meta;
              root_contents :=
                Ok [File "a" 1 (Ok "one"); File "a" 1 (Raise "bad utf-8")] |}).
  reflexivity.
Defined.

(** ** The fetch tool: selection and contract *)

Lemma fetch_repo_capped (repo : Repository) : snapshot_capped (fetch_repo repo).
Proof.
  unfold fetch_repo, snapshot_capped.
  destruct (root_contents repo) as [contents | e].
  - pose proof (walk_count contents [] 0) as Hc.
    pose proof (forest_files_nonneg contents) as Hf.
    destruct (walk contents [] 0) as [fs n]. simpl in *.
    exists fs, n. repeat split; try discriminate; unfold max_files in Hc; lia.
  - exists [], 0%Z. simpl. repeat split; try lia.
    injection H as <-. reflexivity.
Qed.

Lemma get_each_fails (user : NamedUser) (names : list string) (p e : string) :
  In p names -> get_repo user p = Raise e ->
  exists e', get_each user names = Raise e'.
Proof.
  induction names as [|n ns IH]; simpl; [intros [] |].
  intros [-> | Hin] He.
  - rewrite He. eauto.
  - destruct (get_repo user n) as [r | e0]; [| eauto].
    destruct (IH Hin He) as [e' ->]. eauto.
Qed.

Lemma get_each_succeeds (user : NamedUser) (names : list string)
    (rs : list Repository) :
  Forall2 (fun p r => get_repo user p = Ok r) names rs ->
  get_each user names = Ok rs.
Proof.
  induction 1 as [|p r names rs Hp _ IH]; simpl; [reflexivity |].
  now rewrite Hp, IH.
Qed.

Lemma fetch_tool_contract_aux {World : Type}
    (get_user : string -> M World NamedUser)
    (user_name repo_names : string) (w : World) :
  exists l w',
    fetch_github_repos get_user user_name repo_names w = (Ok l, w') /\
    Forall snapshot_capped l /\
    (repo_names = "all" -> List.length l <= 10).
Proof.
  unfold fetch_github_repos, try_except, bind, lift, ret.
  assert (Hcap : forall e,
             Forall snapshot_capped
               [ {| name := None; description := None; meta := None;
                    error := Some ("Failed to fetch repositories for user "
                                   ++ user_name ++ ": " ++ e);
                    files := Some [];
                    total_files_processed := Some 0%Z |} ]).
  { intros e. constructor; [| constructor]. exists [], 0%Z. simpl.
    repeat split; try lia. injection H as <-. reflexivity. }
  destruct (get_user user_name w) as [[user | e] w1].
  - destruct (select_repos user repo_names) as [rs | e] eqn:Es.
    + do 2 eexists. split; [reflexivity |]. split.
      * apply Forall_forall. intros r Hr. apply in_map_iff in Hr.
        destruct Hr as [repo [<- _]]. apply fetch_repo_capped.
      * intros ->. unfold select_repos in Es.
        change (String.eqb "all" "all") with true in Es. cbv iota in Es.
        destruct (get_repos user) as [l0 | e0]; [| discriminate].
        assert (Hrs : rs = firstn 10 l0) by congruence. subst rs.
        rewrite length_map, length_firstn. lia.
    + do 2 eexists. split; [reflexivity |]. split; [apply Hcap |].
      intros _. simpl. lia.
  - do 2 eexists. split; [reflexivity |]. split; [apply Hcap |].
    intros _. simpl. lia.
Qed.

(** X3. The function body of the fetch tool never raises: for every user
    lookup, user name and selector it returns a list of snapshots, and
    every snapshot of that list has a [files] entry and a count between 0
    and 50; a snapshot with an [error] has a non-empty error text, no
    file, a count of 0 and no metadata. *)
Theorem fetch_tool_contract :
  forall (World : Type) (get_user : string -> M World NamedUser)
         (user_name repo_names : string) (w : World),
    exists l w',
      fetch_github_repos get_user user_name repo_names w = (Ok l, w') /\
      Forall snapshot_capped l.
Proof.
  intros World get_user user_name repo_names w.
  destruct (fetch_tool_contract_aux get_user user_name repo_names w)
    as [l [w' [H [Hc _]]]].
  exists l, w'. split; assumption.
Qed.

(** X4. With the selector all, when the user and the list of
    repositories can be read, the tool returns one snapshot for each of
    the first ten repositories, in their order and under their names, and
    none for the others. *)
Theorem fetch_all_takes_first_ten :
  forall (World : Type) (get_user : string -> M World NamedUser)
         (username : string) (w w' : World) (user : NamedUser)
         (rs : list Repository),
    get_user username w = (Ok user, w') ->
    get_repos user = Ok rs ->
    exists l,
      fetch_github_repos get_user username "all" w = (Ok l, w') /\
      l = map fetch_repo (firstn 10 rs) /\
      List.length l = Nat.min 10 (List.length rs) /\
      map name l = map (fun r => Some (repo_name r)) (firstn 10 rs).
Proof.
  intros World get_user username w w' user rs Hu Hr.
  unfold fetch_github_repos, try_except, bind, lift, ret, select_repos.
  rewrite Hu. cbv beta iota.
  change (String.eqb "all" "all") with true. cbv iota. rewrite Hr.
  eexists. split; [reflexivity |]. split; [reflexivity |]. split.
  - now rewrite length_map, length_firstn.
  - rewrite map_map. apply map_ext. intros r. unfold fetch_repo.
    destruct (root_contents r) as [c | e]; [| reflexivity].
    now destruct (walk c [] 0).
Qed.

Lemma fetch_all_takes_first_ten_witness :
  exists l,
    fetch_github_repos (fun _ => ret demo_user) "octocat" "all" tt = (Ok l, tt) /\
    l = map fetch_repo
          (firstn 10 (match get_repos demo_user with Ok rs => rs | Raise _ => [] end)) /\
    List.length l = 2 /\
    map name l = [Some "hello"; Some "secret"].
Proof.
  destruct (fetch_all_takes_first_ten unit (fun _ => ret demo_user) "octocat"
              tt tt demo_user
              (match get_repos demo_user with Ok rs => rs | Raise _ => [] end)
              eq_refl eq_refl) as [l [H1 [H2 [H3 H4]]]].
  exists l. repeat split; assumption.
Defined.

(** X5. With a list of names as selector, one repository that cannot be
    looked up makes the tool drop all the others: it returns a single
    snapshot, without a name, whose error text names the user.  The
    names are the pieces of the selector between commas, each without
    the white space of [str.strip] around it. *)
Theorem fetch_named_is_all_or_nothing :
  forall (World : Type) (get_user : string -> M World NamedUser)
         (username repo_names : string) (w w' : World) (user : NamedUser)
         (p e : string),
    repo_names <> "all" ->
    get_user username w = (Ok user, w') ->
    In p (repo_list repo_names) ->
    get_repo user p = Raise e ->
    exists e' w1,
      fetch_github_repos get_user username repo_names w =
      (Ok [ {| name := None; description := None; meta := None;
               error := Some ("Failed to fetch repositories for user "
                              ++ username ++ ": " ++ e');
               files := Some [];
               total_files_processed := Some 0%Z |} ], w1).
Proof.
  intros World get_user username repo_names w w' user p e Hall Hu Hin He.
  unfold fetch_github_repos, try_except, bind, lift, ret, select_repos.
  rewrite Hu. simpl.
  destruct (String.eqb repo_names "all") eqn:E;
    [apply String.eqb_eq in E; contradiction |].
  destruct (get_each_fails user _ p e Hin He) as [e' He'].
  unfold repo_list in He'. rewrite He'. eauto.
Qed.

Lemma fetch_named_is_all_or_nothing_witness :
  exists e' w1,
    fetch_github_repos (fun _ => ret demo_user) "octocat"
      ("hello," ++ PyStr.utf8 [227; 128; 128] ++ "nope ") tt =
    (Ok [ {| name := None; description := None; meta := None;
             error := Some ("Failed to fetch repositories for user "
                            ++ "octocat" ++ ": " ++ e');
             files := Some [];
             total_files_processed := Some 0%Z |} ], w1).
Proof.
  apply (fetch_named_is_all_or_nothing unit (fun _ => ret demo_user)
           "octocat" ("hello," ++ PyStr.utf8 [227; 128; 128] ++ "nope ")
           tt tt demo_user "nope" "404 Not Found").
  - discriminate.
  - reflexivity.
  - right. left. reflexivity.
  - reflexivity.
Defined.

(** X6. With a list of names as selector, when every name, stripped of
    the white space of [str.strip] around it (U+00A0 and U+3000 as much
    as a blank), can be looked up, the tool returns one snapshot per
    name, in the order of the list, a repeated name giving a repeated
    snapshot, and more than ten names giving more than ten snapshots. *)
Theorem fetch_named_follows_the_list :
  forall (World : Type) (get_user : string -> M World NamedUser)
         (username repo_names : string) (w w' : World) (user : NamedUser)
         (rs : list Repository),
    repo_names <> "all" ->
    get_user username w = (Ok user, w') ->
    Forall2 (fun p r => get_repo user p = Ok r) (repo_list repo_names) rs ->
    (exists w1,
        fetch_github_repos get_user username repo_names w
          = (Ok (map fetch_repo rs), w1)) /\
    List.length (map fetch_repo rs) = List.length (repo_list repo_names).
Proof.
  intros World get_user username repo_names w w' user rs Hall Hu HF.
  unfold fetch_github_repos, try_except, bind, lift, ret, select_repos.
  rewrite Hu. simpl.
  destruct (String.eqb repo_names "all") eqn:E;
    [apply String.eqb_eq in E; contradiction |].
  pose proof (get_each_succeeds user _ rs HF) as Hg.
  unfold repo_list in Hg. rewrite Hg. split; [eexists; reflexivity |].
  rewrite length_map. symmetry. eapply Forall2_length. exact HF.
Qed.

Lemma fetch_named_follows_the_list_witness :
  map name
    (match fst (fetch_github_repos (fun _ => ret demo_user) "octocat"
                  (" secret" ++ PyStr.utf8 [194; 160] ++ ",hello,"
                   ++ PyStr.utf8 [226; 128; 131] ++ "secret") tt) with
     | Ok l => l
     | Raise _ => []
     end)
  = [Some "secret"; Some "hello"; Some "secret"].
Proof.
  pose (hello := match get_repo demo_user "hello" with
                 | Ok r => r | Raise _ => Build_Repository EmptyString None demo_meta (Raise EmptyString) end).
  pose (secret := match get_repo demo_user "secret" with
                  | Ok r => r | Raise _ => Build_Repository EmptyString None demo_meta (Raise EmptyString) end).
  destruct (fetch_named_follows_the_list unit (fun _ => ret demo_user)
              "octocat"
              (" secret" ++ PyStr.utf8 [194; 160] ++ ",hello,"
               ++ PyStr.utf8 [226; 128; 131] ++ "secret")
              tt tt demo_user [secret; hello; secret]) as [[w1 H] _].
  - discriminate.
  - reflexivity.
  - repeat constructor.
  - rewrite H. reflexivity.
Defined.

(** ** The workflow as a whole *)

Lemma run_analysis_shape {World : Type} (caps : Capabilities World)
    (user_name selector : string) (w : World) :
  exists s1 w1 st w',
    fetcher_node caps (initial_state user_name selector) w = (Ok s1, w1) /\
    run_analysis caps user_name selector w = (Ok st, w') /\
    repos_data st = repos_data s1 /\
    username st = user_name /\
    repos st = selector /\
    List.length (analyses st) = List.length (repos_data st).
Proof.
  destruct (workflow_invoke_trace caps (initial_state user_name selector) w)
    as (s1 & w1 & s2 & w2 & s3 & w3 & s4 & w4 & s5 & w5 & s6 & w6
        & H1 & H2 & H3 & H4 & H5 & H6 & _ & H).
  exists s1, w1, s6, w6. split; [exact H1 |]. split; [exact H |].
  destruct (analyzer_node_spec caps s2 w2) as [out [w3' [Ha HF]]].
  rewrite H3 in Ha. injection Ha as -> ->.
  apply Forall2_length in HF.
  pose proof (fun f Hf => later_stage_keeps caps f Fetch _ _ _ _ Hf H1) as K1.
  pose proof (fun f Hf => later_stage_keeps caps f DataQualityReview _ _ _ _ Hf H2) as K2.
  pose proof (fun f Hf => later_stage_keeps caps f Analyze _ _ _ _ Hf H3) as K3.
  pose proof (fun f Hf => later_stage_keeps caps f AnalysisQualityReview _ _ _ _ Hf H4) as K4.
  pose proof (fun f Hf => later_stage_keeps caps f Synthesize _ _ _ _ Hf H5) as K5.
  pose proof (fun f Hf => later_stage_keeps caps f FinalQualityReview _ _ _ _ Hf H6) as K6.
  assert (N : forall f st, f <> owns st -> f <> owns st) by auto.
  repeat split.
  - pose proof (K2 f_repos_data ltac:(discriminate)).
    pose proof (K3 f_repos_data ltac:(discriminate)).
    pose proof (K4 f_repos_data ltac:(discriminate)).
    pose proof (K5 f_repos_data ltac:(discriminate)).
    pose proof (K6 f_repos_data ltac:(discriminate)).
    simpl in *. congruence.
  - pose proof (K1 f_username ltac:(discriminate)).
    pose proof (K2 f_username ltac:(discriminate)).
    pose proof (K3 f_username ltac:(discriminate)).
    pose proof (K4 f_username ltac:(discriminate)).
    pose proof (K5 f_username ltac:(discriminate)).
    pose proof (K6 f_username ltac:(discriminate)).
    simpl in *. congruence.
  - pose proof (K1 f_repos ltac:(discriminate)).
    pose proof (K2 f_repos ltac:(discriminate)).
    pose proof (K3 f_repos ltac:(discriminate)).
    pose proof (K4 f_repos ltac:(discriminate)).
    pose proof (K5 f_repos ltac:(discriminate)).
    pose proof (K6 f_repos ltac:(discriminate)).
    simpl in *. congruence.
  - pose proof (K4 f_repos_data ltac:(discriminate)).
    pose proof (K5 f_repos_data ltac:(discriminate)).
    pose proof (K6 f_repos_data ltac:(discriminate)).
    pose proof (K4 f_analyses ltac:(discriminate)).
    pose proof (K5 f_analyses ltac:(discriminate)).
    pose proof (K6 f_analyses ltac:(discriminate)).
    simpl in *. congruence.
Qed.

(** X7. Whatever the capabilities do, the state returned by
    [run_analysis] holds the user name and the selector it was called
    with, and as many analyses as snapshots. *)
Theorem run_analysis_keeps_inputs_and_alignment :
  forall (World : Type) (caps : Capabilities World)
         (user_name selector : string) (w : World),
    exists st w',
      run_analysis caps user_name selector w = (Ok st, w') /\
      username st = user_name /\
      repos st = selector /\
      List.length (analyses st) = List.length (repos_data st).
Proof.
  intros World caps user_name selector w.
  destruct (run_analysis_shape caps user_name selector w)
    as (s1 & w1 & st & w' & _ & H & _ & Hu & Hr & Hl).
  exists st, w'. repeat split; assumption.
Qed.

Lemma capped_counts (l : list Snapshot) :
  Forall snapshot_capped l ->
  (0 <= total (map (fun r => get (total_files_processed r) 0%Z) l)
   <= 50 * Z.of_nat
             (List.length (filter (fun r => negb (truthy_opt (error r))) l)))%Z.
Proof.
  induction 1 as [|r l (fs & n & Hf & Hn & Hb & He) _ IH]; [simpl; lia |].
  cbn [map filter]. unfold total in *. cbn [fold_right]. rewrite Hn.
  cbn [get]. destruct (error r) as [e |] eqn:E.
  - destruct (He e eq_refl) as [Ht [_ [-> _]]].
    cbn [truthy_opt]. rewrite Ht. cbn [negb]. lia.
  - cbn [truthy_opt negb List.length]. rewrite Nat2Z.inj_succ. lia.
Qed.

Lemma filter_length_le {A} (f : A -> bool) (l : list A) :
  List.length (filter f l) <= List.length l.
Proof.
  induction l as [|a l IH]; simpl; [lia |]. destruct (f a); simpl; lia.
Qed.

Lemma fetcher_node_capped {World : Type}
    (get_user : string -> M World NamedUser) (tool_run : M World unit)
    (caps : Capabilities World) (s : AgentState) (w : World) :
  exists s' w',
    fetcher_node (with_github_tool get_user tool_run caps) s w = (Ok s', w') /\
    Forall snapshot_capped (repos_data s') /\
    (repos s = "all" -> List.length (repos_data s') <= 10).
Proof.
  assert (Hone : forall msg,
             Forall snapshot_capped
               [ {| name := None; description := None; meta := None;
                    error := Some ("Failed to fetch repository data: " ++ msg);
                    files := Some [];
                    total_files_processed := Some 0%Z |} ]).
  { intros msg. constructor; [| constructor]. exists [], 0%Z. simpl.
    repeat split; try lia. injection H as <-. reflexivity. }
  destruct (fetcher_node_cases (with_github_tool get_user tool_run caps) s w)
    as [[l [w' [Hl H]]] | [e [w' [_ H]]]]; rewrite H; do 2 eexists;
    (split; [reflexivity |]); simpl.
  - simpl in Hl. unfold fetch_github_repos_invoke, bind in Hl.
    destruct (tool_run w) as [[[] | e] w1]; [| discriminate].
    destruct (fetch_tool_contract_aux get_user (username s) (repos s) w1)
      as [l' [w2 [Hl' [Hc Hten]]]].
    rewrite Hl' in Hl. injection Hl as <- _. split; assumption.
  - split; [apply Hone | intros _; simpl; lia].
Qed.

Lemma run_analysis_capped {World : Type}
    (get_user : string -> M World NamedUser) (tool_run : M World unit)
    (caps : Capabilities World) (user_name selector : string) (w : World) :
  exists st w',
    run_analysis (with_github_tool get_user tool_run caps) user_name selector w
      = (Ok st, w') /\
    Forall snapshot_capped (repos_data st) /\
    (selector = "all" -> List.length (repos_data st) <= 10).
Proof.
  destruct (run_analysis_shape (with_github_tool get_user tool_run caps)
              user_name selector w)
    as (s1 & w1 & st & w' & H1 & H & Hd & _ & _ & _).
  destruct (fetcher_node_capped get_user tool_run caps
              (initial_state user_name selector) w)
    as (s1' & w1' & H1' & Hc & Hten).
  rewrite H1 in H1'. injection H1' as <- <-.
  exists st, w'. rewrite Hd. repeat split; assumption.
Qed.

Lemma summary_of_state (st : AgentState) :
  Summary.repositories_analyzed (get_quality_summary (as_dict st)) =
    Z.of_nat
      (List.length (filter (fun r => negb (truthy_opt (error r))) (repos_data st))) /\
  Summary.total_files_processed (get_quality_summary (as_dict st)) =
    total (map (fun r => get (total_files_processed r) 0%Z) (repos_data st)).
Proof.
  unfold get_quality_summary. simpl. rewrite sum_total. split; reflexivity.
Qed.

(** X8. In every state returned by [run_analysis] with the fetch tool,
    the summary counts at most as many repositories as there are
    snapshots, and at most 50 files for each repository it counts. *)
Theorem summary_counts_are_bounded :
  forall (World : Type) (get_user : string -> M World NamedUser)
         (tool_run : M World unit) (caps : Capabilities World)
         (user_name selector : string) (w : World),
    exists st w',
      run_analysis (with_github_tool get_user tool_run caps)
        user_name selector w = (Ok st, w') /\
      (0 <= Summary.repositories_analyzed (get_quality_summary (as_dict st))
       <= Z.of_nat (List.length (repos_data st)))%Z /\
      (0 <= Summary.total_files_processed (get_quality_summary (as_dict st))
       <= 50 * Summary.repositories_analyzed (get_quality_summary (as_dict st)))%Z.
Proof.
  intros World get_user tool_run caps user_name selector w.
  destruct (run_analysis_capped get_user tool_run caps user_name selector w)
    as (st & w' & H & Hc & _).
  exists st, w'. split; [exact H |].
  destruct (summary_of_state st) as [-> ->].
  pose proof (filter_length_le (fun r => negb (truthy_opt (error r)))
                (repos_data st)).
  pose proof (capped_counts _ Hc). split; lia.
Qed.

(** X9. With the selector all, every state returned by [run_analysis]
    with the fetch tool has at most 10 snapshots, so the summary counts
    at most 10 repositories and at most 500 files. *)
Theorem all_selector_is_capped :
  forall (World : Type) (get_user : string -> M World NamedUser)
         (tool_run : M World unit) (caps : Capabilities World)
         (user_name : string) (w : World),
    exists st w',
      run_analysis (with_github_tool get_user tool_run caps)
        user_name "all" w = (Ok st, w') /\
      List.length (repos_data st) <= 10 /\
      (Summary.repositories_analyzed (get_quality_summary (as_dict st)) <= 10)%Z /\
      (Summary.total_files_processed (get_quality_summary (as_dict st)) <= 500)%Z.
Proof.
  intros World get_user tool_run caps user_name w.
  destruct (run_analysis_capped get_user tool_run caps user_name "all" w)
    as (st & w' & H & Hc & Hten).
  specialize (Hten eq_refl).
  exists st, w'. split; [exact H |]. split; [exact Hten |].
  destruct (summary_of_state st) as [-> ->].
  pose proof (filter_length_le (fun r => negb (truthy_opt (error r)))
                (repos_data st)).
  pose proof (capped_counts _ Hc). split; lia.
Qed.

(** X10. When the fetch capability and every chain raise on every call,
    [run_analysis] still returns: the state holds one error snapshot, one
    error text as analysis, an error text as report and three reviews
    that are not approved, and its summary is not approved and counts
    nothing. *)
Theorem total_failure_run_still_returns :
  forall (World : Type) (caps : Capabilities World)
         (user_name selector : string) (w : World),
    (forall u r w0, exists e w1, fetch_invoke caps u r w0 = (Raise e, w1)) ->
    (forall c x w0, exists e w1, chain_run caps c x w0 = (Raise e, w1)) ->
    exists st w' e1 e2 e3 e4 e5 e6,
      run_analysis caps user_name selector w = (Ok st, w') /\
      repos_data st =
        [ {| name := None; description := None; meta := None;
             error := Some ("Failed to fetch repository data: " ++ e1);
             files := Some [];
             total_files_processed := Some 0%Z |} ] /\
      data_quality_review st =
        Build_Review (Some ("Error during data quality review: " ++ e2))
          (Some false) (Some "Data Quality Reviewer") /\
      analyses st = ["Error analyzing repository unknown: " ++ e3] /\
      analysis_quality_review st =
        Build_Review (Some ("Error during analysis quality review: " ++ e4))
          (Some false) (Some "Analysis Quality Reviewer") /\
      final_report st = "Error during synthesis: " ++ e5 /\
      final_quality_review st =
        Build_Review (Some ("Error during final quality review: " ++ e6))
          (Some false) (Some "Final Quality Reviewer") /\
      Summary.overall_approved (get_quality_summary (as_dict st)) = false /\
      Summary.repositories_analyzed (get_quality_summary (as_dict st)) = 0%Z /\
      Summary.total_files_processed (get_quality_summary (as_dict st)) = 0%Z.
Proof.
  intros World caps user_name selector w Hfetch Hchain.
  unfold run_analysis, workflow_invoke.
  set (i := {| username := user_name; repos := selector; repos_data := [];
               analyses := []; final_report := EmptyString;
               data_quality_review := empty_review;
               analysis_quality_review := empty_review;
               final_quality_review := empty_review |}).
  unfold bind at 1.
  destruct (fetcher_node_cases caps i w) as [[l [w1 [Hc _]]] | [e1 [w1 [_ H1]]]].
  { destruct (Hfetch (username i) (repos i) w) as [e [w0 He]]. congruence. }
  rewrite H1. unfold bind at 1.
  match goal with |- context [data_quality_reviewer_node caps ?s w1] =>
    destruct (gate_node_cases caps DataQuality s w1)
      as [[t [w2 [Hc _]]] | [e2 [w2 [_ H2]]]]; simpl in *
  end.
  { match type of Hc with chain_run caps ?c ?x ?w0 = _ =>
      destruct (Hchain c x w0) as [e [w0' He]] end. congruence. }
  rewrite H2. unfold bind at 1.
  match goal with |- context [analyzer_node caps ?s w2] =>
    assert (H3 : exists e3 w3,
               analyzer_node caps s w2 =
               (Ok (set_analyses ["Error analyzing repository unknown: " ++ e3] s), w3))
  end.
  { unfold analyzer_node, bind at 1. simpl. unfold bind at 1.
    match goal with |- context [analyze_repo caps ?r w2] =>
      destruct (analyze_repo_failing caps r w2 (Hchain analyzer))
        as [e3 [w3 H3]]; rewrite H3
    end.
    unfold ret. simpl. exists e3, w3. reflexivity. }
  destruct H3 as [e3 [w3 H3]]. rewrite H3. unfold bind at 1.
  match goal with |- context [analysis_quality_reviewer_node caps ?s w3] =>
    destruct (gate_node_cases caps AnalysisQuality s w3)
      as [[t [w4 [Hc _]]] | [e4 [w4 [_ H4]]]]; simpl in *
  end.
  { match type of Hc with chain_run caps ?c ?x ?w0 = _ =>
      destruct (Hchain c x w0) as [e [w0' He]] end. congruence. }
  rewrite H4. unfold bind at 1.
  match goal with |- context [synthesizer_node caps ?s w4] =>
    destruct (synthesizer_node_cases caps s w4)
      as [[t [w5 [Hc _]]] | [e5 [w5 [_ H5]]]]; simpl in *
  end.
  { match type of Hc with chain_run caps ?c ?x ?w0 = _ =>
      destruct (Hchain c x w0) as [e [w0' He]] end. congruence. }
  rewrite H5.
  match goal with |- context [final_quality_reviewer_node caps ?s w5] =>
    destruct (gate_node_cases caps FinalQuality s w5)
      as [[t [w6 [Hc _]]] | [e6 [w6 [_ H6]]]]; simpl in *
  end.
  { match type of Hc with chain_run caps ?c ?x ?w0 = _ =>
      destruct (Hchain c x w0) as [e [w0' He]] end. congruence. }
  rewrite H6.
  eexists _, w6, e1, e2, e3, e4, e5, e6.
  split; [reflexivity |]. repeat split.
Qed.

Lemma total_failure_run_still_returns_witness :
  exists st,
    run_analysis (scripted (Raise "offline") (fun _ => Raise "offline"))
      "octocat" "all" tt = (Ok st, tt) /\
    analyses st = ["Error analyzing repository unknown: offline"] /\
    final_report st = "Error during synthesis: offline" /\
    Summary.overall_approved (get_quality_summary (as_dict st)) = false.
Proof.
  destruct (total_failure_run_still_returns unit
              (scripted (Raise "offline") (fun _ => Raise "offline"))
              "octocat" "all" tt)
    as (st & [] & e1 & e2 & e3 & e4 & e5 & e6 & H & _ & _ & Ha & _ & Hr & _ & Ho & _).
  - intros u r w0. exists "offline", w0. reflexivity.
  - intros c x w0. exists "offline", w0. reflexivity.
  - exists st. split; [exact H |].
    vm_compute in H. injection H as <-. repeat split.
Defined.

(** ** The optional steps of the analyzer *)

Lemma append_empty_r (s : string) : s ++ EmptyString = s.
Proof. induction s as [|c s IH]; simpl; [reflexivity | now rewrite IH]. Qed.

(** X11. In [agents.py] as written the name [os] is unbound, so every
    [os.getenv] raises.  Then the Cloud Run step contributes nothing:
    after one failed lookup it yields the empty text, the service is not
    called, and the analysis stored for a repository is the text of the
    chain followed by the vector insight only. *)
Theorem cloud_step_is_dead_without_os :
  forall (World : Type) (caps : Capabilities World),
    (forall k w0, exists e w1, os_getenv caps k w0 = (Raise e, w1)) ->
    forall (repo : Snapshot) (w w1 w2 : World) (v t : string),
      vector_step caps repo w = (Ok v, w1) ->
      chain_run caps analyzer (py_str caps repo) w1 = (Ok t, w2) ->
      cloud_step caps repo w2
        = (Ok EmptyString, snd (os_getenv caps "CLOUD_RUN_URL" w2)) /\
      analyze_repo caps repo w
        = (Ok (t ++ v), snd (os_getenv caps "CLOUD_RUN_URL" w2)).
Proof.
  intros World caps Hos repo w w1 w2 v t Hv Ht.
  assert (Hc : cloud_step caps repo w2
               = (Ok EmptyString, snd (os_getenv caps "CLOUD_RUN_URL" w2))).
  { unfold cloud_step, try_except, bind at 1.
    destruct (Hos "CLOUD_RUN_URL" w2) as [e [w3 He]]. rewrite He. reflexivity. }
  split; [exact Hc |].
  unfold analyze_repo, try_except, bind at 1. rewrite Hv.
  unfold bind at 1. rewrite Ht. unfold bind at 1. rewrite Hc.
  unfold ret. now rewrite append_empty_r.
Qed.

Lemma cloud_step_is_dead_without_os_witness :
  analyze_repo (scripted (Ok []) (fun _ => Ok "a small service"))
    (clean_snapshot "hello" 12) tt
  = (Ok ("a small service" ++ EmptyString), tt).
Proof.
  assert (Hos : forall (k : string) (w0 : unit), exists e w1,
             os_getenv (scripted (Ok []) (fun _ => Ok "a small service")) k w0
             = (Raise e, w1))
    by (intros k w0; exists "name 'os' is not defined", w0; reflexivity).
  destruct (cloud_step_is_dead_without_os unit
              (scripted (Ok []) (fun _ => Ok "a small service")) Hos
              (clean_snapshot "hello" 12) tt tt tt EmptyString
              "a small service" eq_refl eq_refl) as [_ H].
  exact H.
Defined.

(** X12. When the vector modules could not be imported, or the snapshot
    has no [files] entry, or none of its files has a non-empty content,
    the vector step adds nothing and does not touch the vector store. *)
Theorem vector_step_skips_empty_repositories :
  forall (World : Type) (caps : Capabilities World) (repo : Snapshot) (w : World),
    vector_available caps = false \/
    (forall p c, In (p, c) (files_or_empty (files repo)) -> c = EmptyString) ->
    vector_step caps repo w = (Ok EmptyString, w).
Proof.
  intros World caps repo w H. unfold vector_step.
  destruct (vector_available caps && truthy_files (files repo)) eqn:E;
    [| reflexivity].
  apply andb_true_iff in E. destruct E as [Ea Ef].
  destruct H as [H | H]; [congruence |].
  unfold try_except.
  assert (Hd : filter (fun '(_, content) => PyStr.truthy content)
                 (files_or_empty (files repo)) = []).
  { induction (files_or_empty (files repo)) as [|[p c] l IH]; [reflexivity |].
    simpl. rewrite (H p c (or_introl eq_refl)). simpl.
    apply IH. intros p' c' Hin. apply (H p' c'). now right. }
  rewrite Hd. reflexivity.
Qed.

Lemma vector_step_skips_empty_repositories_witness :
  vector_step
    (counted (Ok []) (fun _ _ => Ok "fine"))
    {| name := Some "blank"; description := None; meta := None; error := None;
       files := Some [("a.txt", EmptyString); ("b.txt", EmptyString)];
       total_files_processed := Some 2%Z |} 7
  = (Ok EmptyString, 7).
Proof.
  apply (vector_step_skips_empty_repositories nat
           (counted (Ok []) (fun _ _ => Ok "fine"))).
  right. intros p c [H | [H | []]]; now injection H as _ <-.
Defined.

(** ** [call_cloud_run] *)

Lemma rstrip_char_snoc (c : ascii) (s : string) :
  rstrip_char c (s ++ String c EmptyString) = rstrip_char c s.
Proof.
  induction s as [|a s IH]; simpl.
  - now rewrite Ascii.eqb_refl.
  - now rewrite IH.
Qed.

(** X13. [call_cloud_run] never raises.  Its dictionary always has a
    [success] entry: either [True] with the data and the status code and
    no error, or [False] with an error text and neither data nor status
    code.  It is [True] exactly when the variables are set, the request
    returned a response whose status is not from 400 to 599, and the body
    could be decoded.  In one direction: a dictionary with [True] comes
    from such a response, whose body and status it holds.  In the other:
    whenever the variables are set and the request returns such a
    response, the result is the dictionary with [True], the decoded body
    and the status of that response, in the world the request left. *)
Theorem call_cloud_run_reports_success_or_error :
  forall (World Payload : Type) (getenv : string -> option string)
         (requests_post : string -> list (string * string) -> Payload -> Z ->
                          World -> outcome Response * World)
         (endpoint : string) (payload : Payload) (w : World),
    exists d w',
      call_cloud_run getenv requests_post endpoint payload w = (Returned d, w') /\
      ((CloudRun.success d = Some true /\
        CloudRun.error d = None /\
        exists r x,
          truthy_opt (getenv "CLOUD_RUN_URL") = true /\
          truthy_opt (getenv "CLOUD_RUN_TOKEN") = true /\
          requests_post
            (rstrip_char "/" (get (getenv "CLOUD_RUN_URL") EmptyString) ++ endpoint)
            [("Authorization", "Bearer " ++ get (getenv "CLOUD_RUN_TOKEN") EmptyString);
             ("Content-Type", "application/json")]
            payload 30%Z w = (Returned r, w') /\
          raise_for_status r = Returned tt /\
          response_json r = Returned x /\
          CloudRun.data d = Some x /\
          CloudRun.status_code d = Some (response_status_code r)) \/
       (CloudRun.success d = Some false /\
        (exists e, CloudRun.error d = Some e) /\
        CloudRun.data d = None /\
        CloudRun.status_code d = None)) /\
      (forall (r : Response) (x : string) (w1 : World),
          truthy_opt (getenv "CLOUD_RUN_URL") = true ->
          truthy_opt (getenv "CLOUD_RUN_TOKEN") = true ->
          requests_post
            (rstrip_char "/" (get (getenv "CLOUD_RUN_URL") EmptyString) ++ endpoint)
            [("Authorization", "Bearer " ++ get (getenv "CLOUD_RUN_TOKEN") EmptyString);
             ("Content-Type", "application/json")]
            payload 30%Z w = (Returned r, w1) ->
          raise_for_status r = Returned tt ->
          response_json r = Returned x ->
          d = {| CloudRun.data := Some x;
                 CloudRun.success := Some true;
                 CloudRun.status_code := Some (response_status_code r);
                 CloudRun.error := None |} /\
          w' = w1).
Proof.
  intros World Payload getenv requests_post endpoint payload w.
  unfold call_cloud_run, call_cloud_run_body.
  destruct (truthy_opt (getenv "CLOUD_RUN_URL")) eqn:Eu; simpl;
    [| do 2 eexists; split; [reflexivity |]; split;
       [right; simpl; eauto | intros; discriminate]].
  destruct (truthy_opt (getenv "CLOUD_RUN_TOKEN")) eqn:Et; simpl;
    [| do 2 eexists; split; [reflexivity |]; split;
       [right; simpl; eauto | intros; discriminate]].
  match goal with
  | |- context [requests_post ?u ?h payload 30%Z w] =>
      destruct (requests_post u h payload 30%Z w) as [[r | c msg] w'] eqn:Ep
  end.
  - destruct (raise_for_status r) as [[] | c msg] eqn:Er.
    + destruct (response_json r) as [x | c msg] eqn:Ej.
      * do 2 eexists. split; [reflexivity |]. split.
        -- left. simpl. repeat split. exists r, x. repeat split; assumption.
        -- intros r' x' w1 _ _ [= <- <-] _ Hx. rewrite Ej in Hx.
           injection Hx as <-. split; reflexivity.
      * do 2 eexists. split; [reflexivity |]. split.
        -- right. destruct c; simpl; eauto.
        -- intros r' x' w1 _ _ [= <- <-] _ Hx. rewrite Ej in Hx. discriminate.
    + do 2 eexists. split; [reflexivity |]. split.
      * right. destruct c; simpl; eauto.
      * intros r' x' w1 _ _ [= <- <-] Hs. rewrite Er in Hs. discriminate.
  - do 2 eexists. split; [reflexivity |]. split.
    + right. destruct c; simpl; eauto.
    + intros r' x' w1 _ _ [=].
Qed.

Lemma call_cloud_run_reports_success_or_error_witness :
  call_cloud_run
    (fun k => if String.eqb k "CLOUD_RUN_URL" then Some "https://run.example/"
              else if String.eqb k "CLOUD_RUN_TOKEN" then Some "secret"
              else None)
    (fun url _ (_ : unit) _ (n : nat) =>
       (Returned {| response_status_code := 201%Z; http_error_text := EmptyString;
                    response_json := Returned url |}, S n))
    "/analyze" tt 0
  = (Returned {| CloudRun.data := Some "https://run.example/analyze";
                 CloudRun.success := Some true;
                 CloudRun.status_code := Some 201%Z;
                 CloudRun.error := None |}, 1).
Proof.
  destruct (call_cloud_run_reports_success_or_error nat unit
              (fun k => if String.eqb k "CLOUD_RUN_URL"
                        then Some "https://run.example/"
                        else if String.eqb k "CLOUD_RUN_TOKEN" then Some "secret"
                        else None)
              (fun url _ (_ : unit) _ (n : nat) =>
                 (Returned {| response_status_code := 201%Z;
                              http_error_text := EmptyString;
                              response_json := Returned url |}, S n))
              "/analyze" tt 0) as [d [w' [H [_ Hc]]]].
  destruct (Hc {| response_status_code := 201%Z; http_error_text := EmptyString;
                  response_json := Returned "https://run.example/analyze" |}
              "https://run.example/analyze" 1
              eq_refl eq_refl eq_refl eq_refl eq_refl) as [Hd Hw].
  rewrite Hd, Hw in H. exact H.
Defined.

(** X14. When [CLOUD_RUN_URL] or [CLOUD_RUN_TOKEN] is unset or empty,
    [call_cloud_run] sends no request: it leaves the world as it is and
    returns the not-configured error. *)
Theorem call_cloud_run_needs_both_variables :
  forall (World Payload : Type) (getenv : string -> option string)
         (requests_post : string -> list (string * string) -> Payload -> Z ->
                          World -> outcome Response * World)
         (endpoint : string) (payload : Payload) (w : World),
    truthy_opt (getenv "CLOUD_RUN_URL") = false \/
    truthy_opt (getenv "CLOUD_RUN_TOKEN") = false ->
    call_cloud_run getenv requests_post endpoint payload w =
    (Returned
       (CloudRun.failure
          "Cloud Run not configured. Set CLOUD_RUN_URL and CLOUD_RUN_TOKEN in .env"),
     w).
Proof.
  intros World Payload getenv requests_post endpoint payload w H.
  unfold call_cloud_run, call_cloud_run_body.
  destruct H as [-> | ->]; simpl; [reflexivity |].
  now rewrite orb_true_r.
Qed.

Lemma call_cloud_run_needs_both_variables_witness :
  call_cloud_run
    (fun k => if String.eqb k "CLOUD_RUN_URL" then Some "https://run.example"
              else if String.eqb k "CLOUD_RUN_TOKEN" then Some EmptyString
              else None)
    (fun _ _ (_ : unit) _ (n : nat) => (Raised OtherError "no network", S n))
    "/analyze" tt 0
  = (Returned
       (CloudRun.failure
          "Cloud Run not configured. Set CLOUD_RUN_URL and CLOUD_RUN_TOKEN in .env"),
     0).
Proof.
  apply call_cloud_run_needs_both_variables. right. reflexivity.
Defined.

(** X15. For a [CLOUD_RUN_URL] that is not empty, a slash added at its
    end makes no difference: two environments that differ only by such a
    slash give the same request and the same result.  (An empty
    [CLOUD_RUN_URL] is different: it counts as not configured, while a
    lone slash is a configured URL.) *)
Theorem call_cloud_run_ignores_trailing_slash :
  forall (World Payload : Type) (getenv1 getenv2 : string -> option string)
         (requests_post : string -> list (string * string) -> Payload -> Z ->
                          World -> outcome Response * World)
         (endpoint : string) (payload : Payload) (w : World) (base : string),
    base <> EmptyString ->
    getenv1 "CLOUD_RUN_URL" = Some base ->
    getenv2 "CLOUD_RUN_URL" = Some (base ++ "/") ->
    getenv1 "CLOUD_RUN_TOKEN" = getenv2 "CLOUD_RUN_TOKEN" ->
    call_cloud_run getenv1 requests_post endpoint payload w =
    call_cloud_run getenv2 requests_post endpoint payload w.
Proof.
  intros World Payload getenv1 getenv2 requests_post endpoint payload w base
         Hb H1 H2 Ht.
  unfold call_cloud_run, call_cloud_run_body.
  rewrite H1, H2, Ht. simpl get.
  change (base ++ "/") with (base ++ String "/" EmptyString).
  rewrite rstrip_char_snoc.
  assert (E : truthy_opt (Some base) = truthy_opt (Some (base ++ String "/" EmptyString))).
  { destruct base; [congruence | reflexivity]. }
  now rewrite E.
Qed.

Lemma call_cloud_run_ignores_trailing_slash_witness :
  call_cloud_run
    (fun k => if String.eqb k "CLOUD_RUN_URL" then Some "https://run.example"
              else Some "secret")
    (fun url _ (_ : unit) _ (n : nat) =>
       (Returned {| response_status_code := 200%Z; http_error_text := EmptyString;
                    response_json := Returned url |}, S n))
    "/analyze" tt 0
  =
  call_cloud_run
    (fun k => if String.eqb k "CLOUD_RUN_URL" then Some "https://run.example/"
              else Some "secret")
    (fun url _ (_ : unit) _ (n : nat) =>
       (Returned {| response_status_code := 200%Z; http_error_text := EmptyString;
                    response_json := Returned url |}, S n))
    "/analyze" tt 0.
Proof.
  apply (call_cloud_run_ignores_trailing_slash nat unit _ _ _ "/analyze" tt 0
           "https://run.example").
  - discriminate.
  - reflexivity.
  - reflexivity.
  - reflexivity.
Defined.

Example call_cloud_run_posts_to_joined_url :
  call_cloud_run
    (fun k => if String.eqb k "CLOUD_RUN_URL" then Some "https://run.example//"
              else Some "secret")
    (fun url _ (_ : unit) _ (n : nat) =>
       (Returned {| response_status_code := 200%Z; http_error_text := EmptyString;
                    response_json := Returned url |}, S n))
    "/analyze" tt 0
  = (Returned {| CloudRun.data := Some "https://run.example/analyze";
                 CloudRun.success := Some true;
                 CloudRun.status_code := Some 200%Z;
                 CloudRun.error := None |}, 1).
Proof. reflexivity. Qed.

Example call_cloud_run_reports_http_error :
  call_cloud_run
    (fun _ => Some "x")
    (fun url _ (_ : unit) _ (n : nat) =>
       (Returned {| response_status_code := 503%Z;
                    http_error_text := "503 Server Error";
                    response_json := Returned "{}" |}, S n))
    "/analyze" tt 0
  = (Returned (CloudRun.failure "Cloud Run request failed: 503 Server Error"), 1).
Proof. reflexivity. Qed.

Example call_cloud_run_lone_slash_is_configured :
  call_cloud_run
    (fun k => if String.eqb k "CLOUD_RUN_URL" then Some EmptyString
              else Some "secret")
    (fun url _ (_ : unit) _ (n : nat) =>
       (Returned {| response_status_code := 200%Z; http_error_text := EmptyString;
                    response_json := Returned url |}, S n))
    "/analyze" tt 0
  = (Returned
       (CloudRun.failure
          "Cloud Run not configured. Set CLOUD_RUN_URL and CLOUD_RUN_TOKEN in .env"),
     0) /\
  call_cloud_run
    (fun k => if String.eqb k "CLOUD_RUN_URL" then Some "/"
              else Some "secret")
    (fun url _ (_ : unit) _ (n : nat) =>
       (Returned {| response_status_code := 200%Z; http_error_text := EmptyString;
                    response_json := Returned url |}, S n))
    "/analyze" tt 0
  = (Returned {| CloudRun.data := Some "/analyze";
                 CloudRun.success := Some true;
                 CloudRun.status_code := Some 200%Z;
                 CloudRun.error := None |}, 1).
Proof. split; reflexivity. Qed.

(** ** Python strings: white space *)

Lemma lstrip_eq (s : string) :
  PyStr.lstrip s =
  match PyStr.after_space s with
  | Some r => PyStr.lstrip r
  | None => s
  end.
Proof.
  destruct s as [|a [|b [|c s]]]; simpl; try reflexivity.
  - destruct (PyStr.isspace1 a); reflexivity.
  - destruct (PyStr.isspace1 a); [reflexivity |].
    destruct (PyStr.isspace2 a b); reflexivity.
  - destruct (PyStr.isspace1 a); [reflexivity |].
    destruct (PyStr.isspace2 a b); [reflexivity |].
    destruct (PyStr.isspace3 a b c); reflexivity.
Qed.

Lemma rstrip_eq (a : ascii) (s : string) :
  PyStr.rstrip (String a s) =
  match PyStr.lstrip (String a s) with
  | EmptyString => EmptyString
  | String _ _ => String a (PyStr.rstrip s)
  end.
Proof. reflexivity. Qed.

Lemma after_space_shorter (s r : string) :
  PyStr.after_space s = Some r -> String.length r < String.length s.
Proof.
  destruct s as [|a [|b [|c s]]]; simpl; try discriminate.
  - destruct (PyStr.isspace1 a); [intros [= <-]; simpl; lia | discriminate].
  - destruct (PyStr.isspace1 a); [intros [= <-]; simpl; lia |].
    destruct (PyStr.isspace2 a b); [intros [= <-]; simpl; lia | discriminate].
  - destruct (PyStr.isspace1 a); [intros [= <-]; simpl; lia |].
    destruct (PyStr.isspace2 a b); [intros [= <-]; simpl; lia |].
    destruct (PyStr.isspace3 a b c); [intros [= <-]; simpl; lia | discriminate].
Qed.

Lemma after_space_app (s r t : string) :
  PyStr.after_space s = Some r -> PyStr.after_space (s ++ t) = Some (r ++ t).
Proof.
  destruct s as [|a [|b [|c s]]]; simpl; try discriminate.
  - destruct (PyStr.isspace1 a); [now intros [= <-] | discriminate].
  - destruct (PyStr.isspace1 a); [now intros [= <-] |].
    destruct (PyStr.isspace2 a b); [now intros [= <-] | discriminate].
  - destruct (PyStr.isspace1 a); [now intros [= <-] |].
    destruct (PyStr.isspace2 a b); [now intros [= <-] |].
    destruct (PyStr.isspace3 a b c); [now intros [= <-] | discriminate].
Qed.

(** What [lstrip] leaves does not begin with white space. *)
Lemma lstrip_no_lead (s : string) :
  PyStr.after_space (PyStr.lstrip s) = None.
Proof.
  remember (String.length s) as n eqn:Hn.
  revert s Hn. induction n as [n IH] using lt_wf_ind. intros s Hn.
  rewrite lstrip_eq. destruct (PyStr.after_space s) as [r |] eqn:E; [| exact E].
  apply (IH (String.length r)); [| reflexivity].
  subst n. now apply after_space_shorter.
Qed.

Lemma lstrip_fixed (s : string) :
  PyStr.after_space s = None -> PyStr.lstrip s = s.
Proof. intros E. now rewrite lstrip_eq, E. Qed.

(** White space only, followed by [t]: what is left is what is left of [t]. *)
Lemma lstrip_app_blank (s t : string) :
  PyStr.lstrip s = EmptyString -> PyStr.lstrip (s ++ t) = PyStr.lstrip t.
Proof.
  remember (String.length s) as n eqn:Hn.
  revert s Hn. induction n as [n IH] using lt_wf_ind. intros s Hn.
  rewrite (lstrip_eq s).
  destruct (PyStr.after_space s) as [r |] eqn:E.
  - intros Hr. rewrite (lstrip_eq (s ++ t)), (after_space_app _ _ t E).
    apply (IH (String.length r)); [| reflexivity | exact Hr].
    subst n. now apply after_space_shorter.
  - intros ->. reflexivity.
Qed.

(** [rstrip] cuts white space only. *)
Lemma rstrip_cut (s : string) :
  exists t, s = PyStr.rstrip s ++ t /\ PyStr.lstrip t = EmptyString.
Proof.
  induction s as [|a s [t [Hs Ht]]].
  - exists EmptyString. split; reflexivity.
  - rewrite rstrip_eq.
    destruct (PyStr.lstrip (String a s)) as [|b r] eqn:E.
    + exists (String a s). split; [reflexivity | exact E].
    + exists t. split; [| exact Ht]. simpl. now rewrite <- Hs.
Qed.

Lemma rstrip_idempotent (s : string) :
  PyStr.rstrip (PyStr.rstrip s) = PyStr.rstrip s.
Proof.
  induction s as [|a s IH]; [reflexivity |].
  rewrite rstrip_eq.
  destruct (PyStr.lstrip (String a s)) as [|b r] eqn:E; [reflexivity |].
  rewrite rstrip_eq, IH.
  destruct (PyStr.lstrip (String a (PyStr.rstrip s))) as [|b' r'] eqn:E';
    [| reflexivity].
  destruct (rstrip_cut s) as [t [Hs Ht]].
  apply (lstrip_app_blank _ t) in E'.
  change (String a (PyStr.rstrip s) ++ t)
    with (String a (PyStr.rstrip s ++ t)) in E'.
  rewrite <- Hs, Ht in E'. congruence.
Qed.

(** [rstrip] keeps a first character that is not white space. *)
Lemma rstrip_no_lead (s : string) :
  PyStr.after_space s = None -> PyStr.after_space (PyStr.rstrip s) = None.
Proof.
  intros E. destruct (rstrip_cut s) as [t [Hs _]].
  destruct (PyStr.after_space (PyStr.rstrip s)) as [r |] eqn:E'; [| reflexivity].
  apply (after_space_app _ _ t) in E'. rewrite <- Hs in E'. congruence.
Qed.

Lemma strip_idempotent (s : string) :
  PyStr.strip (PyStr.strip s) = PyStr.strip s.
Proof.
  unfold PyStr.strip.
  rewrite (lstrip_fixed (PyStr.rstrip (PyStr.lstrip s))).
  - apply rstrip_idempotent.
  - apply rstrip_no_lead, lstrip_no_lead.
Qed.

(** Every white-space character of Python is removed at both ends, and
    a zero-width space (U+200B), which is not one, stays. *)
Example strip_removes_each_whitespace :
  forallb (fun w => String.eqb (PyStr.strip (w ++ "Hello world" ++ w))
                      "Hello world")
    PyStr.whitespace = true.
Proof. vm_compute. reflexivity. Qed.

Example strip_removes_runs_of_whitespace :
  PyStr.strip (PyStr.utf8 [32; 194; 160; 227; 128; 128; 10]
               ++ "a" ++ PyStr.utf8 [194; 160] ++ "b"
               ++ PyStr.utf8 [226; 128; 137; 9; 194; 133])
  = "a" ++ PyStr.utf8 [194; 160] ++ "b".
Proof. vm_compute. reflexivity. Qed.

Example strip_keeps_zero_width_space :
  PyStr.strip (PyStr.utf8 [226; 128; 139] ++ "x") = PyStr.utf8 [226; 128; 139] ++ "x".
Proof. vm_compute. reflexivity. Qed.

(** ** The enhanced report *)

Section ReportFacts.

Variable markup_error : string -> option string.
Variable now : string.

Lemma append_paragraph_ok (t : string) (sty : Report.Style)
    (story story' : list Report.Flowable) :
  Report.append_paragraph markup_error t sty story = Ok story' ->
  story' = (story ++ [Report.Paragraph t sty])%list.
Proof.
  unfold Report.append_paragraph, Report.new_paragraph.
  destruct (markup_error t); [discriminate |]. now intros [= <-].
Qed.

Lemma add_paragraphs_ok (ps : list string)
    (story story' : list Report.Flowable) :
  Report.add_paragraphs markup_error ps story = Ok story' ->
  story' =
    (story ++ map (fun t => Report.Paragraph t Report.body_style)
               (map PyStr.strip
                  (filter (fun p => PyStr.truthy (PyStr.strip p)) ps)))%list.
Proof.
  revert story. induction ps as [|p ps IH]; intros story; simpl.
  - intros [= <-]. now rewrite app_nil_r.
  - destruct (PyStr.truthy (PyStr.strip p)); [| apply IH].
    destruct (Report.append_paragraph markup_error (PyStr.strip p)
                Report.body_style story) as [s1 | e] eqn:E; [| discriminate].
    apply append_paragraph_ok in E. subst s1. intros H.
    rewrite (IH _ H). simpl. now rewrite <- app_assoc.
Qed.

Lemma add_section_ok (title content : string)
    (story story' : list Report.Flowable) :
  Report.add_section markup_error title content story = Ok story' ->
  story' =
    (story ++ [Report.Paragraph title Report.heading_style]
     ++ map (fun t => Report.Paragraph t Report.body_style)
          (map PyStr.strip
             (filter (fun p => PyStr.truthy (PyStr.strip p))
                (split_on (PyStr.nl ++ PyStr.nl) 0 content)))
     ++ [Report.Spacer 1 15])%list.
Proof.
  unfold Report.add_section.
  destruct (Report.append_paragraph markup_error title Report.heading_style
              story) as [s1 | e] eqn:E1; [| discriminate].
  apply append_paragraph_ok in E1. subst s1.
  destruct (Report.add_paragraphs markup_error _ _) as [s2 | e] eqn:E2;
    [| discriminate].
  apply add_paragraphs_ok in E2. subst s2. intros [= <-].
  now rewrite <- !app_assoc.
Qed.

End ReportFacts.

(** X16. When [add_section] returns, it has appended the heading, then
    one body paragraph for each piece of the content between blank lines
    that is not blank, in order, then a spacer; every such paragraph is
    not empty and has no white space at either end, where white space is
    every character for which [str.isspace] holds, U+00A0 and U+3000
    among them. *)
Theorem add_section_paragraphs_are_stripped :
  forall (markup_error : string -> option string) (title content : string)
         (story story' : list Report.Flowable),
    Report.add_section markup_error title content story = Ok story' ->
    exists texts,
      story' =
        (story ++ [Report.Paragraph title Report.heading_style]
         ++ map (fun t => Report.Paragraph t Report.body_style) texts
         ++ [Report.Spacer 1 15])%list /\
      texts = map PyStr.strip
                (filter (fun p => PyStr.truthy (PyStr.strip p))
                   (split_on (PyStr.nl ++ PyStr.nl) 0 content)) /\
      Forall (fun t => t <> EmptyString /\ PyStr.strip t = t) texts.
Proof.
  intros markup_error title content story story' H.
  apply add_section_ok in H. eexists. split; [exact H |].
  split; [reflexivity |].
  apply Forall_forall. intros t Hin. apply in_map_iff in Hin.
  destruct Hin as [p [<- Hp]]. apply filter_In in Hp. destruct Hp as [_ Hp].
  split; [| apply strip_idempotent].
  intros E. rewrite E in Hp. discriminate.
Qed.

Lemma add_section_paragraphs_are_stripped_witness :
  exists texts,
    Report.add_section (fun _ => None) "Executive Summary"
      ("  First point. " ++ PyStr.nl ++ PyStr.nl
       ++ " " ++ PyStr.utf8 [194; 160] ++ " " ++ PyStr.nl ++ PyStr.nl
       ++ PyStr.nl ++ PyStr.utf8 [194; 160] ++ "Second" ++ PyStr.nl
       ++ "point." ++ PyStr.utf8 [227; 128; 128])
      [Report.PageBreak]
    = Ok ([Report.PageBreak]
          ++ [Report.Paragraph "Executive Summary" Report.heading_style]
          ++ map (fun t => Report.Paragraph t Report.body_style) texts
          ++ [Report.Spacer 1 15])%list /\
    texts = ["First point."; "Second" ++ PyStr.nl ++ "point."].
Proof.
  destruct (add_section_paragraphs_are_stripped (fun _ => None)
              "Executive Summary"
              ("  First point. " ++ PyStr.nl ++ PyStr.nl
               ++ " " ++ PyStr.utf8 [194; 160] ++ " " ++ PyStr.nl ++ PyStr.nl
               ++ PyStr.nl ++ PyStr.utf8 [194; 160] ++ "Second" ++ PyStr.nl
               ++ "point." ++ PyStr.utf8 [227; 128; 128])
              [Report.PageBreak] _ eq_refl) as [texts [H1 [H2 _]]].
  exists texts. split; [| exact H2]. rewrite H2. reflexivity.
Defined.

(** X17. The table of the report agrees with itself: for every result
    dictionary the table has seven rows of three cells, the cell of
    Overall Quality reads Approved or Issues Found, and it reads
    Approved exactly when the cells of Data Quality, Analysis Quality
    and Final Quality all read Approved. *)
Theorem metrics_table_is_coherent :
  forall result_dict : ResultDict,
    exists o om ra fp d dm a am f fm,
      Report.metrics_rows (get_quality_summary result_dict) =
        [ ["Metric"; "Value"; "Status"];
          ["Overall Quality"; o; om];
          ["Repositories Analyzed"; ra; "📊"];
          ["Files Processed"; fp; "📁"];
          ["Data Quality"; d; dm];
          ["Analysis Quality"; a; am];
          ["Final Quality"; f; fm] ] /\
      (o = "Approved" \/ o = "Issues Found") /\
      (o = "Approved" <->
       d = "Approved" /\ a = "Approved" /\ f = "Approved") /\
      (o = "Approved" <-> om = "✅").
Proof.
  intros result_dict. unfold Report.metrics_rows.
  do 10 eexists. split; [reflexivity |].
  unfold get_quality_summary, Report.verdict, Report.mark. simpl.
  destruct (get (approved (get (key_data_quality_review result_dict) empty_review)) false);
  destruct (get (approved (get (key_analysis_quality_review result_dict) empty_review)) false);
  destruct (get (approved (get (key_final_quality_review result_dict) empty_review)) false);
  simpl; repeat split; auto; try (intros [? [? ?]]); try discriminate;
  intros; discriminate.
Qed.

Section ReportStructure.

Variable markup_error : string -> option string.
Variable now : string.

Lemma headings_app (s1 s2 : list Report.Flowable) :
  Report.headings (s1 ++ s2) = (Report.headings s1 ++ Report.headings s2)%list.
Proof. unfold Report.headings. apply flat_map_app. Qed.

Lemma headings_bodies (ts : list string) :
  Report.headings (map (fun t => Report.Paragraph t Report.body_style) ts) = [].
Proof. induction ts as [|t ts IH]; simpl; [reflexivity | exact IH]. Qed.

Lemma add_section_headings (title content : string)
    (story story' : list Report.Flowable) :
  Report.add_section markup_error title content story = Ok story' ->
  Report.headings story' = (Report.headings story ++ [title])%list.
Proof.
  intros H. apply add_section_ok in H. subst story'.
  rewrite !headings_app, headings_bodies. reflexivity.
Qed.

Lemma add_review_section_headings (title : string) (r : Review)
    (story story' : list Report.Flowable) :
  Report.add_review_section markup_error title r story = Ok story' ->
  Report.headings story' =
    (Report.headings story
     ++ if Report.truthy_review r then [title] else [])%list.
Proof.
  unfold Report.add_review_section.
  destruct (Report.truthy_review r).
  - apply add_section_headings.
  - intros [= <-]. now rewrite app_nil_r.
Qed.

Lemma generate_enhanced_report_headings (result_dict : ResultDict)
    (story : list Report.Flowable) :
  Report.generate_enhanced_report markup_error now result_dict = Ok story ->
  Report.headings story =
    (["Quality Assurance Summary"; "Executive Summary"]
     ++ (if Report.truthy_review
              (Summary.data_quality (get_quality_summary result_dict))
         then ["Data Quality Review"] else [])
     ++ (if Report.truthy_review
              (Summary.analysis_quality (get_quality_summary result_dict))
         then ["Analysis Quality Review"] else [])
     ++ (if Report.truthy_review
              (Summary.final_quality (get_quality_summary result_dict))
         then ["Final Quality Review"] else [])
     ++ ["Report Metadata"])%list.
Proof.
  unfold Report.generate_enhanced_report.
  destruct (Report.add_title markup_error _ _ []) as [s1 | e] eqn:E1;
    [| discriminate].
  destruct (Report.add_quality_metrics_table markup_error _ s1)
    as [s2 | e] eqn:E2; [| discriminate].
  destruct (Report.add_section markup_error _ _ s2) as [s3 | e] eqn:E3;
    [| discriminate].
  destruct (Report.add_quality_appendix markup_error _ s3) as [s4 | e] eqn:E4;
    [| discriminate].
  intros E5.
  (* the title *)
  unfold Report.add_title in E1.
  destruct (Report.append_paragraph markup_error _ Report.title_style [])
    as [t1 | e] eqn:T1; [| discriminate].
  apply append_paragraph_ok in T1. subst t1.
  cbn [PyStr.truthy] in E1.
  destruct (Report.append_paragraph markup_error _ Report.subtitle_style _)
    as [t2 | e] eqn:T2; [| discriminate].
  apply append_paragraph_ok in T2. subst t2. injection E1 as <-.
  (* the table *)
  unfold Report.add_quality_metrics_table in E2.
  destruct (Report.append_paragraph markup_error _ Report.heading_style _)
    as [t3 | e] eqn:T3; [| discriminate].
  apply append_paragraph_ok in T3. subst t3. injection E2 as <-.
  (* the summary *)
  apply add_section_headings in E3.
  (* the appendix *)
  unfold Report.add_quality_appendix in E4.
  destruct (Report.append_paragraph markup_error _ Report.title_style _)
    as [t4 | e] eqn:T4; [| discriminate].
  apply append_paragraph_ok in T4. subst t4.
  destruct (Report.add_review_section markup_error "Data Quality Review" _ _)
    as [a1 | e] eqn:A1; [| discriminate].
  destruct (Report.add_review_section markup_error "Analysis Quality Review" _ _)
    as [a2 | e] eqn:A2; [| discriminate].
  apply add_review_section_headings in A1, A2, E4.
  (* the metadata *)
  unfold Report.add_metadata in E5.
  destruct (Report.append_paragraph markup_error _ Report.heading_style _)
    as [t5 | e] eqn:T5; [| discriminate].
  apply append_paragraph_ok in T5. subst t5.
  apply append_paragraph_ok in E5. subst story.
  rewrite !headings_app, E4, A2, A1, !headings_app, E3, ?headings_app.
  cbn [Report.headings flat_map app].
  rewrite <- !app_assoc. reflexivity.
Qed.

End ReportStructure.

(** X18. When [generate_enhanced_report] can build every paragraph, the
    headings of its story are, in order: Quality Assurance Summary,
    Executive Summary, one review heading for each of the three reviews
    whose dictionary is not empty, and Report Metadata.  A review that
    was never written gets no section. *)
Theorem report_sections_follow_the_reviews :
  forall (markup_error : string -> option string) (now : string)
         (result_dict : ResultDict) (story : list Report.Flowable),
    Report.generate_enhanced_report markup_error now result_dict = Ok story ->
    Report.headings story =
      (["Quality Assurance Summary"; "Executive Summary"]
       ++ (if Report.truthy_review
                (get (key_data_quality_review result_dict) empty_review)
           then ["Data Quality Review"] else [])
       ++ (if Report.truthy_review
                (get (key_analysis_quality_review result_dict) empty_review)
           then ["Analysis Quality Review"] else [])
       ++ (if Report.truthy_review
                (get (key_final_quality_review result_dict) empty_review)
           then ["Final Quality Review"] else [])
       ++ ["Report Metadata"])%list.
Proof.
  intros markup_error now result_dict story H.
  apply generate_enhanced_report_headings in H. exact H.
Qed.

Lemma report_sections_follow_the_reviews_witness :
  Report.headings
    (match Report.generate_enhanced_report (fun _ => None) "2024-05-01 10:00:00"
             (as_dict
                (set_data_quality_review
                   (Build_Review (Some "APPROVED") (Some true)
                      (Some "Data Quality Reviewer"))
                   drafted_state)) with
     | Ok story => story
     | Raise _ => []
     end)
  = ["Quality Assurance Summary"; "Executive Summary"; "Data Quality Review";
     "Report Metadata"].
Proof.
  destruct (Report.generate_enhanced_report (fun _ => None) "2024-05-01 10:00:00"
              (as_dict
                 (set_data_quality_review
                    (Build_Review (Some "APPROVED") (Some true)
                       (Some "Data Quality Reviewer"))
                    drafted_state))) as [story | e] eqn:E;
    [| vm_compute in E; discriminate].
  rewrite (report_sections_follow_the_reviews _ _ _ _ E). reflexivity.
Defined.

(** X19. After any run of the workflow the three reviews are written, so
    a report built from the state returned by [run_analysis] always has
    the same six headings, whatever the capabilities did. *)
Theorem report_of_a_run_has_all_sections :
  forall (World : Type) (caps : Capabilities World)
         (user_name selector : string) (w : World)
         (markup_error : string -> option string) (now : string),
    exists st w',
      run_analysis caps user_name selector w = (Ok st, w') /\
      forall story,
        Report.generate_enhanced_report markup_error now (as_dict st) = Ok story ->
        Report.headings story =
          ["Quality Assurance Summary"; "Executive Summary";
           "Data Quality Review"; "Analysis Quality Review";
           "Final Quality Review"; "Report Metadata"].
Proof.
  intros World caps user_name selector w markup_error now.
  destruct (run_analysis_verdicts caps user_name selector w)
    as (st & w' & a & b & c & H & Ha & Hb & Hc).
  exists st, w'. split; [exact H |]. intros story Hs.
  apply generate_enhanced_report_headings in Hs. rewrite Hs.
  unfold get_quality_summary, Report.truthy_review. simpl.
  rewrite Ha, Hb, Hc.
  destruct (review (data_quality_review st)),
           (review (analysis_quality_review st)),
           (review (final_quality_review st)); reflexivity.
Qed.

(** ** The plain report *)

Section PdfFacts.

Variable wrap : string -> list string.

Lemma draw_wrapped_laid_out (ws : list string) (y : Z) (k : list Pdf.CanvasOp) :
  (y <= Pdf.height - 50)%Z ->
  Pdf.laid_out y (fst (Pdf.draw_wrapped ws y) ++ k)
    = Pdf.laid_out (snd (Pdf.draw_wrapped ws y)) k /\
  (snd (Pdf.draw_wrapped ws y) <= Pdf.height - 50)%Z.
Proof.
  revert y. induction ws as [|w ws IH]; intros y Hy; [split; [reflexivity | exact Hy] |].
  cbn [Pdf.draw_wrapped]. unfold Pdf.new_page_if_low.
  destruct (y <? 50)%Z eqn:E.
  - destruct (IH (Pdf.height - 50 - 12)%Z) as [H1 H2]; [unfold Pdf.height; lia |].
    destruct (Pdf.draw_wrapped ws (Pdf.height - 50 - 12)) as [ops y2].
    cbn [fst snd] in *. split; [| exact H2]. rewrite <- H1. reflexivity.
  - apply Z.ltb_ge in E.
    destruct (IH (y - 12)%Z) as [H1 H2]; [lia |].
    destruct (Pdf.draw_wrapped ws (y - 12)) as [ops y2].
    cbn [fst snd app] in *. split; [| exact H2]. rewrite <- H1.
    cbn [Pdf.laid_out].
    rewrite !Z.eqb_refl.
    replace (50 <=? y)%Z with true by (symmetry; apply Z.leb_le; lia).
    replace (y <=? Pdf.height - 50)%Z with true by (symmetry; apply Z.leb_le; lia).
    reflexivity.
Qed.

Lemma draw_wrapped_first (w : string) (ws : list string) (y : Z) :
  (50 <= y)%Z ->
  exists ops,
    fst (Pdf.draw_wrapped (w :: ws) y) = Pdf.DrawString 50 y w :: ops.
Proof.
  intros Hy. cbn [Pdf.draw_wrapped]. unfold Pdf.new_page_if_low.
  replace (y <? 50)%Z with false by (symmetry; apply Z.ltb_ge; lia).
  destruct (Pdf.draw_wrapped ws (y - 12)) as [ops y2]. exists ops. reflexivity.
Qed.

Lemma draw_report_laid_out (lines : list string) (y : Z) (k : list Pdf.CanvasOp) :
  (y <= Pdf.height - 50)%Z ->
  Pdf.laid_out y (fst (Pdf.draw_report wrap lines y) ++ k)
    = Pdf.laid_out (snd (Pdf.draw_report wrap lines y)) k /\
  (snd (Pdf.draw_report wrap lines y) <= Pdf.height - 50)%Z.
Proof.
  revert y. induction lines as [|line lines IH]; intros y Hy;
    [split; [reflexivity | exact Hy] |].
  cbn [Pdf.draw_report].
  set (ws := match wrap line with [] => [EmptyString] | _ :: _ => wrap line end).
  assert (Hws : exists w ws', ws = w :: ws').
  { unfold ws. destruct (wrap line) as [|w ws']; eauto. }
  destruct Hws as [w [ws' Hws]].
  replace (match wrap line with [] => [EmptyString] | s :: l => s :: l end)
    with ws by (unfold ws; now destruct (wrap line)).
  unfold Pdf.new_page_if_low.
  destruct (y <? 50)%Z eqn:E.
  - destruct (draw_wrapped_laid_out ws (Pdf.height - 50)%Z
                (fst (Pdf.draw_report wrap lines
                        (snd (Pdf.draw_wrapped ws (Pdf.height - 50)))) ++ k))
      as [H1 H2]; [lia |].
    destruct (draw_wrapped_first w ws' (Pdf.height - 50)%Z) as [ops0 Hf];
      [unfold Pdf.height; lia |].
    rewrite <- Hws in Hf.
    destruct (Pdf.draw_wrapped ws (Pdf.height - 50)) as [ops y2].
    cbn [fst snd] in *.
    destruct (IH y2 H2) as [H3 H4].
    destruct (Pdf.draw_report wrap lines y2) as [ops' y3].
    cbn [fst snd] in *. split; [| exact H4].
    rewrite <- H3, <- H1, <- !app_assoc. reflexivity.
  - apply Z.ltb_ge in E.
    destruct (draw_wrapped_laid_out ws y
                (fst (Pdf.draw_report wrap lines
                        (snd (Pdf.draw_wrapped ws y))) ++ k))
      as [H1 H2]; [lia |].
    destruct (Pdf.draw_wrapped ws y) as [ops y2].
    cbn [fst snd] in *.
    destruct (IH y2 H2) as [H3 H4].
    destruct (Pdf.draw_report wrap lines y2) as [ops' y3].
    cbn [fst snd app] in *. split; [| exact H4].
    rewrite <- H3, <- H1, <- !app_assoc. reflexivity.
Qed.

Lemma drawn_app (o1 o2 : list Pdf.CanvasOp) :
  Pdf.drawn (o1 ++ o2) = (Pdf.drawn o1 ++ Pdf.drawn o2)%list.
Proof. unfold Pdf.drawn. apply flat_map_app. Qed.

Lemma draw_wrapped_drawn (ws : list string) (y : Z) :
  Pdf.drawn (fst (Pdf.draw_wrapped ws y)) = ws.
Proof.
  revert y. induction ws as [|w ws IH]; intros y; [reflexivity |].
  cbn [Pdf.draw_wrapped]. unfold Pdf.new_page_if_low.
  destruct (y <? 50)%Z.
  - specialize (IH (Pdf.height - 50 - 12)%Z).
    destruct (Pdf.draw_wrapped ws (Pdf.height - 50 - 12)) as [ops y2].
    cbn [fst] in *. change (w :: Pdf.drawn ops = w :: ws). now rewrite IH.
  - specialize (IH (y - 12)%Z).
    destruct (Pdf.draw_wrapped ws (y - 12)) as [ops y2].
    cbn [fst] in *. change (w :: Pdf.drawn ops = w :: ws). now rewrite IH.
Qed.

Lemma draw_report_drawn (lines : list string) (y : Z) :
  Pdf.drawn (fst (Pdf.draw_report wrap lines y)) =
  flat_map (fun line => match wrap line with
                        | [] => [EmptyString]
                        | w => w
                        end) lines.
Proof.
  revert y. induction lines as [|line lines IH]; intros y; [reflexivity |].
  cbn [Pdf.draw_report flat_map].
  set (ws := match wrap line with [] => [EmptyString] | _ :: _ => wrap line end).
  replace (match wrap line with [] => [EmptyString] | s :: l => s :: l end)
    with ws by (unfold ws; now destruct (wrap line)).
  assert (Hp : Pdf.drawn (fst (Pdf.new_page_if_low y)) = []).
  { unfold Pdf.new_page_if_low. now destruct (y <? 50)%Z. }
  destruct (Pdf.new_page_if_low y) as [page y1].
  pose proof (draw_wrapped_drawn ws y1) as Hw.
  destruct (Pdf.draw_wrapped ws y1) as [ops y2].
  specialize (IH y2).
  destruct (Pdf.draw_report wrap lines y2) as [ops' y3].
  cbn [fst] in *. rewrite !drawn_app, Hp, Hw, IH. reflexivity.
Qed.

End PdfFacts.

(** X20. In the plain report every line of the body is drawn at the
    left margin, between the bottom margin (y = 50) and the top margin
    (y = 742), exactly 12 points under the line before it or at the top
    of a new page, and each page break is followed by the font of the
    body; the body starts at y = 562, after the header and before the
    footer. *)
Theorem build_pdf_keeps_the_margins :
  forall (splitlines wrap : string -> list string) (now report user_name : string)
         (quality_summary : Summary.t) (outfile : string),
    exists body,
      Pdf.build_pdf splitlines wrap now report user_name quality_summary outfile
        = (Pdf.header user_name quality_summary outfile ++ body
           ++ Pdf.footer now)%list /\
      Pdf.laid_out 562 body = true.
Proof.
  intros splitlines wrap now report user_name quality_summary outfile.
  eexists. split; [reflexivity |].
  destruct (draw_report_laid_out wrap (splitlines report) (Pdf.height - 230) [])
    as [H _]; [unfold Pdf.height; lia |].
  rewrite app_nil_r in H. exact H.
Qed.

(** X21. The plain report loses no text: the texts drawn in the body
    are, in order, the wrapped pieces of every line of the report, a
    line that wraps to nothing being drawn as one empty line. *)
Theorem build_pdf_draws_every_line :
  forall (splitlines wrap : string -> list string) (now report user_name : string)
         (quality_summary : Summary.t) (outfile : string),
    Pdf.drawn
      (Pdf.build_pdf splitlines wrap now report user_name quality_summary outfile)
    = (Pdf.drawn (Pdf.header user_name quality_summary outfile)
       ++ flat_map (fun line => match wrap line with
                                | [] => [EmptyString]
                                | w => w
                                end) (splitlines report)
       ++ Pdf.drawn (Pdf.footer now))%list.
Proof.
  intros splitlines wrap now report user_name quality_summary outfile.
  unfold Pdf.build_pdf. now rewrite !drawn_app, draw_report_drawn.
Qed.

(** Sixty numbered lines: the forty-third is the last of the first
    page. *)
Example build_pdf_breaks_the_page :
  let ops :=
    fst (Pdf.draw_report (fun l => [l])
           (map (fun n => PyStr.str_of_int (Z.of_nat n)) (seq 1 60))
           (Pdf.height - 230)) in
  nth 42 ops Pdf.Save = Pdf.DrawString 50 58 "43" /\
  nth 43 ops Pdf.Save = Pdf.ShowPage /\
  nth 44 ops Pdf.Save = Pdf.SetFont "Helvetica" 10 /\
  nth 45 ops Pdf.Save = Pdf.DrawString 50 742 "44".
Proof. vm_compute. repeat split. Qed.

(** ** The configuration *)

Lemma assoc_get_set_same {A} (k : string) (v : A) (d : list (string * A)) :
  assoc_get k (assoc_set k v d) = Some v.
Proof.
  induction d as [|[k0 v0] d IH]; simpl.
  - now rewrite String.eqb_refl.
  - destruct (String.eqb k0 k) eqn:E; simpl.
    + now rewrite String.eqb_refl.
    + now rewrite E.
Qed.

Lemma assoc_get_set_other {A} (k k' : string) (v : A) (d : list (string * A)) :
  k' <> k -> assoc_get k' (assoc_set k v d) = assoc_get k' d.
Proof.
  intros Hne. induction d as [|[k0 v0] d IH]; simpl.
  - destruct (String.eqb k k') eqn:E; [| reflexivity].
    apply String.eqb_eq in E. congruence.
  - destruct (String.eqb k0 k) eqn:E; simpl.
    + apply String.eqb_eq in E. subst k0.
      destruct (String.eqb k k') eqn:E'; [| reflexivity].
      apply String.eqb_eq in E'. congruence.
    + now rewrite IH.
Qed.

Section ConfigFacts.

Variable LLM : Type.
Variable construct : Config.LLMSpec -> result LLM.
Variable getenv : string -> option string.
Variable grok_available : bool.

Lemma add_if_key_spec (var key : string) (spec : Config.LLMSpec)
    (d d' : list (string * LLM)) :
  Config.add_if_key LLM construct getenv var key spec d = Ok d' ->
  (forall k, k <> key -> assoc_get k d' = assoc_get k d) /\
  (truthy_opt (getenv var) = true ->
   exists llm, construct spec = Ok llm /\ assoc_get key d' = Some llm) /\
  (truthy_opt (getenv var) = false -> assoc_get key d' = assoc_get key d).
Proof.
  unfold Config.add_if_key. destruct (truthy_opt (getenv var)).
  - destruct (construct spec) as [llm | e]; [| discriminate].
    intros [= <-]. repeat split.
    + intros k Hk. now apply assoc_get_set_other.
    + intros _. exists llm. split; [reflexivity | apply assoc_get_set_same].
    + discriminate.
  - intros [= <-]. repeat split; [discriminate].
Qed.

(** The entries of [LLM_CONFIG]: one for each provider whose key is
    set, and always one for Grok. *)
Lemma get_available_llms_spec (cfg : list (string * LLM)) :
  Config.get_available_llms LLM construct getenv grok_available = Ok cfg ->
  (exists grok, assoc_get "grok4" cfg = Some grok) /\
  (if truthy_opt (getenv "OPENAI_API_KEY")
   then exists llm, assoc_get "gpt4o" cfg = Some llm
   else assoc_get "gpt4o" cfg = None) /\
  (if truthy_opt (getenv "GOOGLE_API_KEY")
   then exists llm, assoc_get "gemini2.5" cfg = Some llm
   else assoc_get "gemini2.5" cfg = None) /\
  (if truthy_opt (getenv "ANTHROPIC_API_KEY")
   then exists llm, assoc_get "claude3.5" cfg = Some llm
   else assoc_get "claude3.5" cfg = None).
Proof.
  unfold Config.get_available_llms.
  destruct (Config.add_if_key LLM construct getenv "OPENAI_API_KEY" _ _ [])
    as [d1 | e] eqn:E1; [| discriminate].
  destruct (Config.add_if_key LLM construct getenv "GOOGLE_API_KEY" _ _ d1)
    as [d2 | e] eqn:E2; [| discriminate].
  destruct (Config.add_if_key LLM construct getenv "ANTHROPIC_API_KEY" _ _ d2)
    as [d3 | e] eqn:E3; [| discriminate].
  destruct (Config.get_grok_llm LLM construct getenv grok_available)
    as [grok | e]; [| discriminate].
  intros [= <-].
  apply add_if_key_spec in E1, E2, E3.
  destruct E1 as [O1 [T1 F1]], E2 as [O2 [T2 F2]], E3 as [O3 [T3 F3]].
  split; [exists grok; apply assoc_get_set_same |].
  rewrite !(assoc_get_set_other "grok4") by discriminate.
  split; [| split].
  - rewrite (O3 "gpt4o"), (O2 "gpt4o") by discriminate.
    destruct (truthy_opt (getenv "OPENAI_API_KEY")).
    + destruct (T1 eq_refl) as [llm [_ H]]. eauto.
    + now rewrite F1.
  - rewrite (O3 "gemini2.5") by discriminate.
    destruct (truthy_opt (getenv "GOOGLE_API_KEY")).
    + destruct (T2 eq_refl) as [llm [_ H]]. eauto.
    + rewrite F2 by reflexivity. rewrite (O1 "gemini2.5") by discriminate.
      reflexivity.
  - destruct (truthy_opt (getenv "ANTHROPIC_API_KEY")).
    + destruct (T3 eq_refl) as [llm [_ H]]. eauto.
    + rewrite F3 by reflexivity. rewrite (O2 "claude3.5"), (O1 "claude3.5")
        by discriminate. reflexivity.
Qed.

Lemma get_default_llm_returns (cfg : list (string * LLM)) (grok : LLM) :
  assoc_get "grok4" cfg = Some grok ->
  exists llm, Config.get_default_llm LLM cfg = Ok llm.
Proof.
  intros H. unfold Config.get_default_llm.
  destruct (assoc_get "gpt4o" cfg); [eauto |].
  destruct (assoc_get "claude3.5" cfg); [eauto |].
  destruct (assoc_get "gemini2.5" cfg); [eauto |].
  rewrite H. eauto.
Qed.

End ConfigFacts.

(** X22. The import of [config.py] never ends with the error
    No LLM providers available: whenever [get_available_llms] returns,
    its dictionary has a Grok entry, [get_default_llm] returns a client
    and [get_agent_llm_config] returns its dictionary.  The import can
    only fail inside a constructor. *)
Theorem default_llm_always_exists :
  forall (LLM : Type) (construct : Config.LLMSpec -> result LLM)
         (getenv : string -> option string) (grok_available : bool)
         (cfg : list (string * LLM)),
    Config.get_available_llms LLM construct getenv grok_available = Ok cfg ->
    exists grok default agents,
      assoc_get "grok4" cfg = Some grok /\
      Config.get_default_llm LLM cfg = Ok default /\
      Config.get_agent_llm_config LLM cfg = Ok agents /\
      Config.import_config LLM construct getenv grok_available
        = Ok (cfg, default, agents).
Proof.
  intros LLM construct getenv grok_available cfg H.
  destruct (get_available_llms_spec LLM construct getenv grok_available cfg H)
    as [[grok Hg] _].
  destruct (get_default_llm_returns LLM cfg grok Hg) as [default Hd].
  exists grok, default. eexists. split; [exact Hg |]. split; [exact Hd |].
  unfold Config.import_config, Config.get_agent_llm_config.
  rewrite H, Hd. split; reflexivity.
Qed.

Lemma default_llm_always_exists_witness :
  exists grok default agents,
    assoc_get "grok4" [("grok4", Config.ChatOpenAI None "gpt-4o")] = Some grok /\
    Config.get_default_llm Config.LLMSpec
      [("grok4", Config.ChatOpenAI None "gpt-4o")] = Ok default /\
    Config.get_agent_llm_config Config.LLMSpec
      [("grok4", Config.ChatOpenAI None "gpt-4o")] = Ok agents /\
    Config.import_config Config.LLMSpec Ok (fun _ => None) false
      = Ok ([("grok4", Config.ChatOpenAI None "gpt-4o")], default, agents).
Proof.
  apply (default_llm_always_exists Config.LLMSpec Ok (fun _ => None) false).
  reflexivity.
Defined.

(** X23. When [config.py] is imported, [AGENT_LLM_CONFIG] has a client
    under every key that [agents.py] reads.  The three reviewers share
    one client, which is Claude when [ANTHROPIC_API_KEY] is set and the
    default otherwise; the analyzer has GPT-4o when [OPENAI_API_KEY] is
    set and the default otherwise; the synthesizer has Gemini when
    [GOOGLE_API_KEY] is set and the default otherwise. *)
Theorem agent_roles_are_all_assigned :
  forall (LLM : Type) (construct : Config.LLMSpec -> result LLM)
         (getenv : string -> option string) (grok_available : bool)
         (cfg agents : list (string * LLM)) (default : LLM),
    Config.import_config LLM construct getenv grok_available
      = Ok (cfg, default, agents) ->
    (forall c : Chain, exists llm,
        assoc_get (Config.chain_key c) agents = Some llm) /\
    assoc_get "data_reviewer" agents = assoc_get "analysis_reviewer" agents /\
    assoc_get "data_reviewer" agents = assoc_get "final_reviewer" agents /\
    assoc_get "data_reviewer" agents =
      (if truthy_opt (getenv "ANTHROPIC_API_KEY")
       then assoc_get "claude3.5" cfg else Some default) /\
    assoc_get "analyzer" agents =
      (if truthy_opt (getenv "OPENAI_API_KEY")
       then assoc_get "gpt4o" cfg else Some default) /\
    assoc_get "synthesizer" agents =
      (if truthy_opt (getenv "GOOGLE_API_KEY")
       then assoc_get "gemini2.5" cfg else Some default).
Proof.
  intros LLM construct getenv grok_available cfg agents default H.
  unfold Config.import_config in H.
  destruct (Config.get_available_llms LLM construct getenv grok_available)
    as [cfg' | e] eqn:Ea; [| discriminate].
  destruct (Config.get_default_llm LLM cfg') as [d | e] eqn:Ed; [| discriminate].
  unfold Config.get_agent_llm_config in H. rewrite Ed in H.
  injection H as <- <- <-.
  destruct (get_available_llms_spec LLM construct getenv grok_available cfg' Ea)
    as [_ [Ho [Hg Hc]]].
  split; [intros []; simpl; eauto |].
  split; [reflexivity |]. split; [reflexivity |]. simpl.
  destruct (truthy_opt (getenv "ANTHROPIC_API_KEY"));
  destruct (truthy_opt (getenv "OPENAI_API_KEY"));
  destruct (truthy_opt (getenv "GOOGLE_API_KEY"));
  repeat match goal with
         | H : exists _, _ |- _ => destruct H as [? H]
         end;
  rewrite ?Hc, ?Ho, ?Hg; simpl; repeat split; reflexivity.
Qed.

Lemma agent_roles_are_all_assigned_witness :
  assoc_get "analyzer"
    [("fetcher", Config.ChatOpenAI (Some "sk-1") "gpt-4o");
     ("data_reviewer", Config.ChatAnthropic (Some "sk-2") "claude-3-5-sonnet-20240620");
     ("analyzer", Config.ChatOpenAI (Some "sk-1") "gpt-4o");
     ("analysis_reviewer", Config.ChatAnthropic (Some "sk-2") "claude-3-5-sonnet-20240620");
     ("synthesizer", Config.ChatOpenAI (Some "sk-1") "gpt-4o");
     ("final_reviewer", Config.ChatAnthropic (Some "sk-2") "claude-3-5-sonnet-20240620")]
  = assoc_get "gpt4o"
      [("gpt4o", Config.ChatOpenAI (Some "sk-1") "gpt-4o");
       ("claude3.5", Config.ChatAnthropic (Some "sk-2") "claude-3-5-sonnet-20240620");
       ("grok4", Config.ChatOpenAI (Some "sk-1") "gpt-4o")].
Proof.
  pose (env := fun k : string =>
                 if String.eqb k "OPENAI_API_KEY" then Some "sk-1"
                 else if String.eqb k "ANTHROPIC_API_KEY" then Some "sk-2"
                 else None).
  destruct (agent_roles_are_all_assigned Config.LLMSpec Ok env false
              [("gpt4o", Config.ChatOpenAI (Some "sk-1") "gpt-4o");
               ("claude3.5", Config.ChatAnthropic (Some "sk-2") "claude-3-5-sonnet-20240620");
               ("grok4", Config.ChatOpenAI (Some "sk-1") "gpt-4o")]
              [("fetcher", Config.ChatOpenAI (Some "sk-1") "gpt-4o");
               ("data_reviewer", Config.ChatAnthropic (Some "sk-2") "claude-3-5-sonnet-20240620");
               ("analyzer", Config.ChatOpenAI (Some "sk-1") "gpt-4o");
               ("analysis_reviewer", Config.ChatAnthropic (Some "sk-2") "claude-3-5-sonnet-20240620");
               ("synthesizer", Config.ChatOpenAI (Some "sk-1") "gpt-4o");
               ("final_reviewer", Config.ChatAnthropic (Some "sk-2") "claude-3-5-sonnet-20240620")]
              (Config.ChatOpenAI (Some "sk-1") "gpt-4o") eq_refl)
    as [_ [_ [_ [_ [Han _]]]]].
  exact Han.
Defined.

(** X24. When at most one of [OPENAI_API_KEY], [ANTHROPIC_API_KEY] and
    [GOOGLE_API_KEY] is set, all the roles of [AGENT_LLM_CONFIG] get the
    same client, the default one. *)
Theorem single_provider_serves_every_role :
  forall (LLM : Type) (construct : Config.LLMSpec -> result LLM)
         (getenv : string -> option string) (grok_available : bool)
         (cfg agents : list (string * LLM)) (default : LLM),
    Config.import_config LLM construct getenv grok_available
      = Ok (cfg, default, agents) ->
    (truthy_opt (getenv "OPENAI_API_KEY") = false /\
     truthy_opt (getenv "ANTHROPIC_API_KEY") = false) \/
    (truthy_opt (getenv "OPENAI_API_KEY") = false /\
     truthy_opt (getenv "GOOGLE_API_KEY") = false) \/
    (truthy_opt (getenv "ANTHROPIC_API_KEY") = false /\
     truthy_opt (getenv "GOOGLE_API_KEY") = false) ->
    agents =
      [("fetcher", default); ("data_reviewer", default); ("analyzer", default);
       ("analysis_reviewer", default); ("synthesizer", default);
       ("final_reviewer", default)].
Proof.
  intros LLM construct getenv grok_available cfg agents default H Hone.
  unfold Config.import_config in H.
  destruct (Config.get_available_llms LLM construct getenv grok_available)
    as [cfg' | e] eqn:Ea; [| discriminate].
  destruct (Config.get_default_llm LLM cfg') as [d | e] eqn:Ed; [| discriminate].
  unfold Config.get_agent_llm_config in H. rewrite Ed in H.
  injection H as <- <- <-.
  destruct (get_available_llms_spec LLM construct getenv grok_available cfg' Ea)
    as [_ [Ho [Hg Hc]]].
  unfold Config.get_default_llm in Ed.
  destruct Hone as [[E1 E2] | [[E1 E2] | [E1 E2]]]; rewrite E1, E2 in *.
  - rewrite Ho, Hc in *. simpl.
    destruct (assoc_get "gemini2.5" cfg') as [g |]; simpl; [congruence |].
    reflexivity.
  - rewrite Ho, Hg in *. simpl.
    destruct (assoc_get "claude3.5" cfg') as [c |]; simpl; [congruence |].
    reflexivity.
  - rewrite Hc, Hg in *. simpl.
    destruct (assoc_get "gpt4o" cfg') as [o |]; simpl; [congruence |].
    reflexivity.
Qed.

Lemma single_provider_serves_every_role_witness :
  exists cfg default,
    Config.import_config Config.LLMSpec Ok
      (fun k => if String.eqb k "GOOGLE_API_KEY" then Some "g-1" else None) true
    = Ok (cfg, default,
          [("fetcher", default); ("data_reviewer", default);
           ("analyzer", default); ("analysis_reviewer", default);
           ("synthesizer", default); ("final_reviewer", default)]) /\
    default = Config.ChatGoogleGenerativeAI (Some "g-1") "gemini-1.5-pro".
Proof.
  pose (env := fun k : string =>
                 if String.eqb k "GOOGLE_API_KEY" then Some "g-1" else None).
  destruct (Config.import_config Config.LLMSpec Ok env true)
    as [[[cfg default] agents] | e] eqn:E; [| vm_compute in E; discriminate].
  pose proof (single_provider_serves_every_role Config.LLMSpec Ok env true
                cfg agents default E
                (or_introl (conj eq_refl eq_refl))) as H.
  exists cfg, default. subst agents. fold env. split; [exact E |].
  vm_compute in E. congruence.
Defined.

(** ** The environment check and the choice of the interpreter *)

(** X25. [setup_environment] returns [True] exactly when
    [GITHUB_TOKEN] is set and at least one of the four LLM keys is set;
    whether the [.env] file exists changes the lines printed but never
    the value; and whenever it returns [False] it has printed the line
    that says which variables are missing. *)
Theorem setup_environment_decides_on_keys :
  forall (path_exists : string -> bool) (getenv : string -> option string),
    snd (Main.setup_environment path_exists getenv) =
      truthy_opt (getenv "GITHUB_TOKEN")
      && (truthy_opt (getenv "OPENAI_API_KEY")
          || truthy_opt (getenv "GOOGLE_API_KEY")
          || truthy_opt (getenv "ANTHROPIC_API_KEY")
          || truthy_opt (getenv "GROK_API_KEY")) /\
    (forall path_exists',
        snd (Main.setup_environment path_exists' getenv)
        = snd (Main.setup_environment path_exists getenv)) /\
    (snd (Main.setup_environment path_exists getenv) = false ->
     In "❌ Missing required environment variables: GITHUB_TOKEN"
        (fst (Main.setup_environment path_exists getenv)) \/
     In "⚠️  Warning: No LLM provider API keys found!"
        (fst (Main.setup_environment path_exists getenv))).
Proof.
  intros path_exists getenv.
  assert (Hv : forall pe,
             snd (Main.setup_environment pe getenv) =
             truthy_opt (getenv "GITHUB_TOKEN")
             && (truthy_opt (getenv "OPENAI_API_KEY")
                 || truthy_opt (getenv "GOOGLE_API_KEY")
                 || truthy_opt (getenv "ANTHROPIC_API_KEY")
                 || truthy_opt (getenv "GROK_API_KEY"))).
  { intros pe. unfold Main.setup_environment, Main.required_vars, Main.llm_vars.
    cbn [filter existsb].
    destruct (truthy_opt (getenv "GITHUB_TOKEN")); cbn [negb andb]; [| reflexivity].
    rewrite orb_false_r, !orb_assoc.
    destruct (truthy_opt (getenv "OPENAI_API_KEY")
              || truthy_opt (getenv "GOOGLE_API_KEY")
              || truthy_opt (getenv "ANTHROPIC_API_KEY")
              || truthy_opt (getenv "GROK_API_KEY")); reflexivity. }
  split; [apply Hv |]. split; [intros pe; now rewrite !Hv |].
  unfold Main.setup_environment, Main.required_vars, Main.llm_vars.
  cbn [filter existsb].
  destruct (truthy_opt (getenv "GITHUB_TOKEN")); cbn [negb].
  - rewrite orb_false_r, !orb_assoc.
    destruct (truthy_opt (getenv "OPENAI_API_KEY")
              || truthy_opt (getenv "GOOGLE_API_KEY")
              || truthy_opt (getenv "ANTHROPIC_API_KEY")
              || truthy_opt (getenv "GROK_API_KEY")); cbn [negb fst snd].
    + discriminate.
    + intros _. right. apply in_or_app. right. now left.
  - cbn [fst snd]. intros _. left. apply in_or_app. right. now left.
Qed.

Lemma setup_environment_decides_on_keys_witness :
  In "⚠️  Warning: No LLM provider API keys found!"
     (fst (Main.setup_environment (fun _ => true)
             (fun k => if String.eqb k "GITHUB_TOKEN" then Some "ghp_1" else None))).
Proof.
  destruct (setup_environment_decides_on_keys (fun _ => true)
              (fun k => if String.eqb k "GITHUB_TOKEN" then Some "ghp_1" else None))
    as [_ [_ H]].
  destruct (H eq_refl) as [Hm | Hl]; [| exact Hl].
  vm_compute in Hm. destruct Hm as [Hm | [Hm | [Hm | []]]]; discriminate.
Defined.

(** X26. [get_python_command] probes [python3] first and answers it
    whenever its version is accepted, without probing [python]; it only
    ever answers [python3] or [python]; and an error of the first probe
    other than a missing file is raised at once, [python] not being
    probed. *)
Theorem get_python_command_prefers_python3 :
  forall (World : Type) (run_version : string -> World -> Setup.RunOutcome * World)
         (w : World),
    (Setup.accepted (fst (run_version "python3" w)) = true ->
     Setup.get_python_command run_version w
       = (Ok "python3", snd (run_version "python3" w))) /\
    (forall msg,
        fst (run_version "python3" w) = Setup.Failed msg ->
        Setup.get_python_command run_version w
          = (Raise msg, snd (run_version "python3" w))) /\
    (forall cmd w',
        Setup.get_python_command run_version w = (Ok cmd, w') ->
        (cmd = "python3" \/ cmd = "python") /\
        exists w0, Setup.accepted (fst (run_version cmd w0)) = true /\
                   snd (run_version cmd w0) = w').
Proof.
  intros World run_version w.
  unfold Setup.get_python_command. cbn [Setup.probe].
  destruct (run_version "python3" w) as [[| msg | rc out] w1] eqn:E3;
    cbn [fst snd Setup.accepted].
  - split; [discriminate |]. split; [discriminate |].
    intros cmd w'.
    destruct (run_version "python" w1) as [[| msg | rc out] w2] eqn:E2;
      unfold raise; try discriminate.
    destruct ((rc =? 0)%Z && PyStr.contains "Python 3." out) eqn:A;
      [| discriminate].
    intros [= <- <-]. split; [now right |].
    exists w1. rewrite E2. split; [exact A | reflexivity].
  - split; [discriminate |]. split; [now intros m [= <-] |]. discriminate.
  - destruct ((rc =? 0)%Z && PyStr.contains "Python 3." out) eqn:A3.
    + split; [reflexivity |]. split; [discriminate |].
      intros cmd w' [= <- <-]. split; [now left |].
      exists w. rewrite E3. split; [exact A3 | reflexivity].
    + split; [discriminate |]. split; [discriminate |].
      intros cmd w'.
      destruct (run_version "python" w1) as [[| msg | rc' out'] w2] eqn:E2;
        unfold raise; try discriminate.
      destruct ((rc' =? 0)%Z && PyStr.contains "Python 3." out') eqn:A;
        [| discriminate].
      intros [= <- <-]. split; [now right |].
      exists w1. rewrite E2. split; [exact A | reflexivity].
Qed.

Lemma get_python_command_prefers_python3_witness :
  Setup.get_python_command
    (fun cmd (n : nat) =>
       (if String.eqb cmd "python3" then Setup.Completed 0 "Python 3.7.2"
        else Setup.Completed 0 "Python 3.12.1", S n)) 0
  = (Ok "python3", 1).
Proof.
  destruct (get_python_command_prefers_python3 nat
              (fun cmd (n : nat) =>
                 (if String.eqb cmd "python3" then Setup.Completed 0 "Python 3.7.2"
                  else Setup.Completed 0 "Python 3.12.1", S n)) 0) as [H _].
  apply H. reflexivity.
Defined.
